(** * Goodie: ISBN detection, validation and metadata resolution

    A shallow embedding of the core of the Goodie browser extension:

    - [src/utils/isbn.js]: normalisation, the two checksum validators,
      extraction from page text, ISBN-10 to ISBN-13 conversion, formatting;
    - [src/config/constants.js]: the two ISBN patterns and the cache TTL;
    - [src/utils/storage.js], [src/api/google-books.js],
      [src/api/open-library.js]: the metadata cache kept in
      [chrome.storage.local] and the two metadata providers;
    - [src/background/service-worker.js]: the fallback chain
      [handleFetchBookInfo] and [handleGetDetectedBooks], the ISBNs and the
      badge of the tabs, the search on Goodreads;
    - [src/content/content-script.js]: the scan of the page, the messages of
      the script, the test of the mutation observer;
    - the settings: [getAllSettings] and its companions of
      [src/utils/storage.js], the writes of [saveSettings] of the popup;
    - [src/api/goodreads.js]: [searchOnGoodreads].

    Conventions of the embedding.

    - A JavaScript string is a [string]: a sequence of 8-bit characters,
      which stand for the code points U+0000 to U+00FF.  Blanks and capitals
      are those of JavaScript on these characters: U+00A0 is a blank, the
      accented letters have their capitals, and the capital of U+00DF is the
      two letters SS.  Two characters, U+00B5 and U+00FF, have a capital
      above U+00FF, which no 8-bit character stands for: they are left as
      they are and, like their capitals, are no digit, no letter of a
      pattern, no blank and no hyphen.  Text with characters above U+00FF is
      outside the model.
    - A JavaScript number is an integer of [Z]; [NaN] is [None] of
      [option Z].  The sums and time stamps of the code stay far below 2^53.
    - [null] and [undefined] are [None] of an [option]; the code tells them
      apart nowhere.
    - Asynchronous functions are state transformers over a [World]
      (storage, network, clock, request log) that return [Ok v] or
      [Throw e]; [try]/[catch] is [try_catch].  [Date.now()] reads the
      clock of the world, which stands still during one call of a handler;
      [at_time] moves it between calls.
    - A call runs alone: between two of its steps no other call takes a
      step.  [Promise.all] takes its calls one after the other, which gives
      the results in the order of the list; in the browser the steps of
      these calls come in turn, so that the order of the requests and the
      cache the calls leave can be other than the model's.  What the
      overlap does to the cache is shown on two puts in [Interleaving].
    - The providers' JSON bodies are read through typed records; a body that
      does not fit them is a body whose reading throws.
    - [console.log] and [console.error] are not modelled.
    - The handlers that do not wait (tab events, the content script) are
      functions from state to state.  The text of the page is an argument
      of the scan; timers ([debounce], [setTimeout]) and the elements of the
      popup are not modelled.

    The file has the definitions first (the code, then the rules as the
    specification words them, then the views and example worlds used in the
    statements), and the properties after them. *)

From Stdlib Require Import ZArith Ascii String List Bool Lia.
From Stdlib Require Import DecimalString.
From stdpp Require Import gmap strings list fin_maps.

Local Open Scope Z_scope.

(** ** JavaScript strings and numbers *)

Module Js.

(** Code unit of a character. *)
Definition code (c : ascii) : Z := Z.of_N (N_of_ascii c).

(** [\d] *)
Definition isDigit (c : ascii) : bool := (48 <=? code c) && (code c <=? 57).

(** [\s]: tab, line feed, vertical tab, form feed, carriage return, space
    and the no-break space U+00A0. *)
Definition isSpace (c : ascii) : bool :=
  ((9 <=? code c) && (code c <=? 13)) || (code c =? 32) || (code c =? 160).

(** The small letters with a capital of one character, 32 places before
    them: a to z and U+00E0 to U+00FE but the division sign U+00F7. *)
Definition isLower (c : ascii) : bool :=
  ((97 <=? code c) && (code c <=? 122))
  || ((224 <=? code c) && (code c <=? 254) && negb (code c =? 247)).

(** The capital of one character, when it is one character; a character
    without such a capital is left as it is (this is also how a pattern
    with the flag [i] compares characters). *)
Definition upperChar (c : ascii) : ascii :=
  if isLower c then ascii_of_N (Z.to_N (code c - 32)) else c.

(** U+00DF, whose capital is SS. *)
Definition isSharpS (c : ascii) : bool := code c =? 223.

(** [String.prototype.toUpperCase] *)
Fixpoint toUpperCase (s : string) : string :=
  match s with
  | EmptyString => EmptyString
  | String c s' =>
      if isSharpS c then String "S" (String "S" (toUpperCase s'))
      else String (upperChar c) (toUpperCase s')
  end.

(** [s.slice(a, b)] for [0 <= a <= b], and [s.slice(a)]. *)
Definition slice (a b : nat) (s : string) : string := substring a (b - a) s.
Definition sliceFrom (a : nat) (s : string) : string :=
  substring a (String.length s - a) s.

(** [s.startsWith(p)] *)
Definition startsWith (p s : string) : bool := String.prefix p s.

(** [parseInt(s[i], 10)] for the one-character (or [undefined]) argument the
    code passes: a decimal digit gives its value, anything else [NaN]. *)
Definition parseInt (ch : option ascii) : option Z :=
  match ch with
  | Some c => if isDigit c then Some (code c - 48) else None
  | None => None
  end.

(** Arithmetic with [NaN] propagation. *)
Definition num_add (a b : option Z) : option Z :=
  match a, b with Some x, Some y => Some (x + y) | _, _ => None end.
Definition num_sub (a b : option Z) : option Z :=
  match a, b with Some x, Some y => Some (x - y) | _, _ => None end.
Definition num_mul (a b : option Z) : option Z :=
  match a, b with Some x, Some y => Some (x * y) | _, _ => None end.
(** [a % b]: the remainder has the sign of the dividend; [x % 0] is [NaN]. *)
Definition num_rem (a b : option Z) : option Z :=
  match a, b with
  | Some x, Some y => if y =? 0 then None else Some (Z.rem x y)
  | _, _ => None
  end.

(** [String(n)] *)
Definition numberToString (n : option Z) : string :=
  match n with
  | Some z => NilZero.string_of_int (Z.to_int z)
  | None => "NaN"
  end.

(** [for (let i = from; i < from + count; i++) body], with an accumulator;
    [None] is an early [return] out of the loop. *)
Fixpoint for_range {A : Type} (from count : nat)
    (body : nat -> A -> option A) (acc : A) : option A :=
  match count with
  | O => Some acc
  | S count' =>
      match body from acc with
      | Some acc' => for_range (S from) count' body acc'
      | None => None
      end
  end.

(** The same loop without early exit. *)
Fixpoint for_loop {A : Type} (from count : nat)
    (body : nat -> A -> A) (acc : A) : A :=
  match count with
  | O => acc
  | S count' => for_loop (S from) count' body (body from acc)
  end.

(** A [Set] of strings in insertion order, and [Array.from]. *)
Definition set_add (x : string) (s : list string) : list string :=
  if bool_decide (x ∈ s) then s else s ++ [x].

End Js.

(** ** Regular expressions

    The fragment of JavaScript patterns that [ISBN_PATTERNS] and the label
    patterns of [extractISBNs] are written in, with the backtracking
    semantics of the language: [?] and [*] are greedy and give back what
    they took when the rest of the pattern fails; the leftmost match wins. *)

Module Regex.

Inductive charset : Type :=
  | Chr (c : ascii)                 (* a literal character *)
  | Digit                           (* \d *)
  | Space                           (* \s *)
  | Union (a b : charset).          (* [ab] *)

Inductive regex : Type :=
  | Eps                             (* empty pattern *)
  | One (cs : charset)              (* one character of a class *)
  | Seq (r1 r2 : regex)             (* r1r2 *)
  | Opt (r : regex)                 (* (?:r)? *)
  | Star (cs : charset)             (* cs* for a one-character class *)
  | Rep (n : nat) (r : regex).      (* (?:r){n} *)

(** Membership of a character; [i] is the flag [i] (ignore case), which
    compares characters after upper-casing. *)
Fixpoint mem (i : bool) (cs : charset) (c : ascii) : bool :=
  match cs with
  | Chr d => if i then Ascii.eqb (Js.upperChar d) (Js.upperChar c) else Ascii.eqb d c
  | Digit => Js.isDigit c
  | Space => Js.isSpace c
  | Union a b => mem i a c || mem i b c
  end.

(** Greedy [cs*] followed by the continuation [k]. *)
Fixpoint star (i : bool) (cs : charset) (s : string)
    (k : string -> option string) : option string :=
  match s with
  | String c s' =>
      if mem i cs c then
        match star i cs s' k with
        | Some r => Some r
        | None => k s
        end
      else k s
  | EmptyString => k s
  end.

(** [exec i r s k]: match [r] at the start of [s], then run the continuation
    on the rest; the result is the text left after the whole match. *)
Fixpoint exec (i : bool) (r : regex) (s : string)
    (k : string -> option string) {struct r} : option string :=
  match r with
  | Eps => k s
  | One cs =>
      match s with
      | String c s' => if mem i cs c then k s' else None
      | EmptyString => None
      end
  | Seq r1 r2 => exec i r1 s (fun s1 => exec i r2 s1 k)
  | Opt r1 =>
      match exec i r1 s k with
      | Some rest => Some rest
      | None => k s
      end
  | Star cs => star i cs s k
  | Rep n r1 =>
      (fix rep (n : nat) (s : string) : option string :=
         match n with
         | O => k s
         | S n' => exec i r1 s (fun s1 => rep n' s1)
         end) n s
  end.

(** Match at the start of [s]: the matched text and the rest. *)
Definition matchAt (i : bool) (r : regex) (s : string) : option (string * string) :=
  match exec i r s Some with
  | Some rest =>
      Some (substring 0 (String.length s - String.length rest) s, rest)
  | None => None
  end.

(** [s.matchAll(r)] for a global pattern: the texts [match[0]] of the
    successive matches, left to right, each search resuming where the
    previous match ended ([skip] counts the characters of the previous
    match still to pass). *)
Fixpoint matchAll_from (i : bool) (r : regex) (skip : nat) (s : string) : list string :=
  match s with
  | EmptyString =>
      match matchAt i r s with
      | Some (m, _) => [m]
      | None => []
      end
  | String c s' =>
      match skip with
      | S skip' => matchAll_from i r skip' s'
      | O =>
          match matchAt i r s with
          | Some (m, _) => m :: matchAll_from i r (String.length m - 1) s'
          | None => matchAll_from i r 0 s'
          end
      end
  end.

Definition matchAll (i : bool) (r : regex) (s : string) : list string :=
  matchAll_from i r 0 s.

(** [s.replace(r, '')] for a pattern without the flag [g]: the leftmost
    match is removed. *)
Fixpoint replaceFirst (i : bool) (r : regex) (s : string) : string :=
  match exec i r s Some with
  | Some rest => rest
  | None =>
      match s with
      | String c s' => String c (replaceFirst i r s')
      | EmptyString => EmptyString
      end
  end.

(** [s.replace(/[cs]/g, '')] for a one-character class: every character of
    the class is removed. *)
Fixpoint removeAll (i : bool) (cs : charset) (s : string) : string :=
  match s with
  | EmptyString => EmptyString
  | String c s' =>
      if mem i cs c then removeAll i cs s' else String c (removeAll i cs s')
  end.

(** A literal word. *)
Fixpoint lit (w : string) : regex :=
  match w with
  | EmptyString => Eps
  | String c w' => Seq (One (Chr c)) (lit w')
  end.

End Regex.

(** ** [src/config/constants.js] *)

Module Constants.
Import Regex.

Local Notation "a >> b" := (Seq a b) (at level 60, right associativity).

(** "[\s\-]" *)
Definition separator : charset := Union Space (Chr "-").

(** "(?:\d[\s\-]?){9}" *)
Definition nine_digits : regex := Rep 9 (One Digit >> Opt (One separator)).

(** "/ISBN(?:-13)?:?\s*/i" and "/ISBN(?:-10)?:?\s*/i", the label patterns of
    [extractISBNs]; the same text opens the two patterns below. *)
Definition label (suffix : string) : regex :=
  lit "ISBN" >> Opt (lit suffix) >> Opt (One (Chr ":")) >> Star Space.

(** [ISBN_PATTERNS.ISBN13]:
    "/(?:ISBN(?:-13)?:?\s*)?(?:97[89][\s\-]?(?:\d[\s\-]?){9}\d)/gi" *)
Definition ISBN13 : regex :=
  Opt (label "-13") >>
  lit "97" >> One (Union (Chr "8") (Chr "9")) >> Opt (One separator) >>
  nine_digits >> One Digit.

(** [ISBN_PATTERNS.ISBN10]:
    "/(?:ISBN(?:-10)?:?\s*)?(?:\d[\s\-]?){9}[\dXx]/gi" *)
Definition ISBN10 : regex :=
  Opt (label "-10") >>
  nine_digits >> One (Union Digit (Union (Chr "X") (Chr "x"))).

(** [DEFAULTS.CACHE_TTL_MS]: 24 hours. *)
Definition CACHE_TTL_MS : Z := 24 * 60 * 60 * 1000.

End Constants.

(** ** [src/utils/isbn.js] *)

Module Isbn.

(** "isbn.replace(/[\s\-]/g, '').toUpperCase()" *)
Definition normalizeISBN (isbn : string) : string :=
  Js.toUpperCase (Regex.removeAll false Constants.separator isbn).

Definition validateISBN10Checksum (isbn10 : string) : bool :=
  if negb (String.length isbn10 =? 10)%nat then false
  else
    match
      Js.for_range 0 9
        (fun i sum =>
           match Js.parseInt (String.get i isbn10) with
           | None => None                                  (* return false *)
           | Some digit => Some (sum + digit * (10 - Z.of_nat i))
           end) 0
    with
    | None => false
    | Some sum =>
        (* Last digit can be X (representing 10) *)
        let checkDigit :=
          if bool_decide (String.get 9 isbn10 = Some "X"%char) then Some 10
          else Js.parseInt (String.get 9 isbn10) in
        match checkDigit with
        | None => false
        | Some checkDigit => Z.rem (sum + checkDigit) 11 =? 0
        end
    end.

Definition validateISBN13Checksum (isbn13 : string) : bool :=
  if negb (String.length isbn13 =? 13)%nat then false
  else
    match
      Js.for_range 0 13
        (fun i sum =>
           match Js.parseInt (String.get i isbn13) with
           | None => None                                  (* return false *)
           | Some digit =>
               Some (sum + digit * (if (i mod 2 =? 0)%nat then 1 else 3))
           end) 0
    with
    | None => false
    | Some sum => Z.rem sum 10 =? 0
    end.

Definition isValidISBN (isbn : string) : bool :=
  let normalized := normalizeISBN isbn in
  if (String.length normalized =? 10)%nat then
    validateISBN10Checksum normalized
  else if (String.length normalized =? 13)%nat then
    (* ISBN-13 must start with 978 or 979 *)
    if negb (Js.startsWith "978" normalized) && negb (Js.startsWith "979" normalized)
    then false
    else validateISBN13Checksum normalized
  else false.

(** One turn of either loop of [extractISBNs]: strip the label from
    [match[0]], normalise, and add to the set when the length is the
    expected one and [isValidISBN] accepts. *)
Definition candidate (suffix : string) (match0 : string) : string :=
  normalizeISBN (Regex.replaceFirst true (Constants.label suffix) match0).

Definition accept (len : nat) (suffix : string)
    (foundISBNs : list string) (match0 : string) : list string :=
  let isbn := candidate suffix match0 in
  if (String.length isbn =? len)%nat && isValidISBN isbn
  then Js.set_add isbn foundISBNs
  else foundISBNs.

Definition extractISBNs (text : string) : list string :=
  let foundISBNs := [] in
  (* Extract ISBN-13 first (more specific) *)
  let isbn13Matches := Regex.matchAll true Constants.ISBN13 text in
  let foundISBNs := fold_left (accept 13 "-13") isbn13Matches foundISBNs in
  (* Extract ISBN-10 *)
  let isbn10Matches := Regex.matchAll true Constants.ISBN10 text in
  let foundISBNs := fold_left (accept 10 "-10") isbn10Matches foundISBNs in
  foundISBNs.

(** [null] is [None]. *)
Definition convertISBN10ToISBN13 (isbn10 : string) : option string :=
  let normalized := normalizeISBN isbn10 in
  if negb (String.length normalized =? 10)%nat
     || negb (validateISBN10Checksum normalized)
  then None
  else
    (* Remove check digit and add 978 prefix *)
    let base := "978" +:+ Js.slice 0 9 normalized in
    (* Calculate new check digit *)
    let sum :=
      Js.for_loop 0 12
        (fun i sum =>
           Js.num_add sum
             (Js.num_mul (Js.parseInt (String.get i base))
                         (Some (if (i mod 2 =? 0)%nat then 1 else 3))))
        (Some 0) in
    let checkDigit :=
      Js.num_rem (Js.num_sub (Some 10) (Js.num_rem sum (Some 10))) (Some 10) in
    Some (base +:+ Js.numberToString checkDigit).

Definition formatISBN (isbn : string) : string :=
  let normalized := normalizeISBN isbn in
  if (String.length normalized =? 13)%nat then
    (* Format: 978-0-123-45678-9 *)
    Js.slice 0 3 normalized +:+ "-" +:+ Js.slice 3 4 normalized +:+ "-" +:+
    Js.slice 4 7 normalized +:+ "-" +:+ Js.slice 7 12 normalized +:+ "-" +:+
    Js.sliceFrom 12 normalized
  else if (String.length normalized =? 10)%nat then
    (* Format: 0-123-45678-9 *)
    Js.slice 0 1 normalized +:+ "-" +:+ Js.slice 1 4 normalized +:+ "-" +:+
    Js.slice 4 9 normalized +:+ "-" +:+ Js.sliceFrom 9 normalized
  else isbn.

End Isbn.


(** ** The checksum rules as the specification words them

    These definitions follow the specification's text, not the code; the
    validators of [Isbn] are compared with them below. *)

Module IsbnSpec.

(** Position of a character in a word. *)
Fixpoint position (c : ascii) (word : string) : option Z :=
  match word with
  | EmptyString => None
  | String d word' =>
      if Ascii.eqb c d then Some 0 else Z.succ <$> position c word'
  end.

(** Value of a decimal digit: its place in the row of the ten digits. *)
Definition digit (c : ascii) : option Z := position c "0123456789".

(** Value of the check character of an ISBN-10: a digit, or [X] for 10. *)
Definition check (c : ascii) : option Z :=
  match c with
  | "X"%char => Some 10
  | _ => digit c
  end.

(** Sum of [d i * w i] for [from <= i < from + count]. *)
Fixpoint weighted_sum (d w : nat -> Z) (from count : nat) : Z :=
  match count with
  | O => 0
  | S count' => d from * w from + weighted_sum d w (S from) count'
  end.

(** Position 0 has weight 10, ..., position 8 weight 2, the check digit 1. *)
Definition weight10 (i : nat) : Z := 10 - Z.of_nat i.

(** Even positions have weight 1, odd positions weight 3. *)
Definition weight13 (i : nat) : Z := if Nat.even i then 1 else 3.

(** [d] gives the values of the characters of [s] at positions below [n]. *)
Definition digits_of (s : string) (n : nat) (d : nat -> Z) : Prop :=
  forall i, (i < n)%nat -> exists c, String.get i s = Some c /\ digit c = Some (d i).

Definition isValidISBN10 (s : string) : Prop :=
  String.length s = 10%nat /\
  exists d : nat -> Z,
    digits_of s 9 d /\
    (exists c, String.get 9 s = Some c /\ check c = Some (d 9%nat)) /\
    weighted_sum d weight10 0 10 mod 11 = 0.

Definition isValidISBN13 (s : string) : Prop :=
  String.length s = 13%nat /\
  exists d : nat -> Z,
    digits_of s 13 d /\
    weighted_sum d weight13 0 13 mod 10 = 0.

(** The normalizer as the specification words it: all whitespace and hyphen
    characters are removed, and the remaining characters are put in upper
    case.  The whitespace characters are given by their code points; the
    capitals are those of the letters a to z, of which an ISBN has one. *)
Definition whitespace : list N := [9%N; 10%N; 11%N; 12%N; 13%N; 32%N; 160%N].

Definition formatting (c : ascii) : bool :=
  bool_decide (N_of_ascii c ∈ whitespace) || Ascii.eqb c "-".

Definition capital (c : ascii) : ascii :=
  match position c "abcdefghijklmnopqrstuvwxyz" with
  | Some i => default c (String.get (Z.to_nat i) "ABCDEFGHIJKLMNOPQRSTUVWXYZ")
  | None => c
  end.

Fixpoint normalize (raw : string) : string :=
  match raw with
  | EmptyString => EmptyString
  | String c raw' =>
      if formatting c then normalize raw' else String (capital c) (normalize raw')
  end.

(** [s] starts with the word [p]. *)
Definition starts_with (p s : string) : Prop := exists rest, s = p +:+ rest.

(** The rule of [isValidISBN]: the normalised string is a valid ISBN-10, or
    a valid ISBN-13 with one of the two prefixes. *)
Definition isValidISBN (raw : string) : Prop :=
  let n := normalize raw in
  isValidISBN10 n \/
  ((starts_with "978" n \/ starts_with "979" n) /\ isValidISBN13 n).

(** The characters an ISBN is drawn from: the digits and [X]. *)
Definition isbn_char (c : ascii) : bool :=
  bool_decide (is_Some (digit c)) || Ascii.eqb c "X".

Fixpoint isbn_chars (s : string) : bool :=
  match s with
  | EmptyString => true
  | String c s' => isbn_char c && isbn_chars s'
  end.

(** A text of ASCII characters only. *)
Fixpoint is_ascii (s : string) : bool :=
  match s with
  | EmptyString => true
  | String c s' => (N_of_ascii c <? 128)%N && is_ascii s'
  end.

(** The digit character of a value below ten. *)
Definition digit_char (v : Z) : ascii := ascii_of_N (Z.to_N (48 + v)).

(** Keeps each value at its first occurrence. *)
Fixpoint first_occurrences (l : list string) : list string :=
  match l with
  | [] => []
  | x :: l' => x :: filter (fun y => y <> x) (first_occurrences l')
  end.

End IsbnSpec.

(** ** Metadata records

    A [BookMetadata] is the object the provider parsers build.  A property
    that the code may leave [undefined], or that the "Details Unavailable"
    record of [handleGetDetectedBooks] does not have, is an [option]. *)

Module Book.

(** An element of [authors]: a name, or (Open Library's ISBN endpoint, for an
    author without a truthy [name]) the author object itself. *)
Inductive Author : Type :=
  | AuthorName (name : string)
  | AuthorObject (name : option string) (key : option string).

(** [description]: a text, or (same endpoint) the description object. *)
Inductive Description : Type :=
  | DescriptionText (text : string)
  | DescriptionObject (value : option string).

Record BookMetadata : Type := {
  isbn : string;
  title : string;
  authors : list Author;
  description : Description;
  thumbnail : option string;
  publishedDate : option string;
  publisher : option string;
  pageCount : option Z;
  categories : option (list string);
  language : option string;
  source : string
}.

End Book.

(** ** The world around the service worker *)

Module World.

(** What the metadata cache holds in a property: a number or a metadata
    record.  A missing property ([undefined]) is [None] of [option value]. *)
Inductive value : Type :=
  | VNum (n : Z)
  | VBook (b : Book.BookMetadata).

(** [if (v)] *)
Definition truthy (v : option value) : bool :=
  match v with
  | Some (VNum n) => negb (n =? 0)
  | Some (VBook _) => true
  | None => false
  end.

(** [Number(v)]: an object and [undefined] give [NaN]. *)
Definition toNumber (v : option value) : option Z :=
  match v with
  | Some (VNum n) => Some n
  | Some (VBook _) => None
  | None => None
  end.

(** [a > b]: [false] when a side is [NaN]. *)
Definition num_gt (a b : option Z) : bool :=
  match a, b with
  | Some x, Some y => y <? x
  | _, _ => false
  end.

(** A cache entry is a plain object, property name to value; the cache maps
    an ISBN to its entry.  The maps hold the own properties of the objects.
    Reading [cache[k]] for a name [k] that is no own property but is
    inherited from [Object.prototype] gives an object without [timestamp]
    and [data], so that [getCachedBookInfo] answers [undefined]: the answer
    it gives for a missing entry. *)
Abbreviation entry := (gmap string value).
Abbreviation cache := (gmap string (gmap string value)).

(** [o[k] = v] on a plain object.  The name [__proto__] is the accessor of
    the prototype: assigning an object to it replaces the prototype and
    creates no property, so that nothing reaches the store under it. *)
Definition obj_set (k : string) (v : entry) (o : cache) : cache :=
  if bool_decide (k = "__proto__") then o else <[k := v]> o.

(** Outcome of [fetch(url)] followed by [response.json()]: the request
    fails, or a response arrives with its [ok] flag, its status and its
    body ([None] when the body is not the JSON the parser can read, so that
    reading it throws). *)
Inductive Response (Body : Type) : Type :=
  | NetworkError (message : string)
  | Http (ok : bool) (status : Z) (json : option Body).
Arguments NetworkError {Body} message.
Arguments Http {Body} ok status json.

(** Typed views of the providers' JSON bodies. *)
Module GoogleJson.
Record ImageLinks : Type := {
  thumbnail : option string;
  smallThumbnail : option string
}.
Record VolumeInfo : Type := {
  title : option string;
  authors : option (list string);
  description : option string;
  imageLinks : option ImageLinks;
  publishedDate : option string;
  publisher : option string;
  pageCount : option Z;
  categories : option (list string);
  language : option string
}.
Record Item : Type := { volumeInfo : option VolumeInfo }.
Record Body : Type := { items : option (list Item) }.
End GoogleJson.

Module OpenLibraryJson.
Record Named : Type := { name : string }.
Record Cover : Type := {
  medium : option string;
  small : option string;
  large : option string
}.
(** An entry of the books API ([jscmd=data]). *)
Record BookData : Type := {
  authors : option (list Named);
  cover : option Cover;
  title : option string;
  notes : option string;
  subtitle : option string;
  publish_date : option string;
  publishers : option (list Named);
  number_of_pages : option Z;
  subjects : option (list Named)
}.
(** The document of the ISBN endpoint. *)
Record AuthorRef : Type := { author_name : option string; author_key : option string }.
Inductive DescriptionJson : Type :=
  | DescString (text : string)
  | DescObject (value : option string).
Record Edition : Type := {
  ed_authors : option (list AuthorRef);
  ed_covers : option (list Z);
  ed_title : option string;
  ed_description : option DescriptionJson;
  ed_publish_date : option string;
  ed_publishers : option (list string);
  ed_number_of_pages : option Z;
  ed_subjects : option (list string)
}.
End OpenLibraryJson.

(** The requests [fetch] is called with. *)
Inductive Request : Type :=
  | GoogleVolumes (q : string) (key : option string)
      (* API_ENDPOINTS.GOOGLE_BOOKS ?q=..[&key=..] *)
  | OpenLibraryBooks (bibkeys : string)
      (* API_ENDPOINTS.OPEN_LIBRARY_BOOKS ?bibkeys=..&format=json&jscmd=data *)
  | OpenLibraryISBN (isbn : string).
      (* API_ENDPOINTS.OPEN_LIBRARY_ISBN /<isbn>.json *)

(** [chrome.tabs.query({active: true, currentWindow: true})]: it rejects, or
    gives the identifier of the first tab found ([None] when there is no tab
    or the tab has no [id]). *)
Inductive TabsQuery : Type :=
  | TabsError (message : string)
  | TabsFound (id : option Z).

Record World : Type := {
  (** [Date.now()] *)
  clock : Z;
  (** [chrome.storage.local], key [STORAGE_KEYS.BOOK_METADATA_CACHE];
      [None] when the key is not set. *)
  local_cache : option cache;
  (** whether [chrome.storage.local.get] / [.set] reject *)
  local_get_fails : bool;
  local_set_fails : bool;
  (** [chrome.storage.sync], key [STORAGE_KEYS.GOOGLE_BOOKS_API_KEY] *)
  sync_api_key : option string;
  sync_get_fails : bool;
  (** the network *)
  google_books : string -> option string -> Response GoogleJson.Body;
  open_library_books : string -> Response (gmap string OpenLibraryJson.BookData);
  open_library_isbn : string -> Response OpenLibraryJson.Edition;
  (** the requests made so far, oldest first *)
  requests : list Request;
  (** [tabISBNs] of the service worker, and the active tab *)
  tabISBNs : gmap Z (list string);
  active_tab : TabsQuery
}.

Definition set_local_cache (c : option cache) (w : World) : World :=
  {| clock := clock w; local_cache := c;
     local_get_fails := local_get_fails w; local_set_fails := local_set_fails w;
     sync_api_key := sync_api_key w; sync_get_fails := sync_get_fails w;
     google_books := google_books w; open_library_books := open_library_books w;
     open_library_isbn := open_library_isbn w;
     requests := requests w; tabISBNs := tabISBNs w; active_tab := active_tab w |}.

Definition log_request (r : Request) (w : World) : World :=
  {| clock := clock w; local_cache := local_cache w;
     local_get_fails := local_get_fails w; local_set_fails := local_set_fails w;
     sync_api_key := sync_api_key w; sync_get_fails := sync_get_fails w;
     google_books := google_books w; open_library_books := open_library_books w;
     open_library_isbn := open_library_isbn w;
     requests := requests w ++ [r]; tabISBNs := tabISBNs w; active_tab := active_tab w |}.

(** The same world at another time. *)
Definition at_time (t : Z) (w : World) : World :=
  {| clock := t; local_cache := local_cache w;
     local_get_fails := local_get_fails w; local_set_fails := local_set_fails w;
     sync_api_key := sync_api_key w; sync_get_fails := sync_get_fails w;
     google_books := google_books w; open_library_books := open_library_books w;
     open_library_isbn := open_library_isbn w;
     requests := requests w; tabISBNs := tabISBNs w; active_tab := active_tab w |}.

(** *** Asynchronous computations *)

Inductive Result (A : Type) : Type :=
  | Ok (a : A)
  | Throw (message : string).
Arguments Ok {A} a.
Arguments Throw {A} message.

Definition M (A : Type) : Type := World -> Result A * World.

Definition ret {A} (a : A) : M A := fun w => (Ok a, w).
Definition throw {A} (message : string) : M A := fun w => (Throw message, w).
Definition bind {A B} (m : M A) (k : A -> M B) : M B :=
  fun w =>
    match m w with
    | (Ok a, w') => k a w'
    | (Throw e, w') => (Throw e, w')
    end.
(** [try { body } catch (error) { handler }] *)
Definition try_catch {A} (body : M A) (handler : string -> M A) : M A :=
  fun w =>
    match body w with
    | (Ok a, w') => (Ok a, w')
    | (Throw e, w') => handler e w'
    end.

Notation "'let!' x ':=' m 'in' k" := (bind m (fun x => k))
  (at level 10, x name, m at level 100, k at level 200).

(** [Date.now()] *)
Definition Date_now : M Z := fun w => (Ok (clock w), w).

(** [chrome.storage.local.get(key)], [chrome.storage.local.set({[key]: c})]
    and [chrome.storage.sync.get(key)] for the keys above. *)
Definition chrome_storage_local_get : M (option cache) :=
  fun w =>
    if local_get_fails w then (Throw "chrome.storage.local.get failed", w)
    else (Ok (local_cache w), w).
Definition chrome_storage_local_set (c : cache) : M unit :=
  fun w =>
    if local_set_fails w then (Throw "chrome.storage.local.set failed", w)
    else (Ok tt, set_local_cache (Some c) w).
Definition chrome_storage_sync_get : M (option string) :=
  fun w =>
    if sync_get_fails w then (Throw "chrome.storage.sync.get failed", w)
    else (Ok (sync_api_key w), w).

(** [fetch(url)]: the request is logged; a network failure throws. *)
Definition fetch {Body} (r : Request) (net : World -> Response Body)
    : M (bool * Z * option Body) :=
  fun w =>
    match net w with
    | NetworkError e => (Throw e, log_request r w)
    | Http ok status json => (Ok (ok, status, json), log_request r w)
    end.

(** [response.json()] *)
Definition json {Body} (body : option Body) : M Body :=
  match body with
  | Some data => ret data
  | None => throw "SyntaxError: the body is not valid JSON"
  end.

(** [chrome.tabs.query] *)
Definition chrome_tabs_query : M (option Z) :=
  fun w =>
    match active_tab w with
    | TabsError e => (Throw e, w)
    | TabsFound id => (Ok id, w)
    end.

(** [s || d] on strings: [undefined] and the empty string are falsy. *)
Definition or_string (s : option string) (d : string) : string :=
  match s with
  | Some EmptyString => d
  | Some s => s
  | None => d
  end.

(** [a || b] where [b] may be [undefined] too. *)
Definition or_option (a b : option string) : option string :=
  match a with
  | Some EmptyString => b
  | Some s => Some s
  | None => b
  end.

End World.

(** ** [src/utils/storage.js] *)

Module Storage.
Import World.

(** [getSyncStorage(STORAGE_KEYS.GOOGLE_BOOKS_API_KEY, defaultValue)] *)
Definition getSyncStorage (defaultValue : string) : M string :=
  try_catch
    (let! result := chrome_storage_sync_get in
     ret (match result with Some v => v | None => defaultValue end))
    (fun error => ret defaultValue).

(** [getLocalStorage(STORAGE_KEYS.BOOK_METADATA_CACHE, defaultValue)] *)
Definition getLocalStorage (defaultValue : cache) : M cache :=
  try_catch
    (let! result := chrome_storage_local_get in
     ret (match result with Some v => v | None => defaultValue end))
    (fun error => ret defaultValue).

(** [setLocalStorage(STORAGE_KEYS.BOOK_METADATA_CACHE, value)]: the error
    is logged and thrown again. *)
Definition setLocalStorage (value : cache) : M unit :=
  try_catch (chrome_storage_local_set value) (fun error => throw error).

End Storage.

(** ** [src/api/google-books.js] *)

Module GoogleBooks.
Import World.

Definition parseGoogleBooksResponse (item : GoogleJson.Item) (isbn : string)
    : Book.BookMetadata :=
  let volumeInfo :=
    default (GoogleJson.Build_VolumeInfo None None None None None None None None None)
            (GoogleJson.volumeInfo item) in
  let imageLinks :=
    default (GoogleJson.Build_ImageLinks None None)
            (GoogleJson.imageLinks volumeInfo) in
  {| Book.isbn := isbn;
     Book.title := or_string (GoogleJson.title volumeInfo) "Unknown Title";
     Book.authors := map Book.AuthorName (default [] (GoogleJson.authors volumeInfo));
     Book.description :=
       Book.DescriptionText (or_string (GoogleJson.description volumeInfo) "");
     Book.thumbnail :=
       Some (or_string (or_option (GoogleJson.thumbnail imageLinks)
                                  (GoogleJson.smallThumbnail imageLinks)) "");
     Book.publishedDate := Some (or_string (GoogleJson.publishedDate volumeInfo) "");
     Book.publisher := Some (or_string (GoogleJson.publisher volumeInfo) "");
     Book.pageCount := Some (default 0 (GoogleJson.pageCount volumeInfo));
     Book.categories := Some (default [] (GoogleJson.categories volumeInfo));
     Book.language := Some (or_string (GoogleJson.language volumeInfo) "");
     Book.source := "google-books" |}.

Definition getCachedBookInfo (isbn : string) : M (option value) :=
  try_catch
    (let! cache := Storage.getLocalStorage ∅ in
     match cache !! isbn with
     | None => ret None                                   (* !cached *)
     | Some cached =>
         (* Check if cache is expired *)
         let! now := Date_now in
         if num_gt (Js.num_sub (Some now) (toNumber (cached !! "timestamp")))
                   (Some Constants.CACHE_TTL_MS)
         then ret None
         else ret (cached !! "data")
     end)
    (fun error => ret None).

Definition cacheBookInfo (isbn : string) (bookInfo : Book.BookMetadata) : M unit :=
  try_catch
    (let! cache := Storage.getLocalStorage ∅ in
     let! now := Date_now in
     let cache :=
       obj_set isbn {[ "data" := VBook bookInfo; "timestamp" := VNum now ]} cache in
     Storage.setLocalStorage cache)
    (fun error => ret tt).

Definition fetchBookInfo (isbn : string) (useCache : bool) : M (option value) :=
  try_catch
    ((* Check cache first *)
     let! cachedData :=
       (if useCache then getCachedBookInfo isbn else ret None) in
     if useCache && truthy cachedData then ret cachedData
     else
       (* Get API key from settings (optional) *)
       let! apiKey := Storage.getSyncStorage "" in
       (* Build URL *)
       let q := "isbn:" +:+ isbn in
       let key := match apiKey with EmptyString => None | k => Some k end in
       let! response := fetch (GoogleVolumes q key) (fun w => google_books w q key) in
       let '(ok, status, body) := response in
       if negb ok then
         throw ("Google Books API error: " +:+ Js.numberToString (Some status))
       else
         let! data := json body in
         match GoogleJson.items data with
         | None => ret None                               (* !data.items *)
         | Some [] => ret None                            (* length === 0 *)
         | Some (item :: _) =>
             let book := parseGoogleBooksResponse item isbn in
             (* Cache the result *)
             let! _ := cacheBookInfo isbn book in
             ret (Some (VBook book))
         end)
    (fun error => ret None).

End GoogleBooks.

(** ** [src/api/open-library.js] *)

Module OpenLibrary.
Import World.

Definition parseOpenLibraryBooksResponse (data : OpenLibraryJson.BookData)
    (isbn : string) : Book.BookMetadata :=
  let authors :=
    match OpenLibraryJson.authors data with
    | Some l => map (fun a => Book.AuthorName (OpenLibraryJson.name a)) l
    | None => []
    end in
  let thumbnail :=
    match OpenLibraryJson.cover data with
    | Some cover =>
        or_option (or_option (OpenLibraryJson.medium cover)
                             (OpenLibraryJson.small cover))
                  (OpenLibraryJson.large cover)
    | None => Some ""
    end in
  {| Book.isbn := isbn;
     Book.title := or_string (OpenLibraryJson.title data) "Unknown Title";
     Book.authors := authors;
     Book.description :=
       Book.DescriptionText
         (or_string (or_option (OpenLibraryJson.notes data)
                               (OpenLibraryJson.subtitle data)) "");
     Book.thumbnail := thumbnail;
     Book.publishedDate := Some (or_string (OpenLibraryJson.publish_date data) "");
     Book.publisher :=
       Some (match OpenLibraryJson.publishers data with
             | Some l => or_string (OpenLibraryJson.name <$> head l) ""
             | None => ""
             end);
     Book.pageCount := Some (default 0 (OpenLibraryJson.number_of_pages data));
     Book.categories :=
       Some (match OpenLibraryJson.subjects data with
             | Some l => map OpenLibraryJson.name l
             | None => []
             end);
     Book.language := Some "";
     Book.source := "open-library" |}.

Definition parseOpenLibraryISBNResponse (data : OpenLibraryJson.Edition)
    (isbn : string) : Book.BookMetadata :=
  let authors := default [] (OpenLibraryJson.ed_authors data) in
  (* authors.map(a => a.name || a).filter(Boolean) *)
  let authorNames :=
    map (fun a =>
           match OpenLibraryJson.author_name a with
           | Some EmptyString | None =>
               Book.AuthorObject (OpenLibraryJson.author_name a)
                                 (OpenLibraryJson.author_key a)
           | Some n => Book.AuthorName n
           end) authors in
  let coverId :=
    match OpenLibraryJson.ed_covers data with
    | Some (c :: _) => Some c
    | _ => None
    end in
  let thumbnail :=
    match coverId with
    | Some c =>
        if c =? 0 then ""
        else "https://covers.openlibrary.org/b/id/" +:+ Js.numberToString (Some c)
             +:+ "-M.jpg"
    | None => ""
    end in
  {| Book.isbn := isbn;
     Book.title := or_string (OpenLibraryJson.ed_title data) "Unknown Title";
     Book.authors := authorNames;
     Book.description :=
       (* data.description?.value || data.description || '' *)
       match OpenLibraryJson.ed_description data with
       | Some (OpenLibraryJson.DescObject v) =>
           match v with
           | Some EmptyString | None => Book.DescriptionObject v
           | Some text => Book.DescriptionText text
           end
       | Some (OpenLibraryJson.DescString s) => Book.DescriptionText s
       | None => Book.DescriptionText ""
       end;
     Book.thumbnail := Some thumbnail;
     Book.publishedDate := Some (or_string (OpenLibraryJson.ed_publish_date data) "");
     Book.publisher :=
       Some (match OpenLibraryJson.ed_publishers data with
             | Some l => or_string (head l) ""
             | None => ""
             end);
     Book.pageCount := Some (default 0 (OpenLibraryJson.ed_number_of_pages data));
     Book.categories := Some (default [] (OpenLibraryJson.ed_subjects data));
     Book.language := Some "";
     Book.source := "open-library" |}.

Definition getCachedBookInfo (isbn : string) : M (option value) :=
  try_catch
    (let! cache := Storage.getLocalStorage ∅ in
     match cache !! isbn with
     | None => ret None                                   (* !cached *)
     | Some cached =>
         (* Check if cache is expired *)
         let! now := Date_now in
         if num_gt (Js.num_sub (Some now) (toNumber (cached !! "timestamp")))
                   (Some Constants.CACHE_TTL_MS)
         then ret None
         else ret (cached !! "data")
     end)
    (fun error => ret None).

Definition cacheBookInfo (isbn : string) (bookInfo : Book.BookMetadata) : M unit :=
  try_catch
    (let! cache := Storage.getLocalStorage ∅ in
     let! now := Date_now in
     let cache :=
       obj_set isbn {[ "data" := VBook bookInfo; "timestamp" := VNum now ]} cache in
     Storage.setLocalStorage cache)
    (fun error => ret tt).

Definition fetchFromBooksAPI (isbn : string) : M (option Book.BookMetadata) :=
  try_catch
    (let bibkeys := "ISBN:" +:+ isbn in
     let! response :=
       fetch (OpenLibraryBooks bibkeys) (fun w => open_library_books w bibkeys) in
     let '(ok, status, body) := response in
     if negb ok then
       throw ("Open Library API error: " +:+ Js.numberToString (Some status))
     else
       let! data := json body in
       let bookKey := "ISBN:" +:+ isbn in
       match data !! bookKey with
       | None => ret None                                 (* !data[bookKey] *)
       | Some bookData => ret (Some (parseOpenLibraryBooksResponse bookData isbn))
       end)
    (fun error => ret None).

Definition fetchFromISBNEndpoint (isbn : string) : M (option Book.BookMetadata) :=
  try_catch
    (let! response :=
       fetch (OpenLibraryISBN isbn) (fun w => open_library_isbn w isbn) in
     let '(ok, status, body) := response in
     if negb ok then ret None
     else
       let! data := json body in
       ret (Some (parseOpenLibraryISBNResponse data isbn)))
    (fun error => ret None).

Definition fetchBookInfo (isbn : string) (useCache : bool) : M (option value) :=
  try_catch
    ((* Check cache first *)
     let! cachedData :=
       (if useCache then getCachedBookInfo isbn else ret None) in
     if useCache && truthy cachedData then ret cachedData
     else
       (* Try the books API first *)
       let! bookData := fetchFromBooksAPI isbn in
       match bookData with
       | Some bookData =>
           let! _ := cacheBookInfo isbn bookData in
           ret (Some (VBook bookData))
       | None =>
           (* Fallback to ISBN endpoint *)
           let! isbnData := fetchFromISBNEndpoint isbn in
           match isbnData with
           | Some isbnData =>
               let! _ := cacheBookInfo isbn isbnData in
               ret (Some (VBook isbnData))
           | None => ret None
           end
       end)
    (fun error => ret None).

End OpenLibrary.

(** ** [src/background/service-worker.js] *)

Module ServiceWorker.
Import World.

(** [{ success: true, book }] or [{ success: false, error, isbn }] *)
Inductive FetchResult : Type :=
  | FetchSuccess (book : value)
  | FetchFailure (error : string) (isbn : string).

Definition handleFetchBookInfo (isbn : string) : M FetchResult :=
  try_catch
    ((* Try Google Books first *)
     let! bookInfo := GoogleBooks.fetchBookInfo isbn true in
     (* Fallback to Open Library if Google Books fails *)
     let! bookInfo :=
       (if negb (truthy bookInfo) then OpenLibrary.fetchBookInfo isbn true
        else ret bookInfo) in
     match bookInfo with
     | Some book =>
         if truthy bookInfo then ret (FetchSuccess book)
         else ret (FetchFailure "Book metadata not found" isbn)
     | None => ret (FetchFailure "Book metadata not found" isbn)
     end)
    (fun error => ret (FetchFailure error isbn)).

(** The record returned for an ISBN whose metadata fetch failed. *)
Definition detailsUnavailable (isbn : string) : Book.BookMetadata :=
  {| Book.isbn := isbn;
     Book.title := "Details Unavailable";
     Book.authors := [];
     Book.description := Book.DescriptionText "";
     Book.thumbnail := Some "";
     Book.publishedDate := None;
     Book.publisher := None;
     Book.pageCount := None;
     Book.categories := None;
     Book.language := None;
     Book.source := "none" |}.

(** The function mapped over the detected ISBNs by [handleGetDetectedBooks]. *)
Definition detectedBook (isbn : string) : M value :=
  let! result := handleFetchBookInfo isbn in
  match result with
  | FetchSuccess book => ret book
  | FetchFailure _ _ =>
      (* Return minimal info if metadata fetch failed *)
      ret (VBook (detailsUnavailable isbn))
  end.

(** [Promise.all(isbns.map(f))]: the results, in the order of the list.
    The calls are taken one after the other.  In the browser every call
    runs up to its first [await] before the next one starts, and the later
    steps of the calls come in turn as the storage and the network answer:
    the order of the requests in the log and the cache left behind are the
    model's only when the calls do not overlap. *)
Fixpoint all {A B} (f : A -> M B) (l : list A) : M (list B) :=
  match l with
  | [] => ret []
  | x :: l' =>
      let! y := f x in
      let! ys := all f l' in
      ret (y :: ys)
  end.

(** [{ success: true, books }] or [{ success: false, error }] *)
Inductive DetectedBooksResult : Type :=
  | BooksSuccess (books : list value)
  | BooksFailure (error : string).

(** [if (!tabId)]: [undefined] and 0 are falsy. *)
Definition tab_falsy (tabId : option Z) : bool :=
  match tabId with
  | Some n => n =? 0
  | None => true
  end.

Definition handleGetDetectedBooks (tabId : option Z) : M DetectedBooksResult :=
  try_catch
    ((* If no tabId provided, get current active tab *)
     let! tabId :=
       (if tab_falsy tabId then chrome_tabs_query else ret tabId) in
     match tabId with
     | Some id =>
         if tab_falsy tabId then ret (BooksFailure "No active tab found")
         else
           let! isbns := (fun w => (Ok (default [] (tabISBNs w !! id)), w)) in
           (* Fetch metadata for each ISBN *)
           let! books := all detectedBook isbns in
           ret (BooksSuccess books)
     | None => ret (BooksFailure "No active tab found")
     end)
    (fun error => ret (BooksFailure error)).

End ServiceWorker.

(** ** Views of the world used to state the properties *)

Module CacheView.
Import World.

(** What [getLocalStorage(BOOK_METADATA_CACHE, {})] answers in [w]. *)
Definition stored (w : World) : cache :=
  if local_get_fails w then ∅ else default ∅ (local_cache w).

(** An entry is expired at time [now] when [now - timestamp > TTL]. *)
Definition expired (now : Z) (e : entry) : bool :=
  num_gt (Js.num_sub (Some now) (toNumber (e !! "timestamp")))
         (Some Constants.CACHE_TTL_MS).

(** The answer of the cache for [isbn] in [w]. *)
Definition lookup (isbn : string) (w : World) : option value :=
  match stored w !! isbn with
  | None => None
  | Some e => if expired (clock w) e then None else e !! "data"
  end.

(** The entry a put writes at time [now]. *)
Definition entry_of (m : Book.BookMetadata) (now : Z) : entry :=
  {[ "data" := VBook m; "timestamp" := VNum now ]}.

(** The world after a put. *)
Definition put (isbn : string) (m : Book.BookMetadata) (w : World) : World :=
  if local_set_fails w then w
  else set_local_cache (Some (obj_set isbn (entry_of m (clock w)) (stored w))) w.

(** The key sent to Google Books: [None] when no key is configured. *)
Definition api_key (w : World) : option string :=
  if sync_get_fails w then None
  else match sync_api_key w with
       | Some EmptyString | None => None
       | Some k => Some k
       end.

(** The primary provider fails on a response: the request fails, the status
    is an error, the body cannot be read, or there is no item. *)
Definition google_fails (r : Response GoogleJson.Body) : Prop :=
  match r with
  | NetworkError _ => True
  | Http ok _ body =>
      ok = false \/ body = None \/
      exists data, body = Some data /\
        (GoogleJson.items data = None \/ GoogleJson.items data = Some [])
  end.

(** Both endpoints of the secondary provider fail for [isbn]. *)
Definition open_library_fails (isbn : string) (w : World) : Prop :=
  match open_library_books w ("ISBN:" +:+ isbn) with
  | NetworkError _ => True
  | Http ok _ body =>
      ok = false \/ body = None \/
      exists data, body = Some data /\ data !! ("ISBN:" +:+ isbn) = None
  end /\
  match open_library_isbn w isbn with
  | NetworkError _ => True
  | Http ok _ body => ok = false \/ body = None
  end.

(** The shape of a stored entry: exactly a property [data] holding the
    metadata and a property [time_field] holding a number. *)
Definition record_shape (time_field : string) (m : Book.BookMetadata)
    (e : entry) : Prop :=
  dom e = ({[ "data"; time_field ]} : gset string) /\
  e !! "data" = Some (VBook m) /\
  exists n, e !! time_field = Some (VNum n).

End CacheView.

(** ** Concrete worlds, for the examples below *)

Module Examples.
Import World.

(** The record Open Library's books API serves for an ISBN: a title only. *)
Definition ol_book (title : string) : OpenLibraryJson.BookData :=
  {| OpenLibraryJson.authors := None;
     OpenLibraryJson.cover := None;
     OpenLibraryJson.title := Some title;
     OpenLibraryJson.notes := None;
     OpenLibraryJson.subtitle := None;
     OpenLibraryJson.publish_date := None;
     OpenLibraryJson.publishers := None;
     OpenLibraryJson.number_of_pages := None;
     OpenLibraryJson.subjects := None |}.

(** Storage works and is empty, no API key is set; the two services answer
    as given. *)
Definition world (now : Z)
    (google : Response GoogleJson.Body)
    (ol_books : Response (gmap string OpenLibraryJson.BookData))
    (ol_isbn : Response OpenLibraryJson.Edition) : World :=
  {| clock := now;
     local_cache := None;
     local_get_fails := false;
     local_set_fails := false;
     sync_api_key := None;
     sync_get_fails := false;
     google_books := fun _ _ => google;
     open_library_books := fun _ => ol_books;
     open_library_isbn := fun _ => ol_isbn;
     requests := [];
     tabISBNs := ∅;
     active_tab := TabsFound None |}.

(** No service can be reached. *)
Definition offline : World :=
  world 1700000000000 (NetworkError "Failed to fetch")
        (NetworkError "Failed to fetch") (NetworkError "Failed to fetch").

(** Google Books is down (status 503); Open Library knows the book. *)
Definition google_down : World :=
  world 1700000000000 (Http false 503 None)
        (Http true 200
           (Some {[ "ISBN:9780306406157" := ol_book "Error Correction Coding" ]}))
        (NetworkError "Failed to fetch").

(** The metadata Open Library's parser builds for that book. *)
Definition book : Book.BookMetadata :=
  OpenLibrary.parseOpenLibraryBooksResponse
    (ol_book "Error Correction Coding") "9780306406157".

End Examples.
(** ** More of [src/utils/storage.js] *)

Module StorageMore.
Import World.

(** [chrome.storage.local.remove(STORAGE_KEYS.BOOK_METADATA_CACHE)];
    [rejects] tells whether the browser rejects the call. *)
Definition chrome_storage_local_remove (rejects : bool) : M unit :=
  fun w =>
    if rejects then (Throw "chrome.storage.local.remove failed", w)
    else (Ok tt, set_local_cache None w).

(** [clearCache()] *)
Definition clearCache (rejects : bool) : M unit :=
  try_catch (chrome_storage_local_remove rejects) (fun error => ret tt).

End StorageMore.

(** ** Calls of [cacheBookInfo] that overlap

    [handleGetDetectedBooks] starts the lookups of a tab together, and every
    [cacheBookInfo] waits twice: for its read of the cache and for its
    write.  The steps of two calls can therefore come in turn. *)

Module Interleaving.
Import World.

(** [cacheBookInfo] from the point where its read has answered [cache]: the
    entry is set in this copy of the cache and the copy is written; the
    error of a rejected write is caught. *)
Definition write_back (isbn : string) (bookInfo : Book.BookMetadata)
    (cache : cache) : M unit :=
  try_catch
    (let! now := Date_now in
     let cache :=
       obj_set isbn {[ "data" := VBook bookInfo; "timestamp" := VNum now ]} cache in
     Storage.setLocalStorage cache)
    (fun error => ret tt).

(** Two calls of [cacheBookInfo] whose reads are both answered before
    either of them writes. *)
Definition two_puts (isbn1 : string) (bookInfo1 : Book.BookMetadata)
    (isbn2 : string) (bookInfo2 : Book.BookMetadata) : M unit :=
  let! cache1 := Storage.getLocalStorage ∅ in
  let! cache2 := Storage.getLocalStorage ∅ in
  let! _ := write_back isbn1 bookInfo1 cache1 in
  write_back isbn2 bookInfo2 cache2.

End Interleaving.

(** ** The settings ([src/utils/storage.js], [src/popup/popup.js]) *)

Module Settings.
Import World.

(** The keys of [STORAGE_KEYS] that hold settings. *)
Inductive key : Type :=
  | AUTO_SCAN | DEFAULT_SHELF | CONFIRM_BEFORE_ADD
  | GOOGLE_BOOKS_API_KEY | GOODREADS_API_KEY | GOODREADS_API_SECRET.

Definition name (k : key) : string :=
  match k with
  | AUTO_SCAN => "autoScan"
  | DEFAULT_SHELF => "defaultShelf"
  | CONFIRM_BEFORE_ADD => "confirmBeforeAdd"
  | GOOGLE_BOOKS_API_KEY => "googleBooksApiKey"
  | GOODREADS_API_KEY => "goodreadsApiKey"
  | GOODREADS_API_SECRET => "goodreadsApiSecret"
  end.

(** A stored setting: a boolean or a string. *)
Inductive setting : Type :=
  | SBool (b : bool)
  | SString (s : string).

(** [chrome.storage.sync]: its items, whether a call of [get] is rejected
    (the functions below make one call each), and what happens to the
    coming calls of [set], one after the other: [true] for a call that is
    rejected (a value over the quota, too many writes), [false] for one
    that is accepted; when the list is used up the calls are accepted. *)
Record Sync : Type := {
  items : gmap string setting;
  get_fails : bool;
  set_rejects : list bool
}.

(** [getSyncStorage(key, defaultValue)]: the error of a rejected read is
    caught and the default returned. *)
Definition getSyncStorage (k : key) (defaultValue : setting) (s : Sync) : setting :=
  if get_fails s then defaultValue
  else
    match items s !! name k with
    | Some v => v
    | None => defaultValue
    end.

(** [setSyncStorage(key, value)]: the error of a rejected write is thrown
    again. *)
Definition setSyncStorage (k : key) (value : setting) (s : Sync) : Result unit * Sync :=
  match set_rejects s with
  | true :: coming =>
      (Throw "chrome.storage.sync.set failed",
       {| items := items s; get_fails := get_fails s; set_rejects := coming |})
  | coming =>
      (Ok tt,
       {| items := <[name k := value]> (items s);
          get_fails := get_fails s; set_rejects := tail coming |})
  end.

Record AllSettings : Type := {
  autoScan : setting;
  defaultShelf : setting;
  confirmBeforeAdd : setting;
  googleBooksApiKey : setting;
  goodreadsApiKey : setting;
  goodreadsApiSecret : setting
}.

(** [DEFAULTS.AUTO_SCAN], [DEFAULTS.DEFAULT_SHELF],
    [DEFAULTS.CONFIRM_BEFORE_ADD], and the empty string for the three keys. *)
Definition defaults : AllSettings :=
  {| autoScan := SBool true;
     defaultShelf := SString "to-read";
     confirmBeforeAdd := SBool true;
     googleBooksApiKey := SString EmptyString;
     goodreadsApiKey := SString EmptyString;
     goodreadsApiSecret := SString EmptyString |}.

(** [a ?? b] *)
Definition nullish (a : option setting) (b : setting) : setting :=
  match a with
  | Some v => v
  | None => b
  end.

Definition getAllSettings (s : Sync) : AllSettings :=
  if get_fails s then defaults
  else
    let result := items s in
    {| autoScan := nullish (result !! name AUTO_SCAN) (autoScan defaults);
       defaultShelf := nullish (result !! name DEFAULT_SHELF) (defaultShelf defaults);
       confirmBeforeAdd :=
         nullish (result !! name CONFIRM_BEFORE_ADD) (confirmBeforeAdd defaults);
       googleBooksApiKey :=
         nullish (result !! name GOOGLE_BOOKS_API_KEY) (SString EmptyString);
       goodreadsApiKey :=
         nullish (result !! name GOODREADS_API_KEY) (SString EmptyString);
       goodreadsApiSecret :=
         nullish (result !! name GOODREADS_API_SECRET) (SString EmptyString) |}.

(** The values of the settings form of the popup. *)
Record Form : Type := {
  autoScan_checked : bool;
  confirmBeforeAdd_checked : bool;
  defaultShelf_value : string;
  googleApiKey_value : string;
  goodreadsApiKey_value : string;
  goodreadsApiSecret_value : string
}.

(** Two awaited calls in a row: the second is made when the first has not
    thrown. *)
Definition andThen (m : Sync -> Result unit * Sync)
    (k : Sync -> Result unit * Sync) : Sync -> Result unit * Sync :=
  fun s =>
    match m s with
    | (Ok _, s') => k s'
    | (Throw e, s') => (Throw e, s')
    end.

(** The writes of [saveSettings()] of the popup, each awaited before the
    next; the result tells which of the two status messages is shown.  The
    form itself is not modelled. *)
Definition saveSettings (f : Form) (s : Sync) : bool * Sync :=
  match
    andThen (setSyncStorage AUTO_SCAN (SBool (autoScan_checked f)))
    (andThen (setSyncStorage CONFIRM_BEFORE_ADD (SBool (confirmBeforeAdd_checked f)))
    (andThen (setSyncStorage DEFAULT_SHELF (SString (defaultShelf_value f)))
    (andThen (setSyncStorage GOOGLE_BOOKS_API_KEY (SString (googleApiKey_value f)))
    (andThen (setSyncStorage GOODREADS_API_KEY (SString (goodreadsApiKey_value f)))
             (setSyncStorage GOODREADS_API_SECRET
                (SString (goodreadsApiSecret_value f))))))) s
  with
  | (Ok _, s') => (true, s')          (* 'Settings saved successfully!' *)
  | (Throw _, s') => (false, s')      (* 'Error saving settings' *)
  end.

(** The settings a form stands for. *)
Definition of_form (f : Form) : AllSettings :=
  {| autoScan := SBool (autoScan_checked f);
     defaultShelf := SString (defaultShelf_value f);
     confirmBeforeAdd := SBool (confirmBeforeAdd_checked f);
     googleBooksApiKey := SString (googleApiKey_value f);
     goodreadsApiKey := SString (goodreadsApiKey_value f);
     goodreadsApiSecret := SString (goodreadsApiSecret_value f) |}.

(** The place of a key in the order of the writes of [saveSettings]. *)
Definition rank (k : key) : nat :=
  match k with
  | AUTO_SCAN => 0
  | CONFIRM_BEFORE_ADD => 1
  | DEFAULT_SHELF => 2
  | GOOGLE_BOOKS_API_KEY => 3
  | GOODREADS_API_KEY => 4
  | GOODREADS_API_SECRET => 5
  end.

(** Of [count] writes made one after the other, each after the one before
    was accepted, the number of those accepted. *)
Fixpoint accepted (coming : list bool) (count : nat) : nat :=
  match count with
  | O => O
  | S count' =>
      match coming with
      | true :: _ => O
      | _ => S (accepted (tail coming) count')
      end
  end.

(** The field of [getAllSettings()] for a key. *)
Definition field (k : key) (a : AllSettings) : setting :=
  match k with
  | AUTO_SCAN => autoScan a
  | DEFAULT_SHELF => defaultShelf a
  | CONFIRM_BEFORE_ADD => confirmBeforeAdd a
  | GOOGLE_BOOKS_API_KEY => googleBooksApiKey a
  | GOODREADS_API_KEY => goodreadsApiKey a
  | GOODREADS_API_SECRET => goodreadsApiSecret a
  end.

End Settings.

(** ** [src/background/service-worker.js]: the ISBNs of the tabs and the badge *)

Module TabTracking.
Import World.

(** The service worker with the badges it has set through [chrome.action]:
    the text and the background colour of each tab. *)
Record Worker : Type := {
  world : World;
  badgeText : gmap Z string;
  badgeBackgroundColor : gmap Z string
}.

Definition set_tabISBNs (m : gmap Z (list string)) (w : World) : World :=
  {| clock := clock w; local_cache := local_cache w;
     local_get_fails := local_get_fails w; local_set_fails := local_set_fails w;
     sync_api_key := sync_api_key w; sync_get_fails := sync_get_fails w;
     google_books := google_books w; open_library_books := open_library_books w;
     open_library_isbn := open_library_isbn w;
     requests := requests w; tabISBNs := m; active_tab := active_tab w |}.

(** The worker with the map [tabISBNs] replaced. *)
Definition with_tabISBNs (m : gmap Z (list string)) (s : Worker) : Worker :=
  {| world := set_tabISBNs m (world s);
     badgeText := badgeText s;
     badgeBackgroundColor := badgeBackgroundColor s |}.

(** [updateBadge(tabId, count)].  The calls of [chrome.action] are not
    awaited, and what the browser answers them is not read. *)
Definition updateBadge (tabId : Z) (count : Z) (s : Worker) : Worker :=
  if 0 <? count then
    {| world := world s;
       badgeText := <[tabId := Js.numberToString (Some count)]> (badgeText s);
       badgeBackgroundColor := <[tabId := "#409D69"]> (badgeBackgroundColor s) |}
  else
    {| world := world s;
       badgeText := <[tabId := EmptyString]> (badgeText s);
       badgeBackgroundColor := badgeBackgroundColor s |}.

(** [handleISBNsDetected(data, sender.tab?.id)], with [isbns] for
    [data.isbns]. *)
Definition handleISBNsDetected (isbns : list string) (tabId : option Z)
    (s : Worker) : Worker :=
  match tabId with
  | Some id =>
      if ServiceWorker.tab_falsy tabId then s                     (* !tabId *)
      else
        (* Store ISBNs for this tab *)
        let s := with_tabISBNs (<[id := isbns]> (tabISBNs (world s))) s in
        (* Update badge *)
        updateBadge id (Z.of_nat (length isbns)) s
  | None => s
  end.

Definition handleTabClosed (tabId : Z) (s : Worker) : Worker :=
  with_tabISBNs (delete tabId (tabISBNs (world s))) s.

(** [handleTabUpdated(tabId, changeInfo)], with the properties [status] and
    [url] of [changeInfo]. *)
Definition handleTabUpdated (tabId : Z) (status url : option string)
    (s : Worker) : Worker :=
  if bool_decide (status = Some "loading")
     && negb (bool_decide (or_string url EmptyString = EmptyString))
  then
    (* Clear ISBNs when navigating to a new page *)
    updateBadge tabId 0 (with_tabISBNs (delete tabId (tabISBNs (world s))) s)
  else s.

(** The events the service worker listens to. *)
Inductive event : Type :=
  | ISBNsDetected (isbns : list string) (tabId : option Z)
  | TabClosed (tabId : Z)
  | TabUpdated (tabId : Z) (status url : option string).

Definition handle (e : event) (s : Worker) : Worker :=
  match e with
  | ISBNsDetected isbns tabId => handleISBNsDetected isbns tabId s
  | TabClosed tabId => handleTabClosed tabId s
  | TabUpdated tabId status url => handleTabUpdated tabId status url s
  end.

(** The worker at its start: no ISBN, no badge. *)
Definition start (w : World) : Worker :=
  {| world := set_tabISBNs ∅ w; badgeText := ∅; badgeBackgroundColor := ∅ |}.

(** The text the badge shows for a number of ISBNs. *)
Definition badge_for (n : nat) : string :=
  match n with
  | O => EmptyString
  | _ => Js.numberToString (Some (Z.of_nat n))
  end.

(** The badge of every tab with recorded ISBNs shows their number. *)
Definition badge_in_step (s : Worker) : Prop :=
  forall id isbns,
    tabISBNs (world s) !! id = Some isbns ->
    badgeText s !! id = Some (badge_for (length isbns)).

(** What the tab events leave alone: storage, network, clock and log. *)
Definition same_services (w0 w : World) : Prop :=
  clock w0 = clock w /\ local_cache w0 = local_cache w /\
  requests w0 = requests w /\ active_tab w0 = active_tab w.

End TabTracking.

(** ** [src/api/goodreads.js] and its handler in the service worker *)

Module Goodreads.
Import World.

(** [API_ENDPOINTS.GOODREADS_SEARCH] *)
Definition GOODREADS_SEARCH : string := "https://www.goodreads.com/search".

(** The letters a to z and A to Z. *)
Definition isSmall (c : ascii) : bool := (97 <=? Js.code c) && (Js.code c <=? 122).
Definition isUpper (c : ascii) : bool := (65 <=? Js.code c) && (Js.code c <=? 90).

(** The characters [encodeURIComponent] leaves as they are: the letters a to
    z and A to Z, the digits and the marks of "-_.!~*'()". *)
Definition unreserved (c : ascii) : bool :=
  Js.isDigit c || isSmall c || isUpper c
  || bool_decide (is_Some (IsbnSpec.position c "-_.!~*'()")).

Definition hex (n : Z) : ascii :=
  ascii_of_N (Z.to_N (if n <? 10 then 48 + n else 55 + n)).

(** "%XX" for a byte. *)
Definition percent (byte : Z) : string :=
  String "%" (String (hex (byte / 16)) (String (hex (byte mod 16)) EmptyString)).

(** The UTF-8 bytes of a character, escaped: one byte below 128, two for the
    characters 128 to 255. *)
Definition escape (c : ascii) : string :=
  let n := Js.code c in
  if n <? 128 then percent n
  else percent (192 + n / 64) +:+ percent (128 + n mod 64).

(** [encodeURIComponent(s)], for a string whose characters are U+0000 to
    U+00FF (no surrogate, so it never throws). *)
Fixpoint encodeURIComponent (s : string) : string :=
  match s with
  | EmptyString => EmptyString
  | String c s' =>
      if unreserved c then String c (encodeURIComponent s')
      else escape c +:+ encodeURIComponent s'
  end.

(** The browser as the module sees it: the addresses of the tabs created so
    far, and whether [chrome.tabs.create] rejects (with which message). *)
Record Browser : Type := {
  created : list string;
  create_fails : option string
}.

Definition chrome_tabs_create (url : string) (b : Browser) : Result unit * Browser :=
  match create_fails b with
  | Some e => (Throw e, b)
  | None => (Ok tt, {| created := created b ++ [url]; create_fails := None |})
  end.

Definition searchOnGoodreads (isbn : string) (b : Browser) : Result unit * Browser :=
  let url := GOODREADS_SEARCH +:+ "?q=" +:+ encodeURIComponent isbn in
  chrome_tabs_create url b.

(** [{ success: true }] or [{ success: false, error }] *)
Inductive SearchResult : Type :=
  | SearchSuccess
  | SearchFailure (error : string).

(** [handleSearchGoodreads(isbn)] of the service worker. *)
Definition handleSearchGoodreads (isbn : string) (b : Browser) : SearchResult * Browser :=
  match searchOnGoodreads isbn b with
  | (Ok _, b') => (SearchSuccess, b')
  | (Throw e, b') => (SearchFailure e, b')
  end.

(** The characters of a string. *)
Fixpoint chars (s : string) : list ascii :=
  match s with
  | EmptyString => []
  | String c s' => c :: chars s'
  end.

(** A character that stands for itself in the query of an address, or the
    sign of an escape. *)
Definition url_safe (c : ascii) : Prop := unreserved c = true \/ c = "%"%char.

End Goodreads.

(** ** The content script ([src/content/content-script.js]) *)

Module ContentScript.

(** The message [ISBNS_DETECTED] sent to the service worker. *)
Record Detected : Type := { isbns : list string; url : string }.

(** [chrome.runtime.sendMessage] is taken to return a promise: its
    rejection is logged and changes nothing.

    The state of the script in a page: the set [foundISBNs] (in insertion
    order), the flag [isScanning], and the messages sent so far, oldest
    first. *)
Record Page : Type := {
  foundISBNs : list string;
  isScanning : bool;
  sent : list Detected
}.

(** [scanForISBNs(rootElement)].  [rootElement] is [None] for [null] (reading
    its text throws, and the error is caught), otherwise the value of its
    [innerText] (of its [textContent], in the inlined version of the
    script), which may be [undefined]; [href] is [window.location.href] at
    the time of the scan. *)
Definition scanForISBNs (rootElement : option (option string)) (href : string)
    (p : Page) : Page :=
  if isScanning p then p
  else
    match rootElement with
    | None =>
        (* catch, finally *)
        {| foundISBNs := foundISBNs p; isScanning := false; sent := sent p |}
    | Some innerText =>
        let text := World.or_string innerText EmptyString in
        let isbns := Isbn.extractISBNs text in
        (* Filter out ISBNs we've already found *)
        let newISBNs := filter (fun isbn => isbn ∉ foundISBNs p) isbns in
        if (0 <? length newISBNs)%nat then
          let found := fold_left (fun s isbn => Js.set_add isbn s) newISBNs (foundISBNs p) in
          (* Send to background service worker *)
          {| foundISBNs := found; isScanning := false;
             sent := sent p ++ [{| isbns := found; url := href |}] |}
        else
          {| foundISBNs := foundISBNs p; isScanning := false; sent := sent p |}
    end.

(** What [handleMessage] passes to [sendResponse]. *)
Inductive Response : Type :=
  | Scanned (count : nat)             (* { success: true, count } *)
  | DetectedISBNs (isbns : list string).   (* { isbns } *)

(** [handleMessage(message, sender, sendResponse)], with [type] for
    [message.type] and [body] for [document.body], the default argument of
    [scanForISBNs]; the result is the response, if one is sent. *)
Definition handleMessage (type : option string) (body : option (option string))
    (href : string) (p : Page) : option Response * Page :=
  if bool_decide (type = Some "SCAN_PAGE") then
    (* Clear found ISBNs and rescan *)
    let p := {| foundISBNs := []; isScanning := isScanning p; sent := sent p |} in
    let p := scanForISBNs body href p in
    (Some (Scanned (length (foundISBNs p))), p)
  else if bool_decide (type = Some "GET_DETECTED_BOOKS") then
    (Some (DetectedISBNs (foundISBNs p)), p)
  else (None, p).

(** The state of the script when it is loaded. *)
Definition loaded : Page :=
  {| foundISBNs := []; isScanning := false; sent := [] |}.

(** What happens in a page: a scan (the first one, or one started by the
    mutation observer), or a message. *)
Inductive event : Type :=
  | Scan (rootElement : option (option string)) (href : string)
  | Message (type : option string) (body : option (option string)) (href : string).

Definition handle (e : event) (p : Page) : Page :=
  match e with
  | Scan rootElement href => scanForISBNs rootElement href p
  | Message type body href => (handleMessage type body href p).2
  end.

(** What holds of the script's state whatever happens in the page. *)
Definition page_ok (p : Page) : Prop :=
  isScanning p = false /\
  NoDup (foundISBNs p) /\
  Forall (fun x => Isbn.isValidISBN x = true /\ Isbn.normalizeISBN x = x) (foundISBNs p) /\
  Forall (fun m => isbns m <> [] /\ NoDup (isbns m)) (sent p).

End ContentScript.

(** ** The mutation observer of the content script *)

Module Mutations.

(** [Node.ELEMENT_NODE] *)
Definition ELEMENT_NODE : Z := 1.

(** An added node: its [nodeType] and its [innerText] ([textContent] in the
    inlined version of the script), [None] when the node has none. *)
Record Node : Type := { nodeType : Z; innerText : option string }.

Record MutationRecord : Type := { type : string; addedNodes : list Node }.

(** The inner loop of [handleMutations]: [true] when it leaves by
    [break] with [shouldScan] set. *)
Fixpoint significant (nodes : list Node) : bool :=
  match nodes with
  | [] => false
  | node :: nodes' =>
      if (nodeType node =? ELEMENT_NODE)
         && (10 <? String.length (World.or_string (innerText node) EmptyString))%nat
      then true       (* Only scan if there's meaningful content *)
      else significant nodes'
  end.

(** [handleMutations(mutations)]: the value of [shouldScan] at the end,
    that is whether [debouncedScan()] is called. *)
Fixpoint handleMutations (mutations : list MutationRecord) : bool :=
  match mutations with
  | [] => false
  | mutation :: mutations' =>
      if bool_decide (type mutation = "childList")
         && (0 <? length (addedNodes mutation))%nat
         && significant (addedNodes mutation)
      then true
      else handleMutations mutations'
  end.

End Mutations.

(** ** Further notions used to state and to prove the properties

    Errors of typing, for the statements about the checksums. *)

Module Typo.

(** The string with the character at position [i] replaced by [c]. *)
Fixpoint substitute (i : nat) (c : ascii) (s : string) : string :=
  match s, i with
  | EmptyString, _ => EmptyString
  | String _ s', O => String c s'
  | String a s', S i' => String a (substitute i' c s')
  end.

(** The string with the characters at positions [i] and [j] exchanged. *)
Definition transpose (i j : nat) (s : string) : string :=
  match String.get i s, String.get j s with
  | Some a, Some b => substitute i b (substitute j a s)
  | _, _ => s
  end.

End Typo.

(** The value a character has at a position of an ISBN-10. *)
Definition value10 (i : nat) (c : ascii) : option Z :=
  if (i =? 9)%nat then IsbnSpec.check c else IsbnSpec.digit c.

(** The least number of characters a pattern takes. *)
Fixpoint min_len (r : Regex.regex) : nat :=
  match r with
  | Regex.Eps => 0
  | Regex.One _ => 1
  | Regex.Seq r1 r2 => min_len r1 + min_len r2
  | Regex.Opt _ => 0
  | Regex.Star _ => 0
  | Regex.Rep n r1 => n * min_len r1
  end.

(** No character of the text is the letter I, in either case: the label of
    the patterns cannot start in it. *)
Fixpoint no_label (s : string) : Prop :=
  match s with
  | EmptyString => True
  | String c s' => Regex.mem true (Regex.Chr "I") c = false /\ no_label s'
  end.

(** What the patterns and [normalizeISBN] test on a decimal digit. *)
Record digit_like (c : ascii) : Prop := {
  dl_digit : Regex.mem true Regex.Digit c = true;
  dl_sep : Regex.mem true Constants.separator c = false;
  dl_I : Regex.mem true (Regex.Chr "I") c = false;
  dl_check : Regex.mem true (Regex.Union Regex.Digit
               (Regex.Union (Regex.Chr "X") (Regex.Chr "x"))) c = true;
  dl_sep' : Regex.mem false Constants.separator c = false;
  dl_upper : Js.upperChar c = c;
  dl_sharp : Js.isSharpS c = false
}.

(** The same for the check character of an ISBN-10, a digit or [X]. *)
Record check_like (c : ascii) : Prop := {
  cl_sep : Regex.mem true Constants.separator c = false;
  cl_I : Regex.mem true (Regex.Chr "I") c = false;
  cl_check : Regex.mem true (Regex.Union Regex.Digit
               (Regex.Union (Regex.Chr "X") (Regex.Chr "x"))) c = true;
  cl_sep' : Regex.mem false Constants.separator c = false;
  cl_upper : Js.upperChar c = c;
  cl_sharp : Js.isSharpS c = false
}.

Module ResolverView.
Import World.

(** [w0] has the clock and the local storage of [w]. *)
Definition same_store (w0 w : World) : Prop :=
  clock w0 = clock w /\ local_cache w0 = local_cache w /\
  local_get_fails w0 = local_get_fails w /\ local_set_fails w0 = local_set_fails w.

(** What every parser of the providers guarantees of its record. *)
Definition parsed_for (isbn : string) (b : Book.BookMetadata) : Prop :=
  Book.isbn b = isbn /\ Book.title b <> EmptyString /\
  (Book.source b = "google-books" \/ Book.source b = "open-library").

(** The book shown for a detected ISBN. *)
Definition shown_for (isbn : string) (b : value) : Prop :=
  b = VBook (ServiceWorker.detailsUnavailable isbn) \/ truthy (Some b) = true.

End ResolverView.

Module Delivery.
Import ContentScript.

(** The service worker after the messages of a page, taken in the order
    they were sent, have reached it from the tab [id]. *)
Definition deliver (id : Z) (messages : list ContentScript.Detected)
    (s : TabTracking.Worker) : TabTracking.Worker :=
  fold_left
    (fun s m => TabTracking.handleISBNsDetected (ContentScript.isbns m) (Some id) s)
    messages s.

(** The script after a series of scans, each with the text and the address
    it finds. *)
Definition scans (roots : list (option (option string) * string))
    (p : ContentScript.Page) : ContentScript.Page :=
  fold_left (fun p r => ContentScript.scanForISBNs r.1 r.2 p) roots p.

(** The last message lists all that the page has found. *)
Definition reported (p : Page) : Prop :=
  isScanning p = false /\
  match last (sent p) with
  | Some m => isbns m = foundISBNs p
  | None => foundISBNs p = []
  end.

End Delivery.

Module MoreExamples.
Import World.

(** The world after Open Library's book has been cached, no service being
    reachable any more. *)
Definition cached : World :=
  (OpenLibrary.cacheBookInfo "9780306406157" Examples.book Examples.offline).2.


End MoreExamples.
(** ** The repository's unit tests ([tests/isbn.test.js]) on the embedding *)

Module IsbnTests.
Import Isbn.

Example test_normalize :
  normalizeISBN "978-0-13-468599-1" = "9780134685991" /\
  normalizeISBN "978 0 13 468599 1" = "9780134685991" /\
  normalizeISBN "978-0-13-468599-x" = "978013468599X".
Proof. repeat split; reflexivity. Qed.

Example test_validateISBN10Checksum :
  validateISBN10Checksum "0306406152" = true /\
  validateISBN10Checksum "043942089X" = true /\
  validateISBN10Checksum "0134685990" = false /\
  validateISBN10Checksum "123456789" = false.
Proof. repeat split; reflexivity. Qed.

Example test_validateISBN13Checksum :
  validateISBN13Checksum "9780134685991" = true /\
  validateISBN13Checksum "9780306406157" = true /\
  validateISBN13Checksum "9780134685990" = false /\
  validateISBN13Checksum "12345678901" = false.
Proof. repeat split; reflexivity. Qed.

Example test_isValidISBN :
  isValidISBN "978-0-13-468599-1" = true /\
  isValidISBN "9790134685991" = false /\
  isValidISBN "1234567890" = false /\
  isValidISBN "9781234567890" = false /\
  isValidISBN "123" = false.
Proof. repeat split; reflexivity. Qed.

Example test_extractISBNs :
  extractISBNs "Check out this book: ISBN: 978-0-13-468599-1" = ["9780134685991"] /\
  extractISBNs "Books: 9780134685991 and 0306406152" = ["9780134685991"; "0306406152"] /\
  extractISBNs "No ISBNs here: 1234567890" = [] /\
  extractISBNs "Duplicate: 9780134685991 and 9780134685991" = ["9780134685991"] /\
  extractISBNs "Invalid checksum: 9780134685990 should not match" = [].
Proof. repeat split; vm_compute; reflexivity. Qed.

Example test_convertISBN10ToISBN13 :
  convertISBN10ToISBN13 "0306406152" = Some "9780306406157" /\
  convertISBN10ToISBN13 "invalid" = None /\
  convertISBN10ToISBN13 "12345" = None.
Proof. repeat split; reflexivity. Qed.

Example test_formatISBN :
  formatISBN "9780134685991" = "978-0-134-68599-1" /\
  formatISBN "0134685991" = "0-134-68599-1" /\
  formatISBN "123" = "123".
Proof. repeat split; reflexivity. Qed.

(** The test file also takes 0134685991 for a valid ISBN-10.  Its weighted
    sum is 203, which is 5 modulo 11 (the ISBN-10 of 9780134685991 is
    0134685997), so the code rejects it wherever it checks the sum. *)
Example test_data_0134685991 :
  validateISBN10Checksum "0134685991" = false /\
  isValidISBN "0-13-468599-1" = false /\
  convertISBN10ToISBN13 "0134685991" = None /\
  extractISBNs "ISBN-10: 0-13-468599-1 is a great book" = [] /\
  convertISBN10ToISBN13 "0134685997" = Some "9780134685991".
Proof. repeat split; vm_compute; reflexivity. Qed.

End IsbnTests.

(** * Properties *)

(** ** Characters and strings *)

Lemma upperChar_idem c : Js.upperChar (Js.upperChar c) = Js.upperChar c.
Proof. destruct c as [[] [] [] [] [] [] [] []]; reflexivity. Qed.

Lemma upperChar_not_separator c :
  Regex.mem false Constants.separator c = false ->
  Regex.mem false Constants.separator (Js.upperChar c) = false.
Proof. destruct c as [[] [] [] [] [] [] [] []]; vm_compute; congruence. Qed.

Lemma isDigit_upperChar c : Js.isDigit c = true -> Js.upperChar c = c.
Proof. destruct c as [[] [] [] [] [] [] [] []]; vm_compute; congruence. Qed.

Lemma isDigit_not_separator c :
  Js.isDigit c = true -> Regex.mem false Constants.separator c = false.
Proof. destruct c as [[] [] [] [] [] [] [] []]; vm_compute; congruence. Qed.

Lemma parseInt_Some ch d :
  Js.parseInt ch = Some d ->
  exists c, ch = Some c /\ Js.isDigit c = true /\ d = Js.code c - 48 /\ 0 <= d <= 9.
Proof.
  destruct ch as [c|]; simpl; [|discriminate].
  destruct (Js.isDigit c) eqn:Hd; [|discriminate].
  intros [= <-]. exists c. repeat split; trivial;
    unfold Js.isDigit in Hd; apply andb_prop in Hd as [H1 H2];
    apply Z.leb_le in H1, H2; lia.
Qed.

Lemma parseInt_digit c :
  Js.isDigit c = true -> Js.parseInt (Some c) = Some (Js.code c - 48).
Proof. intros H. simpl. now rewrite H. Qed.

(** A string all of whose characters are kept by [normalizeISBN]. *)
Fixpoint normal (s : string) : Prop :=
  match s with
  | EmptyString => True
  | String c s' =>
      Regex.mem false Constants.separator c = false /\
      Js.upperChar c = c /\ Js.isSharpS c = false /\ normal s'
  end.

Lemma upperChar_not_sharp c : Js.isSharpS (Js.upperChar c) = Js.isSharpS c.
Proof. destruct c as [[] [] [] [] [] [] [] []]; reflexivity. Qed.

Lemma isDigit_not_sharp c : Js.isDigit c = true -> Js.isSharpS c = false.
Proof. destruct c as [[] [] [] [] [] [] [] []]; vm_compute; congruence. Qed.

Lemma normalizeISBN_normal s : normal (Isbn.normalizeISBN s).
Proof.
  unfold Isbn.normalizeISBN. induction s as [|c s IH]; [exact I|].
  cbn [Regex.removeAll].
  destruct (Regex.mem false Constants.separator c) eqn:Hc; [exact IH|].
  cbn [Js.toUpperCase]. destruct (Js.isSharpS c) eqn:Hss.
  - cbn [normal]. repeat split; trivial.
  - cbn [normal]. rewrite upperChar_not_sharp.
    repeat split; auto using upperChar_not_separator, upperChar_idem.
Qed.

Lemma normal_normalizeISBN s : normal s -> Isbn.normalizeISBN s = s.
Proof.
  unfold Isbn.normalizeISBN. induction s as [|c s IH]; [reflexivity|].
  cbn [normal Regex.removeAll]. intros (Hc & Hu & Hss & Hs). rewrite Hc.
  cbn [Js.toUpperCase]. now rewrite Hss, Hu, IH.
Qed.

Lemma normalizeISBN_idem s :
  Isbn.normalizeISBN (Isbn.normalizeISBN s) = Isbn.normalizeISBN s.
Proof. apply normal_normalizeISBN, normalizeISBN_normal. Qed.

(** ** Loops *)

(** The checksum loops: every character must parse, and the sum is the
    weighted sum of the parsed values. *)
Lemma for_range_checksum (g : nat -> option Z) (w : nat -> Z) from count acc :
  Js.for_range from count
    (fun i sum => match g i with
                  | None => None
                  | Some digit => Some (sum + digit * w i)
                  end) acc
  = if forallb (fun i => bool_decide (is_Some (g i))) (seq from count)
    then Some (acc + IsbnSpec.weighted_sum (fun i => default 0 (g i)) w from count)
    else None.
Proof.
  revert from acc. induction count as [|n IH]; intros from acc.
  - cbn. f_equal. lia.
  - cbn [Js.for_range seq forallb IsbnSpec.weighted_sum].
    destruct (g from) as [d|] eqn:Hg; cbn -[Z.add Z.mul].
    + rewrite IH. destruct (forallb _ _); [|reflexivity]. f_equal. lia.
    + reflexivity.
Qed.

Lemma weighted_sum_ext d d' w from count :
  (forall i, (from <= i < from + count)%nat -> d i = d' i) ->
  IsbnSpec.weighted_sum d w from count = IsbnSpec.weighted_sum d' w from count.
Proof.
  revert from. induction count as [|n IH]; intros from H; cbn; [reflexivity|].
  rewrite (H from) by lia. rewrite (IH (S from)); [reflexivity|].
  intros i Hi. apply H. lia.
Qed.

Lemma weighted_sum_snoc d w from count :
  IsbnSpec.weighted_sum d w from (S count)
  = IsbnSpec.weighted_sum d w from count + d (from + count)%nat * w (from + count)%nat.
Proof.
  revert from. induction count as [|n IH]; intros from.
  - cbn. rewrite Nat.add_0_r. lia.
  - cbn [IsbnSpec.weighted_sum] in *. rewrite IH.
    replace (S from + n)%nat with (from + S n)%nat by lia. lia.
Qed.

Lemma parseInt_digit_spec c : Js.parseInt (Some c) = IsbnSpec.digit c.
Proof. destruct c as [[] [] [] [] [] [] [] []]; reflexivity. Qed.

Lemma rem_zero_iff_mod a b : b <> 0 -> (Z.rem a b =? 0) = true <-> a mod b = 0.
Proof.
  intros Hb. rewrite Z.eqb_eq, Z.rem_divide, Z.mod_divide by assumption. tauto.
Qed.

Lemma forallb_seq (p : nat -> bool) from count :
  forallb p (seq from count) = true <->
  forall i, (from <= i < from + count)%nat -> p i = true.
Proof.
  rewrite forallb_forall. split; intros H i Hi; apply H; apply in_seq; exact Hi.
Qed.

(** ** The ISBN-10 validator *)

Lemma validateISBN10Checksum_unfold s :
  Isbn.validateISBN10Checksum s =
  if negb (String.length s =? 10)%nat then false
  else if forallb (fun i => bool_decide (is_Some (Js.parseInt (String.get i s)))) (seq 0 9)
  then match (if bool_decide (String.get 9 s = Some "X"%char) then Some 10
              else Js.parseInt (String.get 9 s)) with
       | None => false
       | Some cd =>
           Z.rem (IsbnSpec.weighted_sum
                    (fun i => default 0 (Js.parseInt (String.get i s)))
                    IsbnSpec.weight10 0 9 + cd) 11 =? 0
       end
  else false.
Proof.
  unfold Isbn.validateISBN10Checksum.
  destruct (negb _); [reflexivity|].
  rewrite (for_range_checksum (fun i => Js.parseInt (String.get i s))
             (fun i => 10 - Z.of_nat i)).
  destruct (forallb _ _); reflexivity.
Qed.

Lemma check_value_spec s c :
  String.get 9 s = Some c ->
  (if bool_decide (String.get 9 s = Some "X"%char) then Some 10
   else Js.parseInt (String.get 9 s)) = IsbnSpec.check c.
Proof.
  intros ->. case bool_decide_reflect.
  - intros [= ->]. reflexivity.
  - intros Hne. rewrite parseInt_digit_spec.
    destruct c as [[] [] [] [] [] [] [] []]; try reflexivity. now destruct Hne.
Qed.

Lemma validateISBN10Checksum_iff s :
  Isbn.validateISBN10Checksum s = true <-> IsbnSpec.isValidISBN10 s.
Proof.
  rewrite validateISBN10Checksum_unfold. unfold IsbnSpec.isValidISBN10. split.
  - destruct (String.length s =? 10)%nat eqn:Hlen; [|discriminate]. cbn [negb].
    apply Nat.eqb_eq in Hlen.
    destruct (forallb _ _) eqn:Hall; [|discriminate].
    rewrite forallb_seq in Hall.
    destruct (String.get 9 s) as [c9|] eqn:H9.
    2:{ rewrite bool_decide_eq_false_2 by discriminate. discriminate. }
    rewrite <- H9, (check_value_spec s c9 H9).
    destruct (IsbnSpec.check c9) as [cd|] eqn:Hcd; [|discriminate].
    intros Hsum. apply rem_zero_iff_mod in Hsum; [|lia].
    split; [exact Hlen|].
    exists (fun i => if (i =? 9)%nat then cd
                     else default 0 (Js.parseInt (String.get i s))).
    split; [|split].
    + intros i Hi. specialize (Hall i ltac:(lia)).
      apply bool_decide_eq_true in Hall as [d Hd].
      destruct (parseInt_Some _ _ Hd) as (c & Hc & _).
      exists c. split; [exact Hc|].
      replace (i =? 9)%nat with false by (symmetry; apply Nat.eqb_neq; lia).
      rewrite Hd, <- parseInt_digit_spec, <- Hc. exact Hd.
    + exists c9. rewrite H9. split; [reflexivity|]. exact Hcd.
    + change 10%nat with (S 9). rewrite weighted_sum_snoc. cbn [Nat.add Nat.eqb].
      rewrite (weighted_sum_ext _ (fun i => default 0 (Js.parseInt (String.get i s)))).
      * unfold IsbnSpec.weight10 at 2. change (10 - Z.of_nat 9) with 1.
        rewrite Z.mul_1_r. exact Hsum.
      * intros i Hi.
        now replace (i =? 9)%nat with false by (symmetry; apply Nat.eqb_neq; lia).
  - intros (Hlen & d & Hd & (c9 & H9 & Hcd) & Hsum).
    rewrite Hlen. cbn [Nat.eqb negb].
    assert (Hg : forall i, (i < 9)%nat -> Js.parseInt (String.get i s) = Some (d i)).
    { intros i Hi. destruct (Hd i Hi) as (c & Hc & Hv).
      now rewrite Hc, parseInt_digit_spec. }
    replace (forallb _ _) with true.
    2:{ symmetry. apply forallb_seq. intros i Hi. apply bool_decide_eq_true.
        rewrite Hg by lia. eauto. }
    rewrite (check_value_spec s c9 H9), Hcd.
    apply rem_zero_iff_mod; [lia|].
    change 10%nat with (S 9) in Hsum. rewrite weighted_sum_snoc in Hsum.
    cbn [Nat.add] in Hsum. unfold IsbnSpec.weight10 at 2 in Hsum.
    change (10 - Z.of_nat 9) with 1 in Hsum. rewrite Z.mul_1_r in Hsum.
    rewrite (weighted_sum_ext _ d); [exact Hsum|].
    intros i Hi. now rewrite Hg by lia.
Qed.

Lemma get_Some_lt i s c : String.get i s = Some c -> (i < String.length s)%nat.
Proof.
  revert i. induction s as [|a s IH]; intros [|i]; cbn; try discriminate; try lia.
  intros H. apply IH in H. lia.
Qed.

Lemma check_not_X c : c <> "X"%char -> IsbnSpec.check c = IsbnSpec.digit c.
Proof.
  intros Hne. destruct c as [[] [] [] [] [] [] [] []]; try reflexivity. now destruct Hne.
Qed.

(** C5.  [validateISBN10Checksum] is the ISBN-10 rule of the specification:
    it returns [true] exactly on the strings of length 10 whose positions
    0..8 are decimal digits, whose position 9 is a decimal digit or [X]
    (value 10), and whose sum weighted by 10 - position (the check
    character by 1) is divisible by 11.  A character that is not a digit,
    other than [X] in the last position, makes it return [false]. *)
Theorem validateISBN10Checksum_correct (s : string) :
  (Isbn.validateISBN10Checksum s = true <-> IsbnSpec.isValidISBN10 s) /\
  (forall i c, String.get i s = Some c -> IsbnSpec.digit c = None ->
               ~ (i = 9%nat /\ c = "X"%char) ->
               Isbn.validateISBN10Checksum s = false).
Proof.
  split; [apply validateISBN10Checksum_iff|].
  intros i c Hget Hnd HnX.
  destruct (Isbn.validateISBN10Checksum s) eqn:Hv; [exfalso|reflexivity].
  apply validateISBN10Checksum_iff in Hv as (Hlen & d & Hd & (c9 & H9 & Hc9) & _).
  pose proof (get_Some_lt _ _ _ Hget) as Hi. rewrite Hlen in Hi.
  destruct (Nat.eq_dec i 9%nat) as [->|Hne].
  - rewrite Hget in H9. injection H9 as <-.
    rewrite check_not_X in Hc9 by (intros ->; apply HnX; split; reflexivity).
    congruence.
  - destruct (Hd i ltac:(lia)) as (c' & Hc' & Hv'). congruence.
Qed.

(** ** The ISBN-13 validator *)

Lemma validateISBN13Checksum_unfold s :
  Isbn.validateISBN13Checksum s =
  if negb (String.length s =? 13)%nat then false
  else if forallb (fun i => bool_decide (is_Some (Js.parseInt (String.get i s)))) (seq 0 13)
  then Z.rem (IsbnSpec.weighted_sum
                (fun i => default 0 (Js.parseInt (String.get i s)))
                IsbnSpec.weight13 0 13) 10 =? 0
  else false.
Proof.
  unfold Isbn.validateISBN13Checksum.
  destruct (negb _); [reflexivity|].
  rewrite (for_range_checksum (fun i => Js.parseInt (String.get i s))
             (fun i => if (i mod 2 =? 0)%nat then 1 else 3)).
  destruct (forallb _ _); [|reflexivity].
  rewrite Z.add_0_l. reflexivity.
Qed.

Lemma validateISBN13Checksum_iff s :
  Isbn.validateISBN13Checksum s = true <-> IsbnSpec.isValidISBN13 s.
Proof.
  rewrite validateISBN13Checksum_unfold. unfold IsbnSpec.isValidISBN13. split.
  - destruct (String.length s =? 13)%nat eqn:Hlen; [|discriminate]. cbn [negb].
    apply Nat.eqb_eq in Hlen.
    destruct (forallb _ _) eqn:Hall; [|discriminate].
    rewrite forallb_seq in Hall.
    intros Hsum. apply rem_zero_iff_mod in Hsum; [|lia].
    split; [exact Hlen|].
    exists (fun i => default 0 (Js.parseInt (String.get i s))).
    split; [|exact Hsum].
    intros i Hi. specialize (Hall i ltac:(lia)).
    apply bool_decide_eq_true in Hall as [d Hd].
    destruct (parseInt_Some _ _ Hd) as (c & Hc & _).
    exists c. split; [exact Hc|].
    rewrite Hd, <- parseInt_digit_spec, <- Hc. exact Hd.
  - intros (Hlen & d & Hd & Hsum).
    rewrite Hlen. cbn [Nat.eqb negb].
    assert (Hg : forall i, (i < 13)%nat -> Js.parseInt (String.get i s) = Some (d i)).
    { intros i Hi. destruct (Hd i Hi) as (c & Hc & Hv).
      now rewrite Hc, parseInt_digit_spec. }
    replace (forallb _ _) with true.
    2:{ symmetry. apply forallb_seq. intros i Hi. apply bool_decide_eq_true.
        rewrite Hg by lia. eauto. }
    apply rem_zero_iff_mod; [lia|].
    rewrite (weighted_sum_ext _ d); [exact Hsum|].
    intros i Hi. now rewrite Hg by lia.
Qed.

Lemma digit_isDigit c v : IsbnSpec.digit c = Some v -> Js.isDigit c = true.
Proof. destruct c as [[] [] [] [] [] [] [] []]; vm_compute; congruence. Qed.

Lemma digits_normal s d : IsbnSpec.digits_of s (String.length s) d -> normal s.
Proof.
  revert d. induction s as [|a s IH]; intros d H; [exact I|].
  cbn [normal]. destruct (H 0%nat) as (c & Hc & Hv); [cbn; lia|].
  cbn in Hc. injection Hc as <-. apply digit_isDigit in Hv.
  repeat split; auto using isDigit_not_separator, isDigit_upperChar, isDigit_not_sharp.
  apply (IH (fun i => d (S i))). intros i Hi.
  destruct (H (S i)) as (c & Hc & Hv'); [cbn; lia|]. exists c. split; assumption.
Qed.

(** ** Normalisation, in the code and in the specification *)

Lemma formatting_separator c :
  IsbnSpec.formatting c = Regex.mem false Constants.separator c.
Proof. destruct c as [[] [] [] [] [] [] [] []]; reflexivity. Qed.

Lemma capital_ascii c :
  (N_of_ascii c <? 128)%N = true ->
  Js.isSharpS c = false /\ Js.upperChar c = IsbnSpec.capital c.
Proof.
  destruct c as [[] [] [] [] [] [] [] []]; vm_compute; intros H;
    try discriminate H; split; reflexivity.
Qed.

(** Where the capital is a character of an ISBN, the two notions of capital
    agree. *)
Lemma capital_isbn_char c :
  (Js.isSharpS c = false /\ IsbnSpec.isbn_char (Js.upperChar c) = true) \/
  IsbnSpec.isbn_char (IsbnSpec.capital c) = true ->
  Js.isSharpS c = false /\ Js.upperChar c = IsbnSpec.capital c.
Proof.
  destruct c as [[] [] [] [] [] [] [] []]; vm_compute;
    intros [[H1 H2] | H]; try discriminate; split; reflexivity.
Qed.

Lemma normalizeISBN_ascii s :
  IsbnSpec.is_ascii s = true -> Isbn.normalizeISBN s = IsbnSpec.normalize s.
Proof.
  unfold Isbn.normalizeISBN. induction s as [|c s IH]; [reflexivity|].
  cbn [IsbnSpec.is_ascii IsbnSpec.normalize Regex.removeAll].
  intros [Hc Hs]%andb_prop. rewrite formatting_separator.
  destruct (Regex.mem false Constants.separator c); [exact (IH Hs)|].
  cbn [Js.toUpperCase]. destruct (capital_ascii c Hc) as [-> ->].
  now rewrite (IH Hs).
Qed.

(** The two normalisations give the same string when either result is made
    of the characters of an ISBN. *)
Lemma normalizeISBN_isbn_chars s :
  IsbnSpec.isbn_chars (Isbn.normalizeISBN s) = true \/
  IsbnSpec.isbn_chars (IsbnSpec.normalize s) = true ->
  Isbn.normalizeISBN s = IsbnSpec.normalize s.
Proof.
  unfold Isbn.normalizeISBN. induction s as [|c s IH]; [reflexivity|].
  cbn [IsbnSpec.normalize Regex.removeAll]. rewrite formatting_separator.
  destruct (Regex.mem false Constants.separator c); [exact IH|].
  cbn [Js.toUpperCase]. intros H.
  assert (Hc : Js.isSharpS c = false /\ Js.upperChar c = IsbnSpec.capital c).
  { apply capital_isbn_char. destruct H as [H | H].
    - left. destruct (Js.isSharpS c); [discriminate H|].
      cbn [IsbnSpec.isbn_chars] in H. apply andb_prop in H as [H _]. now split.
    - right. cbn [IsbnSpec.isbn_chars] in H. now apply andb_prop in H as [H _]. }
  destruct Hc as [Hs Hu]. rewrite Hs, Hu in *. f_equal. apply IH.
  cbn [IsbnSpec.isbn_chars] in H.
  destruct H as [H | H]; apply andb_prop in H as [_ H]; auto.
Qed.

Lemma isbn_chars_get s :
  (forall i c, String.get i s = Some c -> IsbnSpec.isbn_char c = true) ->
  IsbnSpec.isbn_chars s = true.
Proof.
  induction s as [|a s IH]; intros H; [reflexivity|].
  cbn [IsbnSpec.isbn_chars]. apply andb_true_intro. split.
  - apply (H 0%nat). reflexivity.
  - apply IH. intros i c Hg. apply (H (S i)). exact Hg.
Qed.

Lemma digit_isbn_char c v : IsbnSpec.digit c = Some v -> IsbnSpec.isbn_char c = true.
Proof.
  intros H. unfold IsbnSpec.isbn_char. rewrite H.
  now rewrite bool_decide_eq_true_2 by eauto.
Qed.

Lemma check_isbn_char c v : IsbnSpec.check c = Some v -> IsbnSpec.isbn_char c = true.
Proof.
  destruct (ascii_dec c "X") as [-> | Hne]; [reflexivity|].
  rewrite check_not_X by exact Hne. apply digit_isbn_char.
Qed.

Lemma isValidISBN10_isbn_chars s :
  IsbnSpec.isValidISBN10 s -> IsbnSpec.isbn_chars s = true.
Proof.
  intros (Hlen & d & Hd & (c9 & Hg9 & Hc9) & _). apply isbn_chars_get.
  intros i c Hg. pose proof (get_Some_lt _ _ _ Hg) as Hi. rewrite Hlen in Hi.
  destruct (Nat.eq_dec i 9%nat) as [-> | Hne].
  - rewrite Hg in Hg9. injection Hg9 as ->. exact (check_isbn_char _ _ Hc9).
  - destruct (Hd i) as (c' & Hg' & Hv); [lia|].
    rewrite Hg in Hg'. injection Hg' as <-. exact (digit_isbn_char _ _ Hv).
Qed.

Lemma isValidISBN13_isbn_chars s :
  IsbnSpec.isValidISBN13 s -> IsbnSpec.isbn_chars s = true.
Proof.
  intros (Hlen & d & Hd & _). apply isbn_chars_get.
  intros i c Hg. pose proof (get_Some_lt _ _ _ Hg) as Hi. rewrite Hlen in Hi.
  destruct (Hd i Hi) as (c' & Hg' & Hv).
  rewrite Hg in Hg'. injection Hg' as <-. exact (digit_isbn_char _ _ Hv).
Qed.

Lemma startsWith_starts_with p s :
  Js.startsWith p s = true <-> IsbnSpec.starts_with p s.
Proof.
  unfold Js.startsWith, IsbnSpec.starts_with. revert s.
  induction p as [|a p IH]; intros s.
  - split; [intros _; exists s; reflexivity|]. intros _. now destruct s.
  - destruct s as [|b s]; cbn [String.prefix].
    + split; [discriminate|]. intros [rest H]. discriminate H.
    + destruct (ascii_dec a b) as [<- | Hne].
      * rewrite IH. split; intros [rest H]; exists rest.
        -- now rewrite H.
        -- change (String a p +:+ rest) with (String a (p +:+ rest)) in H.
           now injection H.
      * split; [discriminate|]. intros [rest H].
        change (String a p +:+ rest) with (String a (p +:+ rest)) in H.
        injection H as H _. now destruct Hne.
Qed.

(** ** [isValidISBN] *)

(** C4.  [isValidISBN] normalises its argument first: of an ASCII text the
    normalised form is the text without its blanks and hyphens, in capital
    letters.  For a normalised length of 10 it returns the verdict of the
    ISBN-10 checksum; for a normalised length of 13 it returns [false]
    unless the normalised string starts with 978 or 979, and otherwise the
    verdict of the ISBN-13 checksum; for any other length it returns
    [false].  Every string gets a verdict, and the verdict is [true]
    exactly when the rule of the specification holds: once the blanks and
    hyphens are removed and the letters are capitals, the string is a valid
    ISBN-10, or a valid ISBN-13 that starts with 978 or 979. *)
Theorem isValidISBN_correct (s : string) :
  let n := Isbn.normalizeISBN s in
  (IsbnSpec.is_ascii s = true -> n = IsbnSpec.normalize s) /\
  (String.length n = 10%nat ->
     Isbn.isValidISBN s = Isbn.validateISBN10Checksum n) /\
  (String.length n = 13%nat ->
     Js.startsWith "978" n = false -> Js.startsWith "979" n = false ->
     Isbn.isValidISBN s = false) /\
  (String.length n = 13%nat ->
     Js.startsWith "978" n = true \/ Js.startsWith "979" n = true ->
     Isbn.isValidISBN s = Isbn.validateISBN13Checksum n) /\
  (String.length n <> 10%nat -> String.length n <> 13%nat ->
     Isbn.isValidISBN s = false) /\
  (Isbn.isValidISBN s = true <-> IsbnSpec.isValidISBN s).
Proof.
  cbv zeta. split; [apply normalizeISBN_ascii|].
  unfold Isbn.isValidISBN, IsbnSpec.isValidISBN.
  split; [intros ->; reflexivity|].
  split; [intros -> -> ->; reflexivity|].
  split.
  { intros -> [-> | ->]; cbn [Nat.eqb negb andb]; [reflexivity|].
    now rewrite andb_false_r. }
  split.
  { intros H10 H13. apply Nat.eqb_neq in H10, H13. now rewrite H10, H13. }
  cbv zeta. split.
  - (* the code accepts: the normalised string is made of digits and X, so
       that it is the specification's normalised string *)
    intros H.
    destruct (String.length (Isbn.normalizeISBN s) =? 10)%nat eqn:H10.
    + apply validateISBN10Checksum_iff in H.
      rewrite <- (normalizeISBN_isbn_chars s)
        by (left; now apply isValidISBN10_isbn_chars).
      now left.
    + destruct (String.length (Isbn.normalizeISBN s) =? 13)%nat; [|discriminate H].
      destruct (negb (Js.startsWith "978" _) && negb (Js.startsWith "979" _)) eqn:Hp;
        [discriminate H|].
      apply validateISBN13Checksum_iff in H.
      rewrite <- (normalizeISBN_isbn_chars s)
        by (left; now apply isValidISBN13_isbn_chars).
      right. split; [|exact H].
      apply andb_false_iff in Hp as [Hp | Hp]; apply negb_false_iff in Hp;
        apply startsWith_starts_with in Hp; auto.
  - (* the rule holds: the same, from the specification's side *)
    intros [H | [Hp H]].
    + rewrite (normalizeISBN_isbn_chars s)
        by (right; now apply isValidISBN10_isbn_chars).
      pose proof H as [Hlen _]. rewrite Hlen. cbn [Nat.eqb].
      now apply validateISBN10Checksum_iff.
    + rewrite (normalizeISBN_isbn_chars s)
        by (right; now apply isValidISBN13_isbn_chars).
      pose proof H as [Hlen _]. rewrite Hlen. cbn [Nat.eqb].
      assert (Hq : negb (Js.startsWith "978" (IsbnSpec.normalize s))
                   && negb (Js.startsWith "979" (IsbnSpec.normalize s)) = false).
      { apply andb_false_iff.
        destruct Hp as [Hp | Hp]; apply startsWith_starts_with in Hp;
          rewrite Hp; auto. }
      rewrite Hq. now apply validateISBN13Checksum_iff.
Qed.

Lemma isValidISBN_correct_witness :
  Isbn.normalizeISBN "0-306-40615-2" = "0306406152" /\
  Isbn.isValidISBN "0-306-40615-2" = true /\
  IsbnSpec.isValidISBN "043942089x" /\
  Isbn.isValidISBN "978-0-306-40615-8" = false.
Proof.
  destruct (isValidISBN_correct "0-306-40615-2") as (Hn & H10 & _).
  destruct (isValidISBN_correct "043942089x") as (_ & _ & _ & _ & _ & Hx).
  destruct (isValidISBN_correct "978-0-306-40615-8") as (_ & _ & _ & H13 & _).
  split; [exact (Hn eq_refl)|].
  split; [exact (H10 eq_refl)|].
  split; [apply Hx; reflexivity|].
  exact (H13 eq_refl (or_introl eq_refl)).
Defined.

(** C10.  [validateISBN13Checksum] has no prefix rule: on every string of
    13 decimal digits whose sum under the alternating weights 1, 3 is
    divisible by 10 it returns [true], whatever the first three digits.
    The prefix rule is [isValidISBN]'s: when such a string starts neither
    with 978 nor with 979, [isValidISBN] returns [false], so that the two
    functions disagree on it. *)
Theorem validateISBN13Checksum_no_prefix_rule (s : string) :
  IsbnSpec.isValidISBN13 s ->
  Isbn.validateISBN13Checksum s = true /\
  (Js.startsWith "978" s = false -> Js.startsWith "979" s = false ->
   Isbn.isValidISBN s = false /\
   Isbn.isValidISBN s <> Isbn.validateISBN13Checksum s).
Proof.
  intros Hs. pose proof Hs as (Hlen & d & Hd & _).
  assert (Hv : Isbn.validateISBN13Checksum s = true)
    by now apply validateISBN13Checksum_iff.
  split; [exact Hv|]. intros H978 H979.
  assert (Hf : Isbn.isValidISBN s = false).
  { unfold Isbn.isValidISBN. rewrite normal_normalizeISBN.
    - rewrite Hlen, H978, H979. reflexivity.
    - apply (digits_normal s d). now rewrite Hlen. }
  split; [exact Hf|]. rewrite Hf, Hv. discriminate.
Qed.

Lemma validateISBN13Checksum_no_prefix_rule_witness :
  IsbnSpec.isValidISBN13 "1234567890128" /\
  Isbn.validateISBN13Checksum "1234567890128" = true /\
  (Js.startsWith "978" "1234567890128" = false ->
   Js.startsWith "979" "1234567890128" = false ->
   Isbn.isValidISBN "1234567890128" = false /\
   Isbn.isValidISBN "1234567890128" <> Isbn.validateISBN13Checksum "1234567890128").
Proof.
  assert (H : IsbnSpec.isValidISBN13 "1234567890128").
  { split; [reflexivity|].
    exists (fun i => nth i [1; 2; 3; 4; 5; 6; 7; 8; 9; 0; 1; 2; 8] 0).
    split; [|reflexivity].
    intros i Hi.
    do 13 (destruct i as [|i]; [eexists; split; reflexivity|]). lia. }
  split; [exact H|].
  exact (validateISBN13Checksum_no_prefix_rule "1234567890128" H).
Defined.

(** ** [formatISBN] *)

Lemma append_String c a b : String c a +:+ b = String c (a +:+ b).
Proof. reflexivity. Qed.

Lemma append_Empty b : EmptyString +:+ b = b.
Proof. reflexivity. Qed.

Lemma normalizeISBN_app a b :
  Isbn.normalizeISBN (a +:+ b) = Isbn.normalizeISBN a +:+ Isbn.normalizeISBN b.
Proof.
  unfold Isbn.normalizeISBN. induction a as [|c a IH]; [reflexivity|].
  rewrite append_String. cbn [Regex.removeAll].
  destruct (Regex.mem false Constants.separator c); [exact IH|].
  cbn [Js.toUpperCase]. destruct (Js.isSharpS c); now rewrite !append_String, IH.
Qed.

Lemma normal_substring s : forall a b, normal s -> normal (substring a b s).
Proof.
  induction s as [|c s IH]; intros [|a] [|b] H; cbn [substring]; try exact I;
    try (apply IH; apply H).
  cbn [normal] in *. destruct H as (? & ? & ? & ?). repeat split; auto.
Qed.

Lemma normalize_slice a b s :
  normal s -> Isbn.normalizeISBN (Js.slice a b s) = Js.slice a b s.
Proof. intros H. apply normal_normalizeISBN, normal_substring, H. Qed.

Lemma normalize_sliceFrom a s :
  normal s -> Isbn.normalizeISBN (Js.sliceFrom a s) = Js.sliceFrom a s.
Proof. intros H. apply normal_normalizeISBN, normal_substring, H. Qed.

Lemma slices13 s :
  String.length s = 13%nat ->
  Js.slice 0 3 s +:+ Js.slice 3 4 s +:+ Js.slice 4 7 s +:+ Js.slice 7 12 s +:+
  Js.sliceFrom 12 s = s.
Proof. intros H. do 14 (destruct s as [|? s]; try discriminate H). reflexivity. Qed.

Lemma slices10 s :
  String.length s = 10%nat ->
  Js.slice 0 1 s +:+ Js.slice 1 4 s +:+ Js.slice 4 9 s +:+ Js.sliceFrom 9 s = s.
Proof. intros H. do 11 (destruct s as [|? s]; try discriminate H). reflexivity. Qed.

(** C9.  When the normalised form [n] of a string has length 10 or 13,
    formatting [n] and normalising the result gives [n] back.  When the
    normalised form has any other length, [formatISBN] returns its argument
    as it was given (not the normalised form). *)
Theorem formatISBN_roundtrip (s : string) :
  let n := Isbn.normalizeISBN s in
  (String.length n = 10%nat \/ String.length n = 13%nat ->
   Isbn.normalizeISBN (Isbn.formatISBN n) = n) /\
  (String.length n <> 10%nat -> String.length n <> 13%nat ->
   Isbn.formatISBN s = s).
Proof.
  cbv zeta. split.
  - pose proof (normalizeISBN_normal s) as Hn.
    set (n := Isbn.normalizeISBN s) in *. clearbody n.
    unfold Isbn.formatISBN. rewrite (normal_normalizeISBN n Hn).
    intros [H | H]; rewrite H; cbn [Nat.eqb];
      rewrite !normalizeISBN_app, !normalize_slice, !normalize_sliceFrom by exact Hn;
      change (Isbn.normalizeISBN "-") with EmptyString; rewrite !append_Empty.
    + apply slices10, H.
    + apply slices13, H.
  - intros H10 H13. unfold Isbn.formatISBN.
    apply Nat.eqb_neq in H10, H13. now rewrite H10, H13.
Qed.

Lemma formatISBN_roundtrip_witness :
  let n := Isbn.normalizeISBN "0-306-40615-2" in
  (String.length n = 10%nat \/ String.length n = 13%nat) /\
  Isbn.normalizeISBN (Isbn.formatISBN n) = n /\
  Isbn.formatISBN "ISBN 12-3" = "ISBN 12-3".
Proof.
  cbv zeta.
  destruct (formatISBN_roundtrip "0-306-40615-2") as [H _].
  destruct (formatISBN_roundtrip "ISBN 12-3") as [_ H'].
  split; [left; reflexivity|].
  split; [apply H; left; reflexivity|].
  apply H'; vm_compute; discriminate.
Defined.

(** ** [convertISBN10ToISBN13] *)

Lemma for_loop_checksum (g : nat -> option Z) (w d : nat -> Z) from count acc :
  (forall i, (from <= i < from + count)%nat -> g i = Some (d i)) ->
  Js.for_loop from count
    (fun i sum => Js.num_add sum (Js.num_mul (g i) (Some (w i)))) (Some acc)
  = Some (acc + IsbnSpec.weighted_sum d w from count).
Proof.
  revert from acc. induction count as [|n IH]; intros from acc H.
  - cbn. f_equal. lia.
  - cbn [Js.for_loop IsbnSpec.weighted_sum]. rewrite (H from) by lia.
    cbn [Js.num_add Js.num_mul]. rewrite IH by (intros; apply H; lia).
    f_equal. lia.
Qed.

Lemma numberToString_digit k :
  0 <= k <= 9 -> Js.numberToString (Some k) = String (IsbnSpec.digit_char k) EmptyString.
Proof.
  intros H.
  assert (Hk : k = 0 \/ k = 1 \/ k = 2 \/ k = 3 \/ k = 4 \/ k = 5 \/ k = 6 \/
               k = 7 \/ k = 8 \/ k = 9) by lia.
  repeat (destruct Hk as [-> | Hk]; [reflexivity|]). now subst.
Qed.

Lemma digit_digit_char k : 0 <= k <= 9 -> IsbnSpec.digit (IsbnSpec.digit_char k) = Some k.
Proof.
  intros H.
  assert (Hk : k = 0 \/ k = 1 \/ k = 2 \/ k = 3 \/ k = 4 \/ k = 5 \/ k = 6 \/
               k = 7 \/ k = 8 \/ k = 9) by lia.
  repeat (destruct Hk as [-> | Hk]; [reflexivity|]). now subst.
Qed.

Lemma check_digit_closes W :
  (W + (10 - W mod 10) mod 10) mod 10 = 0.
Proof. Z.div_mod_to_equations. lia. Qed.

Lemma digit_bounds c v : IsbnSpec.digit c = Some v -> 0 <= v <= 9.
Proof.
  destruct c as [[] [] [] [] [] [] [] []]; intros H; vm_compute in H;
    try discriminate H; injection H as <-; lia.
Qed.


Lemma convertISBN10ToISBN13_unfold x :
  Isbn.convertISBN10ToISBN13 x =
  let n := Isbn.normalizeISBN x in
  let base := "978" +:+ Js.slice 0 9 n in
  if (String.length n =? 10)%nat && Isbn.validateISBN10Checksum n
  then Some (base +:+
             Js.numberToString
               (Js.num_rem
                  (Js.num_sub (Some 10)
                     (Js.num_rem
                        (Js.for_loop 0 12
                           (fun i sum =>
                              Js.num_add sum
                                (Js.num_mul (Js.parseInt (String.get i base))
                                   (Some (if (i mod 2 =? 0)%nat then 1 else 3))))
                           (Some 0))
                        (Some 10)))
                  (Some 10)))
  else None.
Proof.
  unfold Isbn.convertISBN10ToISBN13. cbv zeta.
  destruct (String.length _ =? 10)%nat; [|reflexivity].
  destruct (Isbn.validateISBN10Checksum _); reflexivity.
Qed.

(** The check digit computed over the base of a valid ISBN-10. *)
Lemma convertISBN10ToISBN13_check_digit n :
  String.length n = 10%nat ->
  Isbn.validateISBN10Checksum n = true ->
  let base := "978" +:+ Js.slice 0 9 n in
  exists d : nat -> Z,
    IsbnSpec.digits_of base 12 d /\
    0 <= (10 - IsbnSpec.weighted_sum d IsbnSpec.weight13 0 12 mod 10) mod 10 <= 9 /\
    Js.num_rem
      (Js.num_sub (Some 10)
         (Js.num_rem
            (Js.for_loop 0 12
               (fun i sum =>
                  Js.num_add sum
                    (Js.num_mul (Js.parseInt (String.get i base))
                       (Some (if (i mod 2 =? 0)%nat then 1 else 3))))
               (Some 0))
            (Some 10)))
      (Some 10)
    = Some ((10 - IsbnSpec.weighted_sum d IsbnSpec.weight13 0 12 mod 10) mod 10) /\
    String.length (base +:+ String (IsbnSpec.digit_char
      ((10 - IsbnSpec.weighted_sum d IsbnSpec.weight13 0 12 mod 10) mod 10)) EmptyString)
      = 13%nat /\
    Isbn.validateISBN13Checksum
      (base +:+ String (IsbnSpec.digit_char
         ((10 - IsbnSpec.weighted_sum d IsbnSpec.weight13 0 12 mod 10) mod 10)) EmptyString)
      = true.
Proof.
  intros Hlen Hv. cbv zeta.
  apply validateISBN10Checksum_iff in Hv as (_ & d & Hd & _).
  destruct n as [|c0 n]; [discriminate|]. destruct n as [|c1 n]; [discriminate|].
  destruct n as [|c2 n]; [discriminate|]. destruct n as [|c3 n]; [discriminate|].
  destruct n as [|c4 n]; [discriminate|]. destruct n as [|c5 n]; [discriminate|].
  destruct n as [|c6 n]; [discriminate|]. destruct n as [|c7 n]; [discriminate|].
  destruct n as [|c8 n]; [discriminate|]. destruct n as [|c9 n]; [discriminate|].
  destruct n; [|discriminate]. clear Hlen.
  assert (H : forall i c, (i < 9)%nat ->
            String.get i (String c0 (String c1 (String c2 (String c3 (String c4
              (String c5 (String c6 (String c7 (String c8 (String c9 "")))))))))) = Some c ->
            IsbnSpec.digit c = Some (d i)).
  { intros i c Hi Hc. destruct (Hd i Hi) as (c' & Hc' & Hv). congruence. }
  pose proof (H 0%nat c0 ltac:(lia) eq_refl) as H0.
  pose proof (H 1%nat c1 ltac:(lia) eq_refl) as H1.
  pose proof (H 2%nat c2 ltac:(lia) eq_refl) as H2.
  pose proof (H 3%nat c3 ltac:(lia) eq_refl) as H3.
  pose proof (H 4%nat c4 ltac:(lia) eq_refl) as H4.
  pose proof (H 5%nat c5 ltac:(lia) eq_refl) as H5.
  pose proof (H 6%nat c6 ltac:(lia) eq_refl) as H6.
  pose proof (H 7%nat c7 ltac:(lia) eq_refl) as H7.
  pose proof (H 8%nat c8 ltac:(lia) eq_refl) as H8.
  clear H Hd.
  generalize dependent (d 8%nat). generalize dependent (d 7%nat).
  generalize dependent (d 6%nat). generalize dependent (d 5%nat).
  generalize dependent (d 4%nat). generalize dependent (d 3%nat).
  generalize dependent (d 2%nat). generalize dependent (d 1%nat).
  generalize dependent (d 0%nat). clear d.
  intros x0 H0 x1 H1 x2 H2 x3 H3 x4 H4 x5 H5 x6 H6 x7 H7 x8 H8.
  set (d' := fun i => nth i [9; 7; 8; x0; x1; x2; x3; x4; x5; x6; x7; x8] 0).
  change ("978" +:+ Js.slice 0 9
            (String c0 (String c1 (String c2 (String c3 (String c4
              (String c5 (String c6 (String c7 (String c8 (String c9 "")))))))))))
    with (String "9" (String "7" (String "8" (String c0 (String c1 (String c2 (String c3
           (String c4 (String c5 (String c6 (String c7 (String c8 "")))))))))))).
  set (base := String "9" _).
  assert (Hbase : IsbnSpec.digits_of base 12 d').
  { intros i Hi.
    do 12 (destruct i as [|i]; [eexists; split; [reflexivity|first [reflexivity|assumption]]|]).
    lia. }
  exists d'.
  set (W := IsbnSpec.weighted_sum d' IsbnSpec.weight13 0 12).
  assert (HW : 0 <= W).
  { apply digit_bounds in H0, H1, H2, H3, H4, H5, H6, H7, H8.
    subst W d'. cbn -[Z.mul Z.add]. lia. }
  pose proof (Z.mod_pos_bound W 10 ltac:(lia)) as HWm.
  assert (HK : 0 <= (10 - W mod 10) mod 10 <= 9).
  { pose proof (Z.mod_pos_bound (10 - W mod 10) 10). lia. }
  split; [exact Hbase|]. split; [exact HK|]. split; [|split; [reflexivity|]].
  - rewrite (for_loop_checksum _ _ d').
    + change (0 + IsbnSpec.weighted_sum d' (fun i => if (i mod 2 =? 0)%nat then 1 else 3) 0 12)
        with W.
      cbn [Js.num_rem Js.num_sub Z.eqb].
      rewrite (Z.rem_mod_nonneg W 10) by lia.
      rewrite (Z.rem_mod_nonneg (10 - W mod 10) 10) by lia.
      reflexivity.
    + intros i Hi. destruct (Hbase i ltac:(lia)) as (c & Hc & Hv).
      now rewrite Hc, parseInt_digit_spec.
  - apply validateISBN13Checksum_iff. split; [reflexivity|].
    exists (fun i => if (i =? 12)%nat then (10 - W mod 10) mod 10 else d' i).
    split.
    + intros i Hi.
      do 12 (destruct i as [|i];
             [eexists; split; [reflexivity|first [reflexivity|assumption]]|]).
      destruct i as [|i]; [|lia].
      eexists; split; [reflexivity|]. apply digit_digit_char, HK.
    + change 13%nat with (S 12). rewrite weighted_sum_snoc. cbn [Nat.add Nat.eqb].
      rewrite (weighted_sum_ext _ d').
      * fold W. change (IsbnSpec.weight13 12) with 1. rewrite Z.mul_1_r.
        apply check_digit_closes.
      * intros i Hi.
        now replace (i =? 12)%nat with false by (symmetry; apply Nat.eqb_neq; lia).
Qed.

(** C6.  [convertISBN10ToISBN13] returns [null] unless the normalised
    argument has length 10 and passes the ISBN-10 checksum.  When it
    succeeds, the result is 978, then the first nine characters of the
    normalised argument, then the check digit (10 - (sum mod 10)) mod 10 of
    these twelve digits under the alternating weights 1, 3; it has 13
    characters and [validateISBN13Checksum] accepts it. *)
Theorem convertISBN10ToISBN13_correct (x : string) :
  let n := Isbn.normalizeISBN x in
  (Isbn.convertISBN10ToISBN13 x = None <->
   ~ (String.length n = 10%nat /\ Isbn.validateISBN10Checksum n = true)) /\
  (forall r, Isbn.convertISBN10ToISBN13 x = Some r ->
     exists d : nat -> Z,
       IsbnSpec.digits_of ("978" +:+ Js.slice 0 9 n) 12 d /\
       r = "978" +:+ Js.slice 0 9 n +:+
           String (IsbnSpec.digit_char
                     ((10 - IsbnSpec.weighted_sum d IsbnSpec.weight13 0 12 mod 10) mod 10))
                  EmptyString /\
       String.length r = 13%nat /\
       Isbn.validateISBN13Checksum r = true).
Proof.
  cbv zeta. split.
  - rewrite convertISBN10ToISBN13_unfold. cbv zeta.
    destruct (String.length _ =? 10)%nat eqn:Hlen;
      [apply Nat.eqb_eq in Hlen|apply Nat.eqb_neq in Hlen];
      destruct (Isbn.validateISBN10Checksum _) eqn:Hv; cbn [andb];
      (split;
       [ intros H; try discriminate H; intros [H1 H2]; congruence
       | intros H; try reflexivity; exfalso; apply H; split; congruence ]).
  - intros r. rewrite convertISBN10ToISBN13_unfold. cbv zeta.
    destruct (String.length _ =? 10)%nat eqn:Hlen; [|discriminate].
    destruct (Isbn.validateISBN10Checksum _) eqn:Hv; [|discriminate].
    apply Nat.eqb_eq in Hlen.
    destruct (convertISBN10ToISBN13_check_digit _ Hlen Hv)
      as (d & Hd & HK & Hcd & Hl & H13).
    rewrite Hcd, (numberToString_digit _ HK). cbn [andb]. intros Hr.
    assert (Er : ("978" +:+ Js.slice 0 9 (Isbn.normalizeISBN x)) +:+
              String (IsbnSpec.digit_char
                ((10 - IsbnSpec.weighted_sum d IsbnSpec.weight13 0 12 mod 10) mod 10))
                EmptyString = r) by (injection Hr; trivial).
    clear Hr. subst r. exists d.
    split; [exact Hd|]. split; [reflexivity|]. split; [exact Hl|exact H13].
Qed.

Lemma convertISBN10ToISBN13_correct_witness :
  Isbn.convertISBN10ToISBN13 "0-306-40615-2" = Some "9780306406157" /\
  exists d : nat -> Z,
    IsbnSpec.digits_of ("978" +:+ Js.slice 0 9 (Isbn.normalizeISBN "0-306-40615-2")) 12 d /\
    "9780306406157" =
      "978" +:+ Js.slice 0 9 (Isbn.normalizeISBN "0-306-40615-2") +:+
      String (IsbnSpec.digit_char
                ((10 - IsbnSpec.weighted_sum d IsbnSpec.weight13 0 12 mod 10) mod 10))
             EmptyString /\
    String.length "9780306406157" = 13%nat /\
    Isbn.validateISBN13Checksum "9780306406157" = true.
Proof.
  split; [reflexivity|].
  exact (proj2 (convertISBN10ToISBN13_correct "0-306-40615-2")
           "9780306406157" eq_refl).
Defined.

(** ** [extractISBNs] *)

Lemma first_occurrences_elem x l : x ∈ IsbnSpec.first_occurrences l <-> x ∈ l.
Proof.
  induction l as [|y l IH]; cbn [IsbnSpec.first_occurrences]; [reflexivity|].
  rewrite !elem_of_cons, list_elem_of_filter, IH.
  destruct (decide (x = y)); tauto.
Qed.

Lemma first_occurrences_NoDup l : NoDup (IsbnSpec.first_occurrences l).
Proof.
  induction l as [|y l IH]; cbn [IsbnSpec.first_occurrences]; constructor.
  - rewrite list_elem_of_filter. tauto.
  - apply NoDup_filter, IH.
Qed.

(** Adding the elements of [l] to the set [acc], one after the other. *)
Lemma set_add_fold (l acc : list string) :
  fold_left (fun s x => Js.set_add x s) l acc
  = acc ++ filter (fun y => y ∉ acc) (IsbnSpec.first_occurrences l).
Proof.
  revert acc. induction l as [|x l IH]; intros acc; cbn [fold_left IsbnSpec.first_occurrences].
  - now rewrite filter_nil, app_nil_r.
  - rewrite IH. unfold Js.set_add. rewrite filter_cons.
    case bool_decide_reflect; intros Hx.
    + rewrite decide_False by tauto. f_equal.
      rewrite list_filter_filter. apply list_filter_iff. intros y.
      split; [|tauto]. intros Hy. split; [exact Hy|]. intros ->. tauto.
    + rewrite decide_True by exact Hx. rewrite <- app_assoc. cbn [app]. do 2 f_equal.
      rewrite list_filter_filter. apply list_filter_iff. intros y.
      rewrite elem_of_app, list_elem_of_singleton. tauto.
Qed.

(** The candidates that a loop of [extractISBNs] adds to the set. *)
Lemma fold_accept len suffix (ms found : list string) :
  fold_left (Isbn.accept len suffix) ms found
  = fold_left (fun s x => Js.set_add x s)
      (filter (fun c => String.length c = len /\ Isbn.isValidISBN c = true)
              (map (Isbn.candidate suffix) ms))
      found.
Proof.
  revert found. induction ms as [|m ms IH]; intros found; [reflexivity|].
  cbn [fold_left map]. rewrite IH, filter_cons. unfold Isbn.accept at 1.
  destruct (String.length _ =? len)%nat eqn:Hlen;
    [apply Nat.eqb_eq in Hlen|apply Nat.eqb_neq in Hlen];
    destruct (Isbn.isValidISBN _) eqn:Hv; cbn [andb];
    first [ rewrite decide_True by (split; [exact Hlen|reflexivity]); reflexivity
          | rewrite decide_False by (intros [? ?]; congruence); reflexivity ].
Qed.

Lemma filter_all {A} (P : A -> Prop) `{forall x, Decision (P x)} (l : list A) :
  (forall y, y ∈ l -> P y) -> filter P l = l.
Proof.
  induction l as [|x l IH]; intros Hl; [reflexivity|].
  rewrite filter_cons_True by (apply Hl; left).
  f_equal. apply IH. intros y Hy. apply Hl. now right.
Qed.

(** C3.  The result of [extractISBNs] holds only normalised strings of
    length 13 or 10 that [isValidISBN] accepts, and holds none of them
    twice.  Its order is the order of first acceptance, all matches of the
    ISBN-13 pattern coming before all matches of the ISBN-10 pattern: it is
    the list of accepted ISBN-13 candidates followed by the accepted ISBN-10
    candidates, each value kept at its first occurrence.  A text on which
    neither pattern matches gives the empty list, and a string that fails
    [isValidISBN] is never in the result. *)
Theorem extractISBNs_correct (text : string) :
  let accepted len suffix pattern :=
    filter (fun c => String.length c = len /\ Isbn.isValidISBN c = true)
           (map (Isbn.candidate suffix) (Regex.matchAll true pattern text)) in
  let out := Isbn.extractISBNs text in
  Forall (fun x => Isbn.normalizeISBN x = x /\ Isbn.isValidISBN x = true /\
                   (String.length x = 13%nat \/ String.length x = 10%nat)) out /\
  NoDup out /\
  out = IsbnSpec.first_occurrences
          (accepted 13%nat "-13" Constants.ISBN13 ++ accepted 10%nat "-10" Constants.ISBN10) /\
  (Regex.matchAll true Constants.ISBN13 text = [] ->
   Regex.matchAll true Constants.ISBN10 text = [] -> out = []) /\
  (forall c, Isbn.isValidISBN c = false -> c ∉ out).
Proof.
  cbv zeta.
  assert (Hout : Isbn.extractISBNs text
    = IsbnSpec.first_occurrences
        (filter (fun c => String.length c = 13%nat /\ Isbn.isValidISBN c = true)
           (map (Isbn.candidate "-13") (Regex.matchAll true Constants.ISBN13 text)) ++
         filter (fun c => String.length c = 10%nat /\ Isbn.isValidISBN c = true)
           (map (Isbn.candidate "-10") (Regex.matchAll true Constants.ISBN10 text)))).
  { unfold Isbn.extractISBNs. cbv zeta.
    rewrite !fold_accept, <- fold_left_app, set_add_fold. cbn [app].
    apply filter_all. intros y _. apply not_elem_of_nil. }
  assert (Hall : Forall (fun x => Isbn.normalizeISBN x = x /\ Isbn.isValidISBN x = true /\
                   (String.length x = 13%nat \/ String.length x = 10%nat))
                   (Isbn.extractISBNs text)).
  { rewrite Hout. apply Forall_forall. intros x Hx.
    apply first_occurrences_elem, elem_of_app in Hx.
    assert (Hn : forall suffix ms, x ∈ map (Isbn.candidate suffix) ms ->
                 Isbn.normalizeISBN x = x).
    { intros suffix ms Hm. apply list_elem_of_In, in_map_iff in Hm as (m & <- & _).
      apply normalizeISBN_idem. }
    destruct Hx as [Hx | Hx]; apply list_elem_of_filter in Hx as [[Hl Hv] Hm];
      (split; [exact (Hn _ _ Hm)|]); (split; [exact Hv|]); auto. }
  split; [exact Hall|]. split; [|split; [exact Hout|split]].
  - rewrite Hout. apply first_occurrences_NoDup.
  - intros H13 H10. rewrite Hout, H13, H10. reflexivity.
  - intros c Hc Hin. rewrite Forall_forall in Hall.
    destruct (Hall c Hin) as (_ & Hv & _). congruence.
Qed.

(** The order is that of the two scans, not that of the text: an ISBN-10
    that stands before an ISBN-13 in the text comes after it in the result. *)
Example extractISBNs_scan_order :
  Isbn.extractISBNs "0306406152 and 9780134685991" = ["9780134685991"; "0306406152"].
Proof. vm_compute. reflexivity. Qed.

(** ** The metadata cache *)

Section CacheFacts.
Import World.

Lemma getLocalStorage_stored w :
  Storage.getLocalStorage ∅ w = (Ok (CacheView.stored w), w).
Proof.
  unfold Storage.getLocalStorage, try_catch, bind, chrome_storage_local_get,
    CacheView.stored, ret.
  destruct (local_get_fails w); [reflexivity|].
  destruct (local_cache w); reflexivity.
Qed.

Lemma getSyncStorage_api_key w :
  exists apiKey,
    Storage.getSyncStorage "" w = (Ok apiKey, w) /\
    match apiKey with
    | EmptyString => None
    | k => Some k
    end = CacheView.api_key w.
Proof.
  unfold Storage.getSyncStorage, try_catch, bind, chrome_storage_sync_get,
    CacheView.api_key, ret.
  destruct (sync_get_fails w); [eexists; split; reflexivity|].
  destruct (sync_api_key w) as [[|c k]|]; eexists; split; reflexivity.
Qed.

(** Reading the cache changes nothing and never throws. *)
Lemma google_getCachedBookInfo_lookup isbn w :
  GoogleBooks.getCachedBookInfo isbn w = (Ok (CacheView.lookup isbn w), w).
Proof.
  unfold GoogleBooks.getCachedBookInfo, try_catch, bind.
  rewrite getLocalStorage_stored. unfold CacheView.lookup, CacheView.expired.
  destruct (CacheView.stored w !! isbn) as [e|]; [|reflexivity].
  unfold Date_now. destruct (num_gt _ _); reflexivity.
Qed.

Lemma open_library_getCachedBookInfo_lookup isbn w :
  OpenLibrary.getCachedBookInfo isbn w = (Ok (CacheView.lookup isbn w), w).
Proof. exact (google_getCachedBookInfo_lookup isbn w). Qed.

(** Writing the cache never throws. *)
Lemma google_cacheBookInfo_put isbn m w :
  GoogleBooks.cacheBookInfo isbn m w = (Ok tt, CacheView.put isbn m w).
Proof.
  unfold GoogleBooks.cacheBookInfo, try_catch, bind.
  rewrite getLocalStorage_stored. unfold Date_now, Storage.setLocalStorage,
    try_catch, chrome_storage_local_set, CacheView.put, throw, ret.
  destruct (local_set_fails w); reflexivity.
Qed.

Lemma open_library_cacheBookInfo_put isbn m w :
  OpenLibrary.cacheBookInfo isbn m w = (Ok tt, CacheView.put isbn m w).
Proof. exact (google_cacheBookInfo_put isbn m w). Qed.

Lemma obj_set_insert k v o : k <> "__proto__" -> obj_set k v o = <[k := v]> o.
Proof. intros H. unfold obj_set. now rewrite bool_decide_eq_false_2. Qed.

Lemma stored_put isbn m w :
  isbn <> "__proto__" ->
  local_get_fails w = false -> local_set_fails w = false ->
  CacheView.stored (CacheView.put isbn m w)
  = <[isbn := CacheView.entry_of m (clock w)]> (CacheView.stored w).
Proof.
  intros Hk Hg Hs. unfold CacheView.put. rewrite Hs, (obj_set_insert _ _ _ Hk).
  unfold CacheView.stored at 1. cbn. now rewrite Hg.
Qed.

Lemma entry_of_data m now : CacheView.entry_of m now !! "data" = Some (VBook m).
Proof. reflexivity. Qed.

Lemma entry_of_timestamp m now :
  CacheView.entry_of m now !! "timestamp" = Some (VNum now).
Proof. reflexivity. Qed.

Lemma expired_entry_of m stamp now :
  CacheView.expired now (CacheView.entry_of m stamp)
  = (Constants.CACHE_TTL_MS <? now - stamp).
Proof. unfold CacheView.expired. rewrite entry_of_timestamp. reflexivity. Qed.

End CacheFacts.

Section CacheClaims.
Import World.

Lemma stored_lookup_None isbn w :
  default ∅ (local_cache w) !! isbn = None -> CacheView.stored w !! isbn = None.
Proof.
  unfold CacheView.stored. destruct (local_get_fails w); [|trivial].
  intros _. apply lookup_empty.
Qed.

(** C7.  The metadata cache, with its TTL of 24 hours.  A get answers
    [null] when the store has no entry for the ISBN, and when the current
    time minus the time stamped in the entry is strictly greater than the
    TTL; the expired entry is left in the store, and an entry whose age is
    at most the TTL is answered.  When the store can be read and written, a
    put replaces whatever the store had for the ISBN by an entry stamped
    with the current time, a get that follows at once answers the metadata
    just put, and a get at a later time answers it until its age exceeds the
    TTL.  (The key is any string but [__proto__], which no ISBN is.) *)
Theorem metadata_cache_put_get (isbn : string) (m : Book.BookMetadata) (w : World) :
  (default ∅ (local_cache w) !! isbn = None ->
   OpenLibrary.getCachedBookInfo isbn w = (Ok None, w)) /\
  (forall e stamp,
     default ∅ (local_cache w) !! isbn = Some e ->
     e !! "timestamp" = Some (VNum stamp) ->
     (Constants.CACHE_TTL_MS < clock w - stamp ->
      OpenLibrary.getCachedBookInfo isbn w = (Ok None, w)) /\
     (local_get_fails w = false -> clock w - stamp <= Constants.CACHE_TTL_MS ->
      OpenLibrary.getCachedBookInfo isbn w = (Ok (e !! "data"), w))) /\
  (isbn <> "__proto__" ->
   local_get_fails w = false -> local_set_fails w = false ->
   exists w1,
     OpenLibrary.cacheBookInfo isbn m w = (Ok tt, w1) /\
     local_cache w1
       = Some (<[isbn := {[ "data" := VBook m; "timestamp" := VNum (clock w) ]}]>
                 (default ∅ (local_cache w))) /\
     OpenLibrary.getCachedBookInfo isbn w1 = (Ok (Some (VBook m)), w1) /\
     forall t,
       OpenLibrary.getCachedBookInfo isbn (at_time t w1)
       = (Ok (if Constants.CACHE_TTL_MS <? t - clock w then None else Some (VBook m)),
          at_time t w1)).
Proof.
  split; [|split].
  - intros H. rewrite open_library_getCachedBookInfo_lookup.
    unfold CacheView.lookup. now rewrite (stored_lookup_None _ _ H).
  - intros e stamp He Hstamp. split.
    + intros Hold. rewrite open_library_getCachedBookInfo_lookup.
      unfold CacheView.lookup, CacheView.stored.
      destruct (local_get_fails w); [now rewrite lookup_empty|].
      rewrite He. unfold CacheView.expired. rewrite Hstamp. cbn.
      now replace (Constants.CACHE_TTL_MS <? clock w - stamp) with true
        by (symmetry; apply Z.ltb_lt; exact Hold).
    + intros Hg Hyoung. rewrite open_library_getCachedBookInfo_lookup.
      unfold CacheView.lookup, CacheView.stored. rewrite Hg, He.
      unfold CacheView.expired. rewrite Hstamp. cbn.
      now replace (Constants.CACHE_TTL_MS <? clock w - stamp) with false
        by (symmetry; apply Z.ltb_ge; exact Hyoung).
  - intros Hk Hg Hs. exists (CacheView.put isbn m w).
    assert (Hst : forall t, CacheView.stored (at_time t (CacheView.put isbn m w))
                  = <[isbn := CacheView.entry_of m (clock w)]> (CacheView.stored w)).
    { intros t. rewrite <- (stored_put isbn m w Hk Hg Hs).
      unfold CacheView.put. rewrite Hs. reflexivity. }
    assert (Hget : forall t,
              OpenLibrary.getCachedBookInfo isbn (at_time t (CacheView.put isbn m w))
              = (Ok (if Constants.CACHE_TTL_MS <? t - clock w then None
                     else Some (VBook m)),
                 at_time t (CacheView.put isbn m w))).
    { intros t. rewrite open_library_getCachedBookInfo_lookup.
      unfold CacheView.lookup. rewrite Hst, lookup_insert_eq, expired_entry_of.
      reflexivity. }
    split; [apply open_library_cacheBookInfo_put|]. split; [|split; [|exact Hget]].
    + unfold CacheView.put, CacheView.stored.
      rewrite Hs, Hg, (obj_set_insert _ _ _ Hk). reflexivity.
    + specialize (Hget (clock w)).
      replace (at_time (clock w) (CacheView.put isbn m w))
        with (CacheView.put isbn m w) in Hget.
      * rewrite Hget, Z.sub_diag. reflexivity.
      * unfold CacheView.put. rewrite Hs. destruct w; reflexivity.
Qed.

Lemma metadata_cache_put_get_witness :
  exists w1,
    OpenLibrary.cacheBookInfo "9780306406157" Examples.book Examples.offline
      = (Ok tt, w1) /\
    local_cache w1
      = Some (<[ "9780306406157" :=
                 {[ "data" := VBook Examples.book;
                    "timestamp" := VNum (clock Examples.offline) ]}]>
                (default ∅ (local_cache Examples.offline))) /\
    OpenLibrary.getCachedBookInfo "9780306406157" w1
      = (Ok (Some (VBook Examples.book)), w1) /\
    forall t,
      OpenLibrary.getCachedBookInfo "9780306406157" (at_time t w1)
      = (Ok (if Constants.CACHE_TTL_MS <? t - clock Examples.offline then None
             else Some (VBook Examples.book)),
         at_time t w1).
Proof.
  refine (proj2 (proj2 (metadata_cache_put_get "9780306406157" Examples.book
                          Examples.offline)) _ eq_refl eq_refl).
  discriminate.
Defined.

Lemma entry_of_dom m now :
  dom (CacheView.entry_of m now) = ({[ "data"; "timestamp" ]} : gset string).
Proof.
  unfold CacheView.entry_of. rewrite dom_insert_L, dom_singleton_L. reflexivity.
Qed.

Lemma entry_of_shape m now :
  CacheView.record_shape "timestamp" m (CacheView.entry_of m now).
Proof.
  split; [apply entry_of_dom|]. split; [reflexivity|]. exists now. reflexivity.
Qed.

(** C8, as the code has it.  Every put whose write reaches the store leaves,
    under the ISBN, a plain record with exactly two properties: [data],
    holding the metadata, and [timestamp] (not [fetchedAt]), holding the
    number [Date.now()] gave at the put.  A put whose write is rejected
    leaves the store as it was.  (The key is any string but [__proto__].) *)
Theorem cache_entry_record_shape (isbn : string) (m : Book.BookMetadata) (w : World) :
  let w1 := (OpenLibrary.cacheBookInfo isbn m w).2 in
  (isbn <> "__proto__" -> local_set_fails w = false ->
   exists c e,
     local_cache w1 = Some c /\ c !! isbn = Some e /\
     CacheView.record_shape "timestamp" m e /\
     e !! "timestamp" = Some (VNum (clock w))) /\
  (local_set_fails w = true -> local_cache w1 = local_cache w).
Proof.
  cbv zeta. rewrite open_library_cacheBookInfo_put. cbn [snd].
  unfold CacheView.put. split; [intros Hk Hs|intros Hs]; rewrite Hs; [|reflexivity].
  rewrite (obj_set_insert _ _ _ Hk).
  eexists _, (CacheView.entry_of m (clock w)).
  split; [reflexivity|]. split; [apply lookup_insert_eq|].
  split; [apply entry_of_shape|reflexivity].
Qed.

Lemma cache_entry_record_shape_witness :
  exists c e,
    local_cache (OpenLibrary.cacheBookInfo "9780306406157" Examples.book
                   Examples.offline).2 = Some c /\
    c !! "9780306406157" = Some e /\
    CacheView.record_shape "timestamp" Examples.book e /\
    e !! "timestamp" = Some (VNum (clock Examples.offline)).
Proof.
  refine (proj1 (cache_entry_record_shape "9780306406157" Examples.book
                   Examples.offline) _ eq_refl).
  discriminate.
Defined.

(** C8, as the specification words it, fails: the record a put stores has
    no property [fetchedAt]. *)
Lemma cache_entry_has_no_fetchedAt :
  exists c e,
    local_cache (OpenLibrary.cacheBookInfo "9780306406157" Examples.book
                   Examples.offline).2 = Some c /\
    c !! "9780306406157" = Some e /\
    e !! "fetchedAt" = None /\
    ~ CacheView.record_shape "fetchedAt" Examples.book e.
Proof.
  eexists _, (CacheView.entry_of Examples.book (clock Examples.offline)).
  split; [reflexivity|]. split; [apply lookup_insert_eq|].
  split; [reflexivity|]. intros (_ & _ & n & Hn). discriminate Hn.
Qed.

(** The one key under which a put stores nothing. *)
Example put_under_proto :
  local_cache (OpenLibrary.cacheBookInfo "__proto__" Examples.book Examples.offline).2
  = Some ∅.
Proof. reflexivity. Qed.

End CacheClaims.

(** ** The providers *)

Section ProviderFacts.
Import World.

(** What [googleBooks.fetchBookInfo(isbn)] does, case by case. *)
Lemma google_fetchBookInfo_eq isbn w :
  GoogleBooks.fetchBookInfo isbn true w =
  if truthy (CacheView.lookup isbn w) then (Ok (CacheView.lookup isbn w), w)
  else
    let q := "isbn:" +:+ isbn in
    let key := CacheView.api_key w in
    let w' := log_request (GoogleVolumes q key) w in
    match google_books w q key with
    | Http true _ (Some data) =>
        match GoogleJson.items data with
        | Some (item :: _) =>
            let book := GoogleBooks.parseGoogleBooksResponse item isbn in
            (Ok (Some (VBook book)), CacheView.put isbn book w')
        | _ => (Ok None, w')
        end
    | _ => (Ok None, w')
    end.
Proof.
  unfold GoogleBooks.fetchBookInfo, try_catch, bind.
  rewrite google_getCachedBookInfo_lookup. cbn [andb].
  destruct (truthy (CacheView.lookup isbn w)); [reflexivity|].
  destruct (getSyncStorage_api_key w) as (apiKey & -> & Hkey). rewrite Hkey.
  unfold fetch. cbv zeta.
  destruct (google_books w _ _) as [e|ok status body]; [reflexivity|].
  destruct ok; cbn [negb]; [|reflexivity].
  destruct body as [data|]; [|reflexivity]. cbn [json ret].
  destruct (GoogleJson.items data) as [[|item l]|]; try reflexivity.
  now rewrite google_cacheBookInfo_put.
Qed.

Lemma open_library_fetchFromBooksAPI_eq isbn w :
  OpenLibrary.fetchFromBooksAPI isbn w =
  let bibkeys := "ISBN:" +:+ isbn in
  (match open_library_books w bibkeys with
   | Http true _ (Some data) =>
       match data !! bibkeys with
       | Some bookData =>
           Ok (Some (OpenLibrary.parseOpenLibraryBooksResponse bookData isbn))
       | None => Ok None
       end
   | _ => Ok None
   end,
   log_request (OpenLibraryBooks bibkeys) w).
Proof.
  unfold OpenLibrary.fetchFromBooksAPI, try_catch, bind, fetch. cbv zeta.
  destruct (open_library_books w _) as [e|ok status body]; [reflexivity|].
  destruct ok; cbn [negb]; [|reflexivity].
  destruct body as [data|]; [|reflexivity]. cbn [json ret].
  destruct (data !! _); reflexivity.
Qed.

Lemma open_library_fetchFromISBNEndpoint_eq isbn w :
  OpenLibrary.fetchFromISBNEndpoint isbn w =
  (match open_library_isbn w isbn with
   | Http true _ (Some data) =>
       Ok (Some (OpenLibrary.parseOpenLibraryISBNResponse data isbn))
   | _ => Ok None
   end,
   log_request (OpenLibraryISBN isbn) w).
Proof.
  unfold OpenLibrary.fetchFromISBNEndpoint, try_catch, bind, fetch.
  destruct (open_library_isbn w _) as [e|ok status body]; [reflexivity|].
  destruct ok; cbn [negb]; [|reflexivity].
  destruct body as [data|]; reflexivity.
Qed.

(** What [openLibrary.fetchBookInfo(isbn)] does, case by case. *)
Lemma open_library_fetchBookInfo_eq isbn w :
  OpenLibrary.fetchBookInfo isbn true w =
  if truthy (CacheView.lookup isbn w) then (Ok (CacheView.lookup isbn w), w)
  else
    let w1 := log_request (OpenLibraryBooks ("ISBN:" +:+ isbn)) w in
    match (OpenLibrary.fetchFromBooksAPI isbn w).1 with
    | Ok (Some bookData) => (Ok (Some (VBook bookData)), CacheView.put isbn bookData w1)
    | _ =>
        let w2 := log_request (OpenLibraryISBN isbn) w1 in
        match (OpenLibrary.fetchFromISBNEndpoint isbn w1).1 with
        | Ok (Some isbnData) => (Ok (Some (VBook isbnData)), CacheView.put isbn isbnData w2)
        | _ => (Ok None, w2)
        end
    end.
Proof.
  unfold OpenLibrary.fetchBookInfo, try_catch, bind.
  rewrite open_library_getCachedBookInfo_lookup. cbn [andb].
  destruct (truthy (CacheView.lookup isbn w)); [reflexivity|].
  rewrite open_library_fetchFromBooksAPI_eq. cbv zeta. cbn [fst].
  set (w1 := log_request _ w).
  destruct (open_library_books w _) as [e|[] status [data|]];
    try (rewrite open_library_fetchFromISBNEndpoint_eq; cbn [fst];
         destruct (open_library_isbn w1 isbn) as [e'|[] status' [data'|]];
         try reflexivity; now rewrite open_library_cacheBookInfo_put).
  destruct (data !! _) as [bookData|].
  - now rewrite open_library_cacheBookInfo_put.
  - rewrite open_library_fetchFromISBNEndpoint_eq; cbn [fst];
      destruct (open_library_isbn w1 isbn) as [e'|[] status' [data'|]];
      try reflexivity; now rewrite open_library_cacheBookInfo_put.
Qed.

(** The primary provider misses exactly when the cache has no usable entry
    and the service fails; the request has then been made. *)
Lemma google_fetchBookInfo_None isbn w w1 :
  GoogleBooks.fetchBookInfo isbn true w = (Ok None, w1) <->
  truthy (CacheView.lookup isbn w) = false /\
  CacheView.google_fails (google_books w ("isbn:" +:+ isbn) (CacheView.api_key w)) /\
  w1 = log_request (GoogleVolumes ("isbn:" +:+ isbn) (CacheView.api_key w)) w.
Proof.
  rewrite google_fetchBookInfo_eq. cbv zeta. unfold CacheView.google_fails.
  destruct (truthy (CacheView.lookup isbn w)) eqn:Ht.
  - split; [|intros [? _]; discriminate].
    intros [= H _]. rewrite H in Ht. discriminate.
  - destruct (google_books w _ _) as [e|[] status [data|]];
      [| destruct (GoogleJson.items data) as [[|item l]|] eqn:Hi | | |];
      (split;
       [ intros H; try discriminate H; injection H as <-;
         repeat split; eauto 6
       | intros (_ & Hf & ->); try reflexivity; exfalso;
         repeat match goal with
                | H : _ \/ _ |- _ => destruct H
                | H : exists _, _ |- _ => destruct H
                | H : _ /\ _ |- _ => destruct H
                end; congruence ]).
Qed.

(** The secondary provider misses exactly when the cache has no usable
    entry and both of its endpoints fail; both requests have been made. *)
Lemma open_library_fetchBookInfo_None isbn w w2 :
  OpenLibrary.fetchBookInfo isbn true w = (Ok None, w2) <->
  truthy (CacheView.lookup isbn w) = false /\
  CacheView.open_library_fails isbn w /\
  w2 = log_request (OpenLibraryISBN isbn)
         (log_request (OpenLibraryBooks ("ISBN:" +:+ isbn)) w).
Proof.
  rewrite open_library_fetchBookInfo_eq. cbv zeta.
  rewrite open_library_fetchFromBooksAPI_eq, open_library_fetchFromISBNEndpoint_eq.
  cbv zeta. cbn [fst]. unfold CacheView.open_library_fails.
  change (open_library_isbn (log_request (OpenLibraryBooks ("ISBN:" +:+ isbn)) w))
    with (open_library_isbn w).
  destruct (truthy (CacheView.lookup isbn w)) eqn:Ht.
  - split; [|intros [? _]; discriminate].
    intros [= H _]. rewrite H in Ht. discriminate.
  - destruct (open_library_books w _) as [e|[] status [data|]];
      [| destruct (data !! _) as [bookData|] eqn:Hd | | |];
      destruct (open_library_isbn w isbn) as [e'|[] status' [data'|]];
      (split;
       [ intros H; try discriminate H; injection H as <-;
         repeat split; eauto 6
       | intros (_ & Hf & ->); try reflexivity; exfalso;
         repeat match goal with
                | H : _ \/ _ |- _ => destruct H
                | H : exists _, _ |- _ => destruct H
                | H : _ /\ _ |- _ => destruct H
                end; congruence ]).
Qed.

End ProviderFacts.

(** ** The fallback chain *)

Section ResolverClaims.
Import World.

Lemma try_catch_total {A} (body : M A) (handler : string -> M A) w :
  (forall e w', exists a w'', handler e w' = (Ok a, w'')) ->
  exists a w', try_catch body handler w = (Ok a, w').
Proof.
  intros H. unfold try_catch. destruct (body w) as [[a|e] w']; eauto.
Qed.

Lemma google_fetchBookInfo_total isbn useCache w :
  exists r w', GoogleBooks.fetchBookInfo isbn useCache w = (Ok r, w').
Proof. apply try_catch_total. intros e w'. unfold ret. eauto. Qed.

Lemma open_library_fetchBookInfo_total isbn useCache w :
  exists r w', OpenLibrary.fetchBookInfo isbn useCache w = (Ok r, w').
Proof. apply try_catch_total. intros e w'. unfold ret. eauto. Qed.

Lemma handleFetchBookInfo_total isbn w :
  exists r w', ServiceWorker.handleFetchBookInfo isbn w = (Ok r, w').
Proof. apply try_catch_total. intros e w'. unfold ret. eauto. Qed.

(** A provider answers [null] or a truthy value. *)
Lemma google_fetchBookInfo_truthy isbn w v w' :
  GoogleBooks.fetchBookInfo isbn true w = (Ok (Some v), w') -> truthy (Some v) = true.
Proof.
  rewrite google_fetchBookInfo_eq. cbv zeta.
  destruct (truthy (CacheView.lookup isbn w)) eqn:Ht.
  - intros [= <- _]. exact Ht.
  - destruct (google_books w _ _) as [e|[] status [data|]]; try discriminate.
    destruct (GoogleJson.items data) as [[|item l]|]; try discriminate.
    now intros [= <- _].
Qed.

Lemma open_library_fetchBookInfo_truthy isbn w v w' :
  OpenLibrary.fetchBookInfo isbn true w = (Ok (Some v), w') -> truthy (Some v) = true.
Proof.
  rewrite open_library_fetchBookInfo_eq. cbv zeta.
  destruct (truthy (CacheView.lookup isbn w)) eqn:Ht.
  - intros [= <- _]. exact Ht.
  - destruct (fst _) as [[b|]|]; [now intros [= <- _]| |];
      destruct (fst _) as [[b'|]|]; try discriminate; now intros [= <- _].
Qed.

(** The resolution after a miss of the primary provider is the answer of
    the secondary one. *)
Lemma handleFetchBookInfo_fallback isbn w w1 r2 w2 :
  GoogleBooks.fetchBookInfo isbn true w = (Ok None, w1) ->
  OpenLibrary.fetchBookInfo isbn true w1 = (Ok r2, w2) ->
  ServiceWorker.handleFetchBookInfo isbn w
  = (Ok match r2 with
        | Some book => ServiceWorker.FetchSuccess book
        | None => ServiceWorker.FetchFailure "Book metadata not found" isbn
        end, w2).
Proof.
  intros H1 H2. unfold ServiceWorker.handleFetchBookInfo, try_catch, bind.
  rewrite H1. cbn [truthy negb]. rewrite H2.
  destruct r2 as [v|]; [|reflexivity].
  now rewrite (open_library_fetchBookInfo_truthy _ _ _ _ H2).
Qed.

(** Requests made by the secondary provider when the cache has nothing. *)
Lemma open_library_fetchBookInfo_requests isbn w :
  truthy (CacheView.lookup isbn w) = false ->
  exists r2 w2 rest,
    OpenLibrary.fetchBookInfo isbn true w = (Ok r2, w2) /\
    requests w2 = requests w ++ OpenLibraryBooks ("ISBN:" +:+ isbn) :: rest.
Proof.
  intros Ht. rewrite open_library_fetchBookInfo_eq, Ht. cbv zeta.
  destruct (fst _) as [[b|]|].
  - eexists _, _, []. split; [reflexivity|].
    unfold CacheView.put. destruct (local_set_fails _); reflexivity.
  - destruct (fst _) as [[b'|]|]; eexists _, _, [OpenLibraryISBN isbn];
      (split; [reflexivity|]); try (cbn; now rewrite <- app_assoc).
    unfold CacheView.put. destruct (local_set_fails _); cbn; now rewrite <- app_assoc.
  - destruct (fst _) as [[b'|]|]; eexists _, _, [OpenLibraryISBN isbn];
      (split; [reflexivity|]); try (cbn; now rewrite <- app_assoc).
    unfold CacheView.put. destruct (local_set_fails _); cbn; now rewrite <- app_assoc.
Qed.

(** C1.  No failure of the primary provider is fatal: the call of the
    primary provider, and the resolution as a whole, always return a value
    and never throw.  Whenever the primary provider answers [null], the
    resolution returns what the secondary provider answers: its book as a
    success.  For an ISBN that the cache does not answer, when the primary
    provider fails (the request fails, the status is an error, the body
    cannot be read, or the result has no item), the primary provider
    answers [null] after its request and the secondary provider is called
    next: its first request follows in the log. *)
Theorem primary_failure_falls_back (isbn : string) (w : World) :
  (exists r w', GoogleBooks.fetchBookInfo isbn true w = (Ok r, w')) /\
  (exists r w', ServiceWorker.handleFetchBookInfo isbn w = (Ok r, w')) /\
  (forall w1 r2 w2,
     GoogleBooks.fetchBookInfo isbn true w = (Ok None, w1) ->
     OpenLibrary.fetchBookInfo isbn true w1 = (Ok r2, w2) ->
     ServiceWorker.handleFetchBookInfo isbn w
       = (Ok match r2 with
             | Some book => ServiceWorker.FetchSuccess book
             | None => ServiceWorker.FetchFailure "Book metadata not found" isbn
             end, w2)) /\
  (forall cached,
   GoogleBooks.getCachedBookInfo isbn w = (Ok cached, w) -> truthy cached = false ->
   CacheView.google_fails (google_books w ("isbn:" +:+ isbn) (CacheView.api_key w)) ->
   let w1 := log_request (GoogleVolumes ("isbn:" +:+ isbn) (CacheView.api_key w)) w in
   GoogleBooks.fetchBookInfo isbn true w = (Ok None, w1) /\
   exists r2 w2 rest,
     OpenLibrary.fetchBookInfo isbn true w1 = (Ok r2, w2) /\
     requests w2
       = requests w ++ GoogleVolumes ("isbn:" +:+ isbn) (CacheView.api_key w)
                       :: OpenLibraryBooks ("ISBN:" +:+ isbn) :: rest /\
     ServiceWorker.handleFetchBookInfo isbn w
       = (Ok match r2 with
             | Some book => ServiceWorker.FetchSuccess book
             | None => ServiceWorker.FetchFailure "Book metadata not found" isbn
             end, w2)).
Proof.
  split; [apply google_fetchBookInfo_total|].
  split; [apply handleFetchBookInfo_total|].
  split; [intros w1 r2 w2; apply handleFetchBookInfo_fallback|].
  intros cached Hc Ht Hf w1.
  rewrite google_getCachedBookInfo_lookup in Hc. injection Hc as <-.
  assert (H1 : GoogleBooks.fetchBookInfo isbn true w = (Ok None, w1))
    by (apply google_fetchBookInfo_None; auto).
  split; [exact H1|].
  destruct (open_library_fetchBookInfo_requests isbn w1 Ht) as (r2 & w2 & rest & H2 & Hr).
  exists r2, w2, rest. split; [exact H2|]. split.
  - rewrite Hr. cbn. now rewrite <- app_assoc.
  - exact (handleFetchBookInfo_fallback _ _ _ _ _ H1 H2).
Qed.

Lemma primary_failure_falls_back_witness :
  let isbn := "9780306406157" in
  let w := Examples.google_down in
  let w1 := log_request (GoogleVolumes ("isbn:" +:+ isbn) (CacheView.api_key w)) w in
  GoogleBooks.getCachedBookInfo isbn w = (Ok None, w) /\
  CacheView.google_fails (google_books w ("isbn:" +:+ isbn) (CacheView.api_key w)) /\
  GoogleBooks.fetchBookInfo isbn true w = (Ok None, w1) /\
  exists r2 w2 rest,
    OpenLibrary.fetchBookInfo isbn true w1 = (Ok r2, w2) /\
    requests w2
      = requests w ++ GoogleVolumes ("isbn:" +:+ isbn) (CacheView.api_key w)
                      :: OpenLibraryBooks ("ISBN:" +:+ isbn) :: rest /\
    ServiceWorker.handleFetchBookInfo isbn w
      = (Ok match r2 with
            | Some book => ServiceWorker.FetchSuccess book
            | None => ServiceWorker.FetchFailure "Book metadata not found" isbn
            end, w2).
Proof.
  cbv zeta.
  assert (Ht : GoogleBooks.getCachedBookInfo "9780306406157" Examples.google_down
               = (Ok None, Examples.google_down)) by reflexivity.
  assert (Hf : CacheView.google_fails
                 (google_books Examples.google_down ("isbn:" +:+ "9780306406157")
                    (CacheView.api_key Examples.google_down)))
    by (left; reflexivity).
  split; [exact Ht|]. split; [exact Hf|].
  exact (proj2 (proj2 (proj2 (primary_failure_falls_back "9780306406157"
                                Examples.google_down)))
           None Ht eq_refl Hf).
Defined.

(** On that world the resolution returns Open Library's book. *)
Example google_down_resolves :
  (ServiceWorker.handleFetchBookInfo "9780306406157" Examples.google_down).1
  = Ok (ServiceWorker.FetchSuccess (VBook Examples.book)).
Proof. reflexivity. Qed.

(** A miss of the cache stays a miss while the store is not written. *)
Lemma lookup_later isbn w w' :
  local_cache w' = local_cache w -> local_get_fails w' = local_get_fails w ->
  clock w <= clock w' ->
  truthy (CacheView.lookup isbn w) = false ->
  truthy (CacheView.lookup isbn w') = false.
Proof.
  intros Hc Hg Ht. unfold CacheView.lookup, CacheView.stored. rewrite Hc, Hg.
  destruct (_ !! isbn) as [e|]; [|trivial].
  unfold CacheView.expired.
  destruct (toNumber (e !! "timestamp")) as [stamp|]; cbn [Js.num_sub num_gt].
  - destruct (Constants.CACHE_TTL_MS <? clock w - stamp) eqn:H1;
      destruct (Constants.CACHE_TTL_MS <? clock w' - stamp) eqn:H2; trivial.
    apply Z.ltb_lt in H1. apply Z.ltb_ge in H2. lia.
  - trivial.
Qed.

Lemma detectedBook_miss isbn w w2 :
  ServiceWorker.handleFetchBookInfo isbn w
    = (Ok (ServiceWorker.FetchFailure "Book metadata not found" isbn), w2) ->
  ServiceWorker.detectedBook isbn w
    = (Ok (VBook (ServiceWorker.detailsUnavailable isbn)), w2).
Proof. intros H. unfold ServiceWorker.detectedBook, bind. now rewrite H. Qed.

(** C2.  When the primary and the secondary provider both miss,
    [handleFetchBookInfo] returns the failure "Book metadata not found" as a
    value, and the resolution of a detected ISBN ([handleGetDetectedBooks])
    returns, as a value and not as an exception, the record whose [source]
    is "none" and whose [title] is "Details Unavailable".  Nothing is
    written to the metadata cache.  So a resolution of the same ISBN at any
    later time sends the three requests again (and, the services answering
    as before, returns the same record, still without a write). *)
Theorem both_providers_miss (isbn : string) (w w1 w2 : World) :
  GoogleBooks.fetchBookInfo isbn true w = (Ok None, w1) ->
  OpenLibrary.fetchBookInfo isbn true w1 = (Ok None, w2) ->
  let sentinel := ServiceWorker.detailsUnavailable isbn in
  let fetched :=
    [GoogleVolumes ("isbn:" +:+ isbn) (CacheView.api_key w);
     OpenLibraryBooks ("ISBN:" +:+ isbn); OpenLibraryISBN isbn] in
  ServiceWorker.handleFetchBookInfo isbn w
    = (Ok (ServiceWorker.FetchFailure "Book metadata not found" isbn), w2) /\
  ServiceWorker.detectedBook isbn w = (Ok (VBook sentinel), w2) /\
  Book.source sentinel = "none" /\
  Book.title sentinel = "Details Unavailable" /\
  (forall id, id <> 0 -> tabISBNs w !! id = Some [isbn] ->
     ServiceWorker.handleGetDetectedBooks (Some id) w
       = (Ok (ServiceWorker.BooksSuccess [VBook sentinel]), w2)) /\
  local_cache w2 = local_cache w /\
  requests w2 = requests w ++ fetched /\
  (forall t, clock w <= t ->
     exists w4,
       ServiceWorker.detectedBook isbn (at_time t w2) = (Ok (VBook sentinel), w4) /\
       requests w4 = requests w2 ++ fetched /\
       local_cache w4 = local_cache w).
Proof.
  intros H1 H2. cbv zeta.
  pose proof (handleFetchBookInfo_fallback _ _ _ _ _ H1 H2) as Hh.
  pose proof (detectedBook_miss _ _ _ Hh) as Hd.
  pose proof H1 as H1'. pose proof H2 as H2'.
  apply google_fetchBookInfo_None in H1' as (Ht & Hgf & ->).
  apply open_library_fetchBookInfo_None in H2' as (Ht1 & Hof & ->).
  split; [exact Hh|]. split; [exact Hd|].
  split; [reflexivity|]. split; [reflexivity|]. split; [|split; [reflexivity|split]].
  - intros id Hid Htab.
    unfold ServiceWorker.handleGetDetectedBooks, try_catch, bind, ret,
      ServiceWorker.tab_falsy.
    apply Z.eqb_neq in Hid. rewrite Hid. cbv beta iota. rewrite Hid.
    rewrite Htab.
    change (default [] (Some [isbn])) with [isbn].
    cbn [ServiceWorker.all]. unfold bind, ret. rewrite Hd. reflexivity.
  - cbn. rewrite <- !app_assoc. reflexivity.
  - intros t Hle.
    set (w3 := at_time t _).
    assert (Ht3 : truthy (CacheView.lookup isbn w3) = false)
      by (apply (lookup_later isbn w); trivial).
    assert (H3 : GoogleBooks.fetchBookInfo isbn true w3
                 = (Ok None, log_request
                      (GoogleVolumes ("isbn:" +:+ isbn) (CacheView.api_key w3)) w3))
      by (apply google_fetchBookInfo_None; auto).
    assert (H4 : OpenLibrary.fetchBookInfo isbn true
                   (log_request (GoogleVolumes ("isbn:" +:+ isbn) (CacheView.api_key w3)) w3)
                 = (Ok None,
                    log_request (OpenLibraryISBN isbn)
                      (log_request (OpenLibraryBooks ("ISBN:" +:+ isbn))
                         (log_request
                            (GoogleVolumes ("isbn:" +:+ isbn) (CacheView.api_key w3)) w3))))
      by (apply open_library_fetchBookInfo_None; auto).
    eexists. split.
    + apply detectedBook_miss. exact (handleFetchBookInfo_fallback _ _ _ _ _ H3 H4).
    + split; [|reflexivity]. cbn. rewrite <- !app_assoc. reflexivity.
Qed.

Lemma both_providers_miss_witness :
  let isbn := "9780306406157" in
  let w := Examples.offline in
  let w1 := log_request (GoogleVolumes "isbn:9780306406157" None) w in
  let w2 := log_request (OpenLibraryISBN isbn)
              (log_request (OpenLibraryBooks "ISBN:9780306406157") w1) in
  GoogleBooks.fetchBookInfo isbn true w = (Ok None, w1) /\
  OpenLibrary.fetchBookInfo isbn true w1 = (Ok None, w2) /\
  ServiceWorker.detectedBook isbn w
    = (Ok (VBook (ServiceWorker.detailsUnavailable isbn)), w2) /\
  local_cache w2 = local_cache w.
Proof.
  cbv zeta.
  pose proof (both_providers_miss "9780306406157" Examples.offline _ _
                eq_refl eq_refl) as H.
  split; [reflexivity|]. split; [reflexivity|].
  split; [exact (proj1 (proj2 H))|].
  exact (proj1 (proj2 (proj2 (proj2 (proj2 (proj2 H)))))).
Defined.

End ResolverClaims.
(** * Further properties

    ** Errors the checksums detect *)

Lemma substitute_length i c s : String.length (Typo.substitute i c s) = String.length s.
Proof.
  revert i. induction s as [|a s IH]; intros [|i]; cbn; auto.
Qed.

Lemma substitute_get_eq i c s :
  (i < String.length s)%nat -> String.get i (Typo.substitute i c s) = Some c.
Proof.
  revert i. induction s as [|a s IH]; intros [|i]; cbn; try lia; auto.
  intros H. apply IH. lia.
Qed.

Lemma substitute_get_ne i j c s :
  j <> i -> String.get j (Typo.substitute i c s) = String.get j s.
Proof.
  revert i j. induction s as [|a s IH]; intros [|i] [|j] H; cbn; auto; try congruence.
Qed.

Lemma weighted_sum_update d d' w from count i :
  (from <= i < from + count)%nat ->
  (forall j, (from <= j < from + count)%nat -> j <> i -> d' j = d j) ->
  IsbnSpec.weighted_sum d' w from count
  = IsbnSpec.weighted_sum d w from count + (d' i - d i) * w i.
Proof.
  revert from. induction count as [|n IH]; intros from Hi H; [lia|].
  cbn [IsbnSpec.weighted_sum].
  destruct (Nat.eq_dec i from) as [->|Hne].
  - rewrite (weighted_sum_ext d' d w (S from) n); [lia|].
    intros j Hj. apply H; lia.
  - rewrite (IH (S from)); [|lia|intros j Hj; apply H; lia].
    rewrite (H from) by lia. lia.
Qed.

Lemma mod11_no_zero_divisor a b :
  0 < a < 11 -> -11 < b < 11 -> b <> 0 -> (b * a) mod 11 <> 0.
Proof.
  intros Ha Hb Hb0 H.
  assert (Hc : a = 1 \/ a = 2 \/ a = 3 \/ a = 4 \/ a = 5 \/
               a = 6 \/ a = 7 \/ a = 8 \/ a = 9 \/ a = 10) by lia.
  repeat (destruct Hc as [-> | Hc]); try subst a;
    apply Z.mod_divide in H; try lia; destruct H as [q H]; lia.
Qed.

Lemma mod_shift x y m : 0 < m -> x mod m = 0 -> (x + y) mod m = 0 -> y mod m = 0.
Proof.
  intros Hm Hx Hxy.
  rewrite <- Z.add_mod_idemp_l, Hx, Z.add_0_l in Hxy by lia. exact Hxy.
Qed.

Lemma weighted_sum_update2 d d' w from count i j :
  (from <= i < from + count)%nat -> (from <= j < from + count)%nat -> i <> j ->
  (forall k, (from <= k < from + count)%nat -> k <> i -> k <> j -> d' k = d k) ->
  IsbnSpec.weighted_sum d' w from count
  = IsbnSpec.weighted_sum d w from count + (d' i - d i) * w i + (d' j - d j) * w j.
Proof.
  intros Hi Hj Hij H.
  set (d1 := fun k => if Nat.eq_dec k j then d' j else d k).
  rewrite (weighted_sum_update d1 d' w from count i Hi).
  - rewrite (weighted_sum_update d d1 w from count j Hj).
    + unfold d1. destruct (Nat.eq_dec j j); [|congruence].
      destruct (Nat.eq_dec i j); [congruence|]. lia.
    + intros k Hk Hkj. unfold d1. now destruct (Nat.eq_dec k j).
  - intros k Hk Hki. unfold d1. destruct (Nat.eq_dec k j) as [->|Hkj]; [reflexivity|].
    now apply H.
Qed.

Lemma digit_inj c c' v : IsbnSpec.digit c = Some v -> IsbnSpec.digit c' = Some v -> c = c'.
Proof.
  intros H H'.
  assert (E : forall a w, IsbnSpec.digit a = Some w -> a = IsbnSpec.digit_char w).
  { intros a w. destruct a as [[] [] [] [] [] [] [] []]; vm_compute;
      intros [= <-]; reflexivity. }
  rewrite (E _ _ H), (E _ _ H'). reflexivity.
Qed.

Lemma check_inj c c' v : IsbnSpec.check c = Some v -> IsbnSpec.check c' = Some v -> c = c'.
Proof.
  intros H H'.
  assert (E : forall a w, IsbnSpec.check a = Some w ->
                          a = if w =? 10 then "X"%char else IsbnSpec.digit_char w).
  { intros a w. destruct a as [[] [] [] [] [] [] [] []]; vm_compute;
      intros [= <-]; reflexivity. }
  rewrite (E _ _ H), (E _ _ H'). reflexivity.
Qed.

Lemma check_bounds c v : IsbnSpec.check c = Some v -> 0 <= v <= 10.
Proof.
  destruct c as [[] [] [] [] [] [] [] []]; vm_compute; intros [= <-]; split; discriminate.
Qed.

Lemma check_digit c v : IsbnSpec.digit c = Some v -> IsbnSpec.check c = Some v.
Proof. destruct c as [[] [] [] [] [] [] [] []]; vm_compute; congruence. Qed.

Lemma value10_inj i c c' v : value10 i c = Some v -> value10 i c' = Some v -> c = c'.
Proof. unfold value10. destruct (i =? 9)%nat; eauto using digit_inj, check_inj. Qed.

Lemma value10_bounds i c v : value10 i c = Some v -> 0 <= v <= 10.
Proof.
  unfold value10. destruct (i =? 9)%nat; intros H.
  - eauto using check_bounds.
  - apply digit_bounds in H. lia.
Qed.

(** The ISBN-10 rule, position by position. *)
Lemma validateISBN10Checksum_values s :
  Isbn.validateISBN10Checksum s = true <->
  String.length s = 10%nat /\
  exists d : nat -> Z,
    (forall i, (i < 10)%nat ->
       exists c, String.get i s = Some c /\ value10 i c = Some (d i)) /\
    IsbnSpec.weighted_sum d IsbnSpec.weight10 0 10 mod 11 = 0.
Proof.
  rewrite validateISBN10Checksum_iff. unfold IsbnSpec.isValidISBN10. split.
  - intros (Hlen & d & Hd & H9 & Hsum). split; [exact Hlen|]. exists d.
    split; [|exact Hsum]. intros i Hi. unfold value10.
    destruct (Nat.eqb_spec i 9) as [->|Hne]; [exact H9|]. apply Hd. lia.
  - intros (Hlen & d & Hd & Hsum). split; [exact Hlen|]. exists d.
    split; [|split; [|exact Hsum]].
    + intros i Hi. destruct (Hd i ltac:(lia)) as (c & Hc & Hv). exists c.
      split; [exact Hc|]. unfold value10 in Hv.
      now replace (i =? 9)%nat with false in Hv by (symmetry; apply Nat.eqb_neq; lia).
    + apply (Hd 9%nat). lia.
Qed.

(** Two accepted strings that differ at one position at most are equal at
    that position too: the sum fixes each character, the others given. *)
Lemma validateISBN10Checksum_agree (s s' : string) (i : nat) :
  Isbn.validateISBN10Checksum s = true -> Isbn.validateISBN10Checksum s' = true ->
  (forall j, j <> i -> String.get j s' = String.get j s) ->
  String.get i s' = String.get i s.
Proof.
  intros Hv Hv' Hrest.
  apply validateISBN10Checksum_values in Hv as (Hlen & d & Hd & Hsum).
  apply validateISBN10Checksum_values in Hv' as (Hlen' & d' & Hd' & Hsum').
  destruct (Nat.lt_ge_cases i 10) as [Hi|Hi].
  2:{ assert (Hnone : forall t, String.length t = 10%nat -> String.get i t = None).
      { intros t Ht. destruct (String.get i t) as [c|] eqn:E; [|reflexivity].
        apply get_Some_lt in E. lia. }
      now rewrite !Hnone. }
  assert (Hsame : forall j, (0 <= j < 0 + 10)%nat -> j <> i -> d' j = d j).
  { intros j Hj Hji. destruct (Hd j ltac:(lia)) as (a & Ha & Hva).
    destruct (Hd' j ltac:(lia)) as (a' & Ha' & Hva').
    rewrite Hrest in Ha' by exact Hji. congruence. }
  destruct (Hd i Hi) as (a & Ha & Hva). destruct (Hd' i Hi) as (a' & Ha' & Hva').
  rewrite Ha, Ha'. f_equal.
  destruct (Z.eq_dec (d' i) (d i)) as [E|Hdiff].
  - rewrite E in Hva'. eapply value10_inj; eassumption.
  - exfalso. apply value10_bounds in Hva, Hva'.
    rewrite (weighted_sum_update d d' _ 0 10 i ltac:(lia) Hsame) in Hsum'.
    apply mod_shift in Hsum'; [|lia|exact Hsum].
    revert Hsum'. apply mod11_no_zero_divisor; unfold IsbnSpec.weight10; lia.
Qed.

(** The ISBN-10 checksum detects every error in one character: replacing
    one character of an accepted string by another character gives a
    string that is refused. *)
Theorem validateISBN10Checksum_detects_substitution
    (s : string) (i : nat) (c0 c : ascii) :
  Isbn.validateISBN10Checksum s = true ->
  String.get i s = Some c0 -> c <> c0 ->
  Isbn.validateISBN10Checksum (Typo.substitute i c s) = false.
Proof.
  intros Hv Hget Hne.
  destruct (Isbn.validateISBN10Checksum (Typo.substitute i c s)) eqn:Hv';
    [exfalso|reflexivity].
  pose proof (get_Some_lt _ _ _ Hget) as Hi.
  assert (E : String.get i (Typo.substitute i c s) = String.get i s).
  { apply validateISBN10Checksum_agree; trivial.
    intros j Hj. now apply substitute_get_ne. }
  rewrite substitute_get_eq, Hget in E by exact Hi. congruence.
Qed.

Lemma validateISBN10Checksum_detects_substitution_witness :
  Isbn.validateISBN10Checksum (Typo.substitute 3 "7" "0306406152") = false.
Proof.
  apply (validateISBN10Checksum_detects_substitution "0306406152" 3 "6" "7");
    [reflexivity | reflexivity | discriminate].
Defined.

Lemma transpose_length i j s : String.length (Typo.transpose i j s) = String.length s.
Proof.
  unfold Typo.transpose. destruct (String.get i s), (String.get j s); trivial.
  now rewrite !substitute_length.
Qed.

Lemma transpose_get i j s a b :
  String.get i s = Some a -> String.get j s = Some b ->
  String.get i (Typo.transpose i j s) = Some b /\
  String.get j (Typo.transpose i j s) = Some a /\
  (forall k, k <> i -> k <> j ->
     String.get k (Typo.transpose i j s) = String.get k s).
Proof.
  intros Ha Hb. unfold Typo.transpose. rewrite Ha, Hb.
  pose proof (get_Some_lt _ _ _ Ha). pose proof (get_Some_lt _ _ _ Hb).
  split; [|split].
  - apply substitute_get_eq. now rewrite substitute_length.
  - destruct (Nat.eq_dec j i) as [->|Hji].
    + rewrite substitute_get_eq by now rewrite substitute_length. congruence.
    + rewrite substitute_get_ne by exact Hji. now apply substitute_get_eq.
  - intros k Hki Hkj. now rewrite !substitute_get_ne.
Qed.

(** The ISBN-10 checksum detects every exchange of two different
    characters of an accepted string, adjacent or not. *)
Theorem validateISBN10Checksum_detects_transposition
    (s : string) (i j : nat) (a b : ascii) :
  Isbn.validateISBN10Checksum s = true ->
  String.get i s = Some a -> String.get j s = Some b -> a <> b ->
  Isbn.validateISBN10Checksum (Typo.transpose i j s) = false.
Proof.
  intros Hv Ha Hb Hne.
  destruct (Isbn.validateISBN10Checksum (Typo.transpose i j s)) eqn:Hv';
    [exfalso|reflexivity].
  destruct (transpose_get i j s a b Ha Hb) as (Gi & Gj & Gk).
  apply validateISBN10Checksum_values in Hv as (Hlen & d & Hd & Hsum).
  apply validateISBN10Checksum_values in Hv' as (_ & d' & Hd' & Hsum').
  pose proof (get_Some_lt _ _ _ Ha) as Hi. rewrite Hlen in Hi.
  pose proof (get_Some_lt _ _ _ Hb) as Hj. rewrite Hlen in Hj.
  assert (Hij : i <> j) by (intros ->; congruence).
  assert (Hsame : forall k, (0 <= k < 0 + 10)%nat -> k <> i -> k <> j -> d' k = d k).
  { intros k Hk Hki Hkj. destruct (Hd k ltac:(lia)) as (x & Hx & Hvx).
    destruct (Hd' k ltac:(lia)) as (x' & Hx' & Hvx').
    rewrite Gk in Hx' by assumption. congruence. }
  destruct (Hd i Hi) as (x & Hx & Hia). destruct (Hd j Hj) as (y & Hy & Hjb).
  destruct (Hd' i Hi) as (x' & Hx' & Hib). destruct (Hd' j Hj) as (y' & Hy' & Hja).
  assert (x = a) by congruence. assert (y = b) by congruence.
  assert (x' = b) by congruence. assert (y' = a) by congruence. subst x y x' y'.
  (* one of the two positions is below 9, so both characters are digits *)
  assert (Hdig : exists va vb, IsbnSpec.digit a = Some va /\ IsbnSpec.digit b = Some vb).
  { unfold value10 in *.
    destruct (Nat.eqb_spec i 9) as [->|Hi9], (Nat.eqb_spec j 9) as [->|Hj9];
      try congruence; eauto. }
  destruct Hdig as (va & vb & Hda & Hdb).
  assert (Hval : forall k c v, IsbnSpec.digit c = Some v -> value10 k c = Some v).
  { intros k c v H. unfold value10. destruct (k =? 9)%nat; auto using check_digit. }
  rewrite (Hval i _ _ Hda) in Hia. rewrite (Hval j _ _ Hda) in Hja.
  rewrite (Hval i _ _ Hdb) in Hib. rewrite (Hval j _ _ Hdb) in Hjb.
  injection Hia as Hia. injection Hja as Hja. injection Hib as Hib. injection Hjb as Hjb.
  assert (Hvab : va <> vb) by (intros ->; apply Hne; eapply digit_inj; eassumption).
  apply digit_bounds in Hda, Hdb.
  rewrite (weighted_sum_update2 d d' _ 0 10 i j ltac:(lia) ltac:(lia) Hij Hsame) in Hsum'.
  rewrite <- Z.add_assoc in Hsum'.
  apply mod_shift in Hsum'; [|lia|exact Hsum].
  rewrite <- Hia, <- Hja, <- Hib, <- Hjb in Hsum'. unfold IsbnSpec.weight10 in Hsum'.
  destruct (Nat.lt_ge_cases i j) as [Hlt|Hge].
  - replace ((vb - va) * (10 - Z.of_nat i) + (va - vb) * (10 - Z.of_nat j))
      with ((vb - va) * (Z.of_nat j - Z.of_nat i)) in Hsum' by ring.
    revert Hsum'. apply mod11_no_zero_divisor; lia.
  - replace ((vb - va) * (10 - Z.of_nat i) + (va - vb) * (10 - Z.of_nat j))
      with ((va - vb) * (Z.of_nat i - Z.of_nat j)) in Hsum' by ring.
    revert Hsum'. apply mod11_no_zero_divisor; lia.
Qed.

Lemma validateISBN10Checksum_detects_transposition_witness :
  Isbn.validateISBN10Checksum (Typo.transpose 2 3 "0306406152") = false.
Proof.
  apply (validateISBN10Checksum_detects_transposition "0306406152" 2 3 "0" "6");
    [reflexivity | reflexivity | reflexivity | discriminate].
Defined.

(** [validateISBN13Checksum] returns [true] exactly on the strings of 13
    decimal digits whose sum under the alternating weights 1, 3 is
    divisible by 10; any other length, and any character that is not a
    decimal digit, make it return [false]. *)
Theorem validateISBN13Checksum_rule (s : string) :
  (Isbn.validateISBN13Checksum s = true <-> IsbnSpec.isValidISBN13 s) /\
  (String.length s <> 13%nat -> Isbn.validateISBN13Checksum s = false) /\
  (forall i c, String.get i s = Some c -> IsbnSpec.digit c = None ->
               Isbn.validateISBN13Checksum s = false).
Proof.
  split; [apply validateISBN13Checksum_iff|]. split.
  - intros Hlen. destruct (Isbn.validateISBN13Checksum s) eqn:Hv; [exfalso|reflexivity].
    apply validateISBN13Checksum_iff in Hv as (Hl & _). contradiction.
  - intros i c Hget Hnd.
    destruct (Isbn.validateISBN13Checksum s) eqn:Hv; [exfalso|reflexivity].
    apply validateISBN13Checksum_iff in Hv as (Hlen & d & Hd & _).
    pose proof (get_Some_lt _ _ _ Hget) as Hi. rewrite Hlen in Hi.
    destruct (Hd i Hi) as (c' & Hc' & Hv'). congruence.
Qed.

Lemma weight13_cases i : IsbnSpec.weight13 i = 1 \/ IsbnSpec.weight13 i = 3.
Proof. unfold IsbnSpec.weight13. destruct (Nat.even i); auto. Qed.

Lemma weight13_succ i :
  IsbnSpec.weight13 i - IsbnSpec.weight13 (S i) = 2 \/
  IsbnSpec.weight13 i - IsbnSpec.weight13 (S i) = -2.
Proof.
  unfold IsbnSpec.weight13. rewrite Nat.even_succ, <- Nat.negb_even.
  destruct (Nat.even i); cbn; auto.
Qed.

(** On a string of 13 digits the verdict is that of the weighted sum. *)
Lemma validateISBN13Checksum_digits s d :
  String.length s = 13%nat -> IsbnSpec.digits_of s 13 d ->
  Isbn.validateISBN13Checksum s = true <->
  IsbnSpec.weighted_sum d IsbnSpec.weight13 0 13 mod 10 = 0.
Proof.
  intros Hlen Hd. rewrite validateISBN13Checksum_iff. split.
  - intros (_ & d' & Hd' & Hsum).
    rewrite (weighted_sum_ext d d'); [exact Hsum|].
    intros i Hi. destruct (Hd i ltac:(lia)) as (c & Hc & Hv).
    destruct (Hd' i ltac:(lia)) as (c' & Hc' & Hv'). congruence.
  - intros Hsum. split; [exact Hlen|]. now exists d.
Qed.

(** The ISBN-13 checksum detects every error in one character. *)
Theorem validateISBN13Checksum_detects_substitution
    (s : string) (i : nat) (c0 c : ascii) :
  Isbn.validateISBN13Checksum s = true ->
  String.get i s = Some c0 -> c <> c0 ->
  Isbn.validateISBN13Checksum (Typo.substitute i c s) = false.
Proof.
  intros Hv Hget Hne.
  destruct (Isbn.validateISBN13Checksum (Typo.substitute i c s)) eqn:Hv';
    [exfalso|reflexivity].
  apply validateISBN13Checksum_iff in Hv as (Hlen & d & Hd & Hsum).
  apply validateISBN13Checksum_iff in Hv' as (_ & d' & Hd' & Hsum').
  pose proof (get_Some_lt _ _ _ Hget) as Hi. rewrite Hlen in Hi.
  assert (Hsame : forall j, (0 <= j < 0 + 13)%nat -> j <> i -> d' j = d j).
  { intros j Hj Hji. destruct (Hd j ltac:(lia)) as (a & Ha & Hva).
    destruct (Hd' j ltac:(lia)) as (a' & Ha' & Hva').
    rewrite substitute_get_ne in Ha' by exact Hji. congruence. }
  destruct (Hd i Hi) as (a & Ha & Hva). destruct (Hd' i Hi) as (a' & Ha' & Hva').
  rewrite substitute_get_eq in Ha' by lia.
  assert (a = c0) by congruence. assert (a' = c) by congruence. subst a a'.
  assert (Hdiff : d' i <> d i).
  { intros E. rewrite E in Hva'. apply Hne. eapply digit_inj; eassumption. }
  apply digit_bounds in Hva, Hva'.
  rewrite (weighted_sum_update d d' _ 0 13 i ltac:(lia) Hsame) in Hsum'.
  apply mod_shift in Hsum'; [|lia|exact Hsum].
  apply Z.mod_divide in Hsum'; [|lia]. destruct Hsum' as [q Hq].
  destruct (weight13_cases i) as [E|E]; rewrite E in Hq; lia.
Qed.

Lemma validateISBN13Checksum_detects_substitution_witness :
  Isbn.validateISBN13Checksum (Typo.substitute 12 "1" "9780306406157") = false.
Proof.
  apply (validateISBN13Checksum_detects_substitution "9780306406157" 12 "7" "1");
    [reflexivity | reflexivity | discriminate].
Defined.

(** The ISBN-13 checksum does not detect every exchange of two adjacent
    digits: the string with the digits at positions [i] and [i + 1]
    exchanged is accepted exactly when the two digits are equal or differ
    by 5. *)
Theorem validateISBN13Checksum_adjacent_transposition
    (s : string) (i : nat) (a b : ascii) (va vb : Z) :
  Isbn.validateISBN13Checksum s = true ->
  String.get i s = Some a -> String.get (S i) s = Some b ->
  IsbnSpec.digit a = Some va -> IsbnSpec.digit b = Some vb ->
  Isbn.validateISBN13Checksum (Typo.transpose i (S i) s) = true <->
  va = vb \/ va - vb = 5 \/ vb - va = 5.
Proof.
  intros Hv Ha Hb Hva Hvb.
  destruct (transpose_get i (S i) s a b Ha Hb) as (Gi & Gj & Gk).
  apply validateISBN13Checksum_iff in Hv as (Hlen & d & Hd & Hsum).
  pose proof (get_Some_lt _ _ _ Hb) as Hj. rewrite Hlen in Hj.
  destruct (Hd i ltac:(lia)) as (x & Hx & Hdi).
  destruct (Hd (S i) Hj) as (y & Hy & Hdj).
  assert (x = a) by congruence. assert (y = b) by congruence. subst x y.
  assert (Ei : d i = va) by congruence. assert (Ej : d (S i) = vb) by congruence.
  set (d' := fun k => if Nat.eq_dec k i then vb
                      else if Nat.eq_dec k (S i) then va else d k).
  assert (Hd' : IsbnSpec.digits_of (Typo.transpose i (S i) s) 13 d').
  { intros k Hk. unfold d'.
    destruct (Nat.eq_dec k i) as [->|Hki]; [eauto|].
    destruct (Nat.eq_dec k (S i)) as [->|Hkj]; [eauto|].
    rewrite Gk by assumption. now apply Hd. }
  rewrite (validateISBN13Checksum_digits _ d') by
    (trivial; now rewrite transpose_length).
  rewrite (weighted_sum_update2 d d' _ 0 13 i (S i)); try lia.
  2:{ intros k _ Hki Hkj. unfold d'.
      destruct (Nat.eq_dec k i); [contradiction|].
      now destruct (Nat.eq_dec k (S i)). }
  unfold d' at 1 2. destruct (Nat.eq_dec i i) as [_|]; [|congruence].
  destruct (Nat.eq_dec (S i) i) as [|_]; [lia|].
  destruct (Nat.eq_dec (S i) (S i)) as [_|]; [|congruence].
  rewrite Ei, Ej. apply digit_bounds in Hva, Hvb.
  replace (IsbnSpec.weighted_sum d IsbnSpec.weight13 0 13
           + (vb - va) * IsbnSpec.weight13 i + (va - vb) * IsbnSpec.weight13 (S i))
    with (IsbnSpec.weighted_sum d IsbnSpec.weight13 0 13
          + (vb - va) * (IsbnSpec.weight13 i - IsbnSpec.weight13 (S i))) by ring.
  generalize dependent (IsbnSpec.weighted_sum d IsbnSpec.weight13 0 13).
  intros W HW. clear - HW Hva Hvb.
  destruct (weight13_succ i) as [E|E]; rewrite E; split; intros H.
  - apply mod_shift in H; [|lia|exact HW].
    apply Z.mod_divide in H; [|lia]. destruct H as [q Hq]. lia.
  - rewrite <- Z.add_mod_idemp_l, HW, Z.add_0_l by lia.
    apply Z.mod_divide; [lia|].
    destruct H as [->|[H|H]]; [exists 0|exists (-1)|exists 1]; lia.
  - apply mod_shift in H; [|lia|exact HW].
    apply Z.mod_divide in H; [|lia]. destruct H as [q Hq]. lia.
  - rewrite <- Z.add_mod_idemp_l, HW, Z.add_0_l by lia.
    apply Z.mod_divide; [lia|].
    destruct H as [->|[H|H]]; [exists 0|exists 1|exists (-1)]; lia.
Qed.

Lemma validateISBN13Checksum_adjacent_transposition_witness :
  Isbn.validateISBN13Checksum (Typo.transpose 9 10 "9780306406157") = true.
Proof.
  apply (validateISBN13Checksum_adjacent_transposition
           "9780306406157" 9 "6" "1" 6 1);
    [reflexivity | reflexivity | reflexivity | reflexivity | reflexivity
    | right; left; reflexivity].
Defined.

(** ** Normalised and formatted forms *)

Lemma normal_get s i c :
  normal s -> String.get i s = Some c ->
  Js.isSpace c = false /\ c <> "-"%char /\ Js.isLower c = false.
Proof.
  revert i. induction s as [|a s IH]; intros i Hn Hg; [destruct i; discriminate|].
  cbn [normal] in Hn. destruct Hn as (Hsep & Hup & _ & Hn).
  destruct i as [|i]; [|exact (IH i Hn Hg)].
  cbn in Hg. injection Hg as ->. clear - Hsep Hup.
  destruct c as [[] [] [] [] [] [] [] []]; vm_compute in Hsep, Hup;
    try discriminate; repeat split; discriminate.
Qed.

(** [normalizeISBN] gives a canonical form: normalising twice is normalising
    once, and the result holds no blank, no hyphen and no small letter that
    has a capital.  The result can be longer than the argument: the capital
    of U+00DF is the two letters SS. *)
Theorem normalizeISBN_canonical (s : string) :
  Isbn.normalizeISBN (Isbn.normalizeISBN s) = Isbn.normalizeISBN s /\
  (forall i c, String.get i (Isbn.normalizeISBN s) = Some c ->
     Js.isSpace c = false /\ c <> "-"%char /\ Js.isLower c = false) /\
  Isbn.normalizeISBN (String "223" EmptyString) = "SS".
Proof.
  split; [apply normalizeISBN_idem|]. split; [|reflexivity].
  intros i c. apply normal_get, normalizeISBN_normal.
Qed.

(** Formatting changes nothing but separators. *)
Lemma normalizeISBN_formatISBN s :
  Isbn.normalizeISBN (Isbn.formatISBN s) = Isbn.normalizeISBN s.
Proof.
  unfold Isbn.formatISBN.
  pose proof (normalizeISBN_normal s) as Hn.
  set (n := Isbn.normalizeISBN s) in *.
  destruct (String.length n =? 13)%nat eqn:H13.
  - apply Nat.eqb_eq in H13.
    rewrite !normalizeISBN_app, !normalize_slice, !normalize_sliceFrom by exact Hn.
    change (Isbn.normalizeISBN "-") with EmptyString. rewrite !append_Empty.
    apply slices13, H13.
  - destruct (String.length n =? 10)%nat eqn:H10; [|reflexivity].
    apply Nat.eqb_eq in H10.
    rewrite !normalizeISBN_app, !normalize_slice, !normalize_sliceFrom by exact Hn.
    change (Isbn.normalizeISBN "-") with EmptyString. rewrite !append_Empty.
    apply slices10, H10.
Qed.

Lemma isValidISBN_normalized s t :
  Isbn.normalizeISBN s = Isbn.normalizeISBN t -> Isbn.isValidISBN s = Isbn.isValidISBN t.
Proof. unfold Isbn.isValidISBN. now intros ->. Qed.

Lemma convertISBN10ToISBN13_normalized s t :
  Isbn.normalizeISBN s = Isbn.normalizeISBN t ->
  Isbn.convertISBN10ToISBN13 s = Isbn.convertISBN10ToISBN13 t.
Proof. unfold Isbn.convertISBN10ToISBN13. now intros ->. Qed.

Lemma formatISBN_normalized s t :
  Isbn.normalizeISBN s = Isbn.normalizeISBN t ->
  String.length (Isbn.normalizeISBN s) = 10%nat \/
  String.length (Isbn.normalizeISBN s) = 13%nat ->
  Isbn.formatISBN s = Isbn.formatISBN t.
Proof.
  unfold Isbn.formatISBN. intros <- [H|H]; rewrite H; reflexivity.
Qed.

(** Validation, conversion and formatting see the normalised form only. *)
(** Validation, conversion and formatting see the normalised form only:
    [isValidISBN] gives the same verdict on a string, on its normalised
    form and on its formatted form, [convertISBN10ToISBN13] the same result
    on a string and on its formatted form, and formatting twice is
    formatting once. *)
Theorem isbn_functions_ignore_formatting (s : string) :
  Isbn.isValidISBN (Isbn.normalizeISBN s) = Isbn.isValidISBN s /\
  Isbn.isValidISBN (Isbn.formatISBN s) = Isbn.isValidISBN s /\
  Isbn.convertISBN10ToISBN13 (Isbn.formatISBN s) = Isbn.convertISBN10ToISBN13 s /\
  Isbn.formatISBN (Isbn.formatISBN s) = Isbn.formatISBN s.
Proof.
  split; [apply isValidISBN_normalized, normalizeISBN_idem|].
  split; [apply isValidISBN_normalized, normalizeISBN_formatISBN|].
  split; [apply convertISBN10ToISBN13_normalized, normalizeISBN_formatISBN|].
  destruct (Nat.eq_dec (String.length (Isbn.normalizeISBN s)) 10%nat) as [H10|H10];
    [|destruct (Nat.eq_dec (String.length (Isbn.normalizeISBN s)) 13%nat) as [H13|H13]].
  - apply formatISBN_normalized; rewrite normalizeISBN_formatISBN; auto.
  - apply formatISBN_normalized; rewrite normalizeISBN_formatISBN; auto.
  - unfold Isbn.formatISBN at 2. apply Nat.eqb_neq in H10, H13. now rewrite H13, H10.
Qed.

(** ** Conversion *)

Lemma convertISBN10ToISBN13_Some x r :
  Isbn.convertISBN10ToISBN13 x = Some r ->
  String.length (Isbn.normalizeISBN x) = 10%nat /\
  Isbn.validateISBN10Checksum (Isbn.normalizeISBN x) = true /\
  (exists k, r = "978" +:+ Js.slice 0 9 (Isbn.normalizeISBN x) +:+
                 String (IsbnSpec.digit_char k) EmptyString) /\
  String.length r = 13%nat /\
  Isbn.validateISBN13Checksum r = true.
Proof.
  rewrite convertISBN10ToISBN13_unfold. cbv zeta.
  destruct (String.length _ =? 10)%nat eqn:Hlen; [|discriminate].
  destruct (Isbn.validateISBN10Checksum _) eqn:Hv; [|discriminate].
  apply Nat.eqb_eq in Hlen.
  destruct (convertISBN10ToISBN13_check_digit _ Hlen Hv)
    as (d & Hd & HK & Hcd & Hl & H13).
  rewrite Hcd, (numberToString_digit _ HK). cbn [andb]. intros Hr.
  assert (Er : ("978" +:+ Js.slice 0 9 (Isbn.normalizeISBN x)) +:+
            String (IsbnSpec.digit_char
              ((10 - IsbnSpec.weighted_sum d IsbnSpec.weight13 0 12 mod 10) mod 10))
              EmptyString = r) by (injection Hr; trivial).
  clear Hr. subst r. repeat split; trivial. eexists. reflexivity.
Qed.

Lemma validateISBN13Checksum_normal r :
  Isbn.validateISBN13Checksum r = true -> Isbn.normalizeISBN r = r.
Proof.
  intros H. apply validateISBN13Checksum_iff in H as (Hlen & d & Hd & _).
  apply normal_normalizeISBN, (digits_normal r d). now rewrite Hlen.
Qed.

(** Two valid ISBN-10 that agree on the first nine characters are equal. *)
Lemma validateISBN10Checksum_check_unique n m :
  Isbn.validateISBN10Checksum n = true -> Isbn.validateISBN10Checksum m = true ->
  Js.slice 0 9 n = Js.slice 0 9 m -> n = m.
Proof.
  intros Hn Hm E.
  assert (H9 : String.get 9 n = String.get 9 m).
  { apply validateISBN10Checksum_agree; trivial. intros j Hj.
    destruct (Nat.lt_ge_cases j 9) as [Hlt|Hge].
    - assert (G : forall t, String.get j t = String.get j (Js.slice 0 9 t)).
      { intros t. unfold Js.slice. cbn [Nat.sub].
        now rewrite (substring_correct1 t 0 9 j Hlt), Nat.add_0_r. }
      now rewrite (G n), (G m), E.
    - assert (Hnone : forall t, Isbn.validateISBN10Checksum t = true ->
                String.get j t = None).
      { intros t Ht. apply validateISBN10Checksum_iff in Ht as (Hl & _).
        destruct (String.get j t) as [c|] eqn:G; [|reflexivity].
        apply get_Some_lt in G. lia. }
      now rewrite !Hnone. }
  pose proof (proj1 (proj1 (validateISBN10Checksum_iff n) Hn)) as Ln.
  pose proof (proj1 (proj1 (validateISBN10Checksum_iff m) Hm)) as Lm.
  do 11 (destruct n as [|? n]; try discriminate Ln).
  do 11 (destruct m as [|? m]; try discriminate Lm).
  cbv in E. cbn in H9. congruence.
Qed.

(** What [convertISBN10ToISBN13] returns is a normalised ISBN-13 that
    [isValidISBN] accepts: it starts with 978 and carries the first nine
    digits of the ISBN-10.  Two arguments with the same result have the
    same normalised form. *)
Theorem convertISBN10ToISBN13_valid_injective (x y r : string) :
  Isbn.convertISBN10ToISBN13 x = Some r ->
  Isbn.isValidISBN r = true /\
  Isbn.normalizeISBN r = r /\
  Js.startsWith "978" r = true /\
  Js.slice 3 12 r = Js.slice 0 9 (Isbn.normalizeISBN x) /\
  (Isbn.convertISBN10ToISBN13 y = Some r ->
   Isbn.normalizeISBN y = Isbn.normalizeISBN x).
Proof.
  intros Hx. destruct (convertISBN10ToISBN13_Some x r Hx) as (Lx & Vx & (k & Er) & Lr & Vr).
  pose proof (validateISBN13Checksum_normal r Vr) as Nr.
  assert (Hp : Js.startsWith "978" r = true).
  { rewrite Er. rewrite !append_String, append_Empty.
    generalize (Js.slice 0 9 (Isbn.normalizeISBN x) +:+
                String (IsbnSpec.digit_char k) EmptyString).
    intros [|? ?]; reflexivity. }
  assert (Hs : Js.slice 3 12 r = Js.slice 0 9 (Isbn.normalizeISBN x)).
  { rewrite Er. clear - Lx.
    set (n := Isbn.normalizeISBN x) in *. clearbody n.
    do 11 (destruct n as [|? n]; try discriminate Lx). reflexivity. }
  split; [|split; [exact Nr|split; [exact Hp|split; [exact Hs|]]]].
  - unfold Isbn.isValidISBN. rewrite Nr, Lr, Hp. exact Vr.
  - intros Hy.
    destruct (convertISBN10ToISBN13_Some y r Hy) as (Ly & Vy & (k' & Er') & _ & _).
    apply validateISBN10Checksum_check_unique; trivial.
    rewrite <- Hs. rewrite Er'. clear - Ly.
    set (n := Isbn.normalizeISBN y) in *. clearbody n.
    do 11 (destruct n as [|? n]; try discriminate Ly). reflexivity.
Qed.

Lemma convertISBN10ToISBN13_valid_injective_witness :
  Isbn.isValidISBN "9780306406157" = true /\
  Isbn.normalizeISBN "9780306406157" = "9780306406157" /\
  Js.startsWith "978" "9780306406157" = true /\
  Js.slice 3 12 "9780306406157" = Js.slice 0 9 (Isbn.normalizeISBN "0-306-40615-2") /\
  (Isbn.convertISBN10ToISBN13 "0306 40615 2" = Some "9780306406157" ->
   Isbn.normalizeISBN "0306 40615 2" = Isbn.normalizeISBN "0-306-40615-2").
Proof.
  exact (convertISBN10ToISBN13_valid_injective
           "0-306-40615-2" "0306 40615 2" "9780306406157" eq_refl).
Defined.

(** ** Extraction of an ISBN that stands alone *)

Lemma star_min_len i cs s k x :
  Regex.star i cs s k = Some x ->
  exists s', k s' = Some x /\ (String.length s' <= String.length s)%nat.
Proof.
  induction s as [|c s IH]; cbn [Regex.star]; intros H; [eauto|].
  destruct (Regex.mem i cs c); [|eauto].
  destruct (Regex.star i cs s k) eqn:E; [|eauto].
  injection H as ->. destruct (IH eq_refl) as (s' & Hk & Hl).
  exists s'. split; [exact Hk|]. cbn [String.length]. lia.
Qed.

Lemma exec_min_len r : forall i s k x,
  Regex.exec i r s k = Some x ->
  exists s', k s' = Some x /\ (String.length s' + min_len r <= String.length s)%nat.
Proof.
  induction r as [|cs|r1 IH1 r2 IH2|r1 IH1|cs|n r1 IH1]; intros i s k x H.
  - exists s. cbn in *. split; [exact H|lia].
  - cbn [Regex.exec] in H. destruct s as [|c s]; [discriminate|].
    destruct (Regex.mem i cs c); [|discriminate].
    exists s. cbn. split; [exact H|lia].
  - cbn [Regex.exec] in H. apply IH1 in H as (s1 & H & L1).
    apply IH2 in H as (s2 & H & L2). exists s2. cbn [min_len]. split; [exact H|lia].
  - cbn [Regex.exec] in H. destruct (Regex.exec i r1 s k) eqn:E.
    + injection H as ->. apply IH1 in E as (s' & Hk & L). exists s'. cbn [min_len].
      split; [exact Hk|lia].
    + exists s. cbn [min_len]. split; [exact H|lia].
  - cbn [Regex.exec] in H. apply star_min_len in H as (s' & Hk & L).
    exists s'. cbn [min_len]. split; [exact Hk|lia].
  - revert s H. induction n as [|n IHn]; intros s H.
    + exists s. cbn in *. split; [exact H|lia].
    + change (Regex.exec i (Regex.Rep (S n) r1) s k)
        with (Regex.exec i r1 s (fun s1 => Regex.exec i (Regex.Rep n r1) s1 k)) in H.
      apply IH1 in H as (s1 & H & L1). apply IHn in H as (s2 & H & L2).
      exists s2. split; [exact H|]. cbn [min_len] in *. lia.
Qed.

Lemma matchAt_short i r s :
  (String.length s < min_len r)%nat -> Regex.matchAt i r s = None.
Proof.
  intros L. unfold Regex.matchAt. destruct (Regex.exec i r s Some) eqn:E; [|reflexivity].
  apply exec_min_len in E as (s' & _ & L'). lia.
Qed.

(** No match starts where fewer characters are left than the pattern takes. *)
Lemma matchAll_from_short i r s : forall skip,
  (String.length s < min_len r)%nat -> Regex.matchAll_from i r skip s = [].
Proof.
  induction s as [|c s IH]; intros skip L; cbn [Regex.matchAll_from].
  - now rewrite matchAt_short.
  - destruct skip as [|skip]; [rewrite matchAt_short by exact L|];
      apply IH; cbn [String.length] in L; lia.
Qed.

(** The label of the patterns starts with the letter I. *)
Lemma exec_label_None suffix s k :
  match s with
  | String c _ => Regex.mem true (Regex.Chr "I") c = false
  | EmptyString => True
  end ->
  Regex.exec true (Constants.label suffix) s k = None.
Proof.
  destruct s as [|c s]; [reflexivity|]. intros H.
  unfold Constants.label. cbn [Regex.lit Regex.exec]. now rewrite H.
Qed.

Lemma replaceFirst_no_label suffix s :
  no_label s -> Regex.replaceFirst true (Constants.label suffix) s = s.
Proof.
  induction s as [|c s IH]; intros H.
  - reflexivity.
  - destruct H as [Hc Hs]. cbn [Regex.replaceFirst].
    rewrite exec_label_None by exact Hc. now rewrite IH.
Qed.

Lemma normal_digit_or_X c :
  Js.isDigit c = true \/ c = "X"%char ->
  Regex.mem false Constants.separator c = false /\ Js.upperChar c = c /\
  Regex.mem true (Regex.Chr "I") c = false /\
  Regex.mem true Constants.separator c = false /\
  Regex.mem true (Regex.Union Regex.Digit
                    (Regex.Union (Regex.Chr "X") (Regex.Chr "x"))) c = true.
Proof.
  intros [H | ->]; [|repeat split; reflexivity].
  destruct c as [[] [] [] [] [] [] [] []]; vm_compute in H; try discriminate H;
    repeat split; reflexivity.
Qed.

Lemma digit_like_intro c : Js.isDigit c = true -> digit_like c.
Proof.
  intros H. destruct c as [[] [] [] [] [] [] [] []]; vm_compute in H; try discriminate H;
    split; reflexivity.
Qed.

Lemma check_like_intro c v : IsbnSpec.check c = Some v -> check_like c.
Proof.
  intros H. destruct c as [[] [] [] [] [] [] [] []]; vm_compute in H; try discriminate H;
    split; reflexivity.
Qed.

Lemma digit_check_like c : digit_like c -> check_like c.
Proof. intros []. split; assumption. Qed.

Ltac mem_eval :=
  repeat match goal with
  | |- context [Regex.mem ?i ?cs (Ascii ?a ?b ?c ?d ?e ?f ?g ?h)] =>
      let v := eval vm_compute in (Regex.mem i cs (Ascii a b c d e f g h)) in
      change (Regex.mem i cs (Ascii a b c d e f g h)) with v
  end.

Ltac mem_facts :=
  repeat match goal with
  | H : digit_like ?c |- context [Regex.mem true Regex.Digit ?c] =>
      rewrite (dl_digit c H)
  | H : digit_like ?c |- context [Regex.mem true Constants.separator ?c] =>
      rewrite (dl_sep c H)
  | H : digit_like ?c |- context [Regex.mem true (Regex.Chr "I") ?c] =>
      rewrite (dl_I c H)
  | H : digit_like ?c |- context [Regex.mem true (Regex.Union Regex.Digit _) ?c] =>
      rewrite (dl_check c H)
  | H : check_like ?c |- context [Regex.mem true Constants.separator ?c] =>
      rewrite (cl_sep c H)
  | H : check_like ?c |- context [Regex.mem true (Regex.Chr "I") ?c] =>
      rewrite (cl_I c H)
  | H : check_like ?c |- context [Regex.mem true (Regex.Union Regex.Digit _) ?c] =>
      rewrite (cl_check c H)
  end.

Ltac exec_run :=
  repeat (progress (cbn [Regex.exec Regex.lit Regex.star]; mem_eval; mem_facts)).

Lemma matchAll_from_skip i r s : forall skip,
  (String.length s - skip < min_len r)%nat -> Regex.matchAll_from i r skip s = [].
Proof.
  induction s as [|c s IH]; intros skip L; cbn [Regex.matchAll_from].
  - rewrite matchAt_short; [reflexivity|]. cbn [String.length] in *. lia.
  - destruct skip as [|skip].
    + rewrite matchAt_short by (cbn [String.length] in *; lia).
      apply IH. cbn [String.length] in *. lia.
    + apply IH. cbn [String.length] in *. lia.
Qed.

Lemma matchAll_from_cons i r c s :
  Regex.matchAll_from i r 0 (String c s) =
  match Regex.matchAt i r (String c s) with
  | Some (m, _) => m :: Regex.matchAll_from i r (String.length m - 1) s
  | None => Regex.matchAll_from i r 0 s
  end.
Proof. reflexivity. Qed.

Lemma matchAll_one i r s rest :
  s <> EmptyString ->
  Regex.exec i r s Some = Some rest ->
  (String.length rest < String.length s)%nat ->
  (String.length rest < min_len r)%nat ->
  Regex.matchAll i r s = [substring 0 (String.length s - String.length rest) s].
Proof.
  intros Hs He Hl Hm. unfold Regex.matchAll.
  destruct s as [|c s]; [congruence|]. cbn [Regex.matchAll_from].
  unfold Regex.matchAt. rewrite He. f_equal.
  apply matchAll_from_skip.
  assert (E : forall b t, (b <= String.length t)%nat ->
              String.length (substring 0 b t) = b).
  { intros b t. revert b. induction t as [|x t IHt]; intros [|b] Hb;
      cbn [substring String.length] in *; try lia.
    rewrite IHt; lia. }
  rewrite E by lia. cbn [String.length] in *. lia.
Qed.

Lemma set_add_nil x : Js.set_add x [] = [x].
Proof. unfold Js.set_add. rewrite bool_decide_eq_false_2; [reflexivity|]. apply not_elem_of_nil. Qed.

Lemma prefix3 a b c s :
  String.prefix (String a (String b (String c EmptyString))) s = true ->
  exists t, s = String a (String b (String c t)).
Proof.
  destruct s as [|x [|y [|z t]]]; cbn; try discriminate;
    destruct (ascii_dec a x); try discriminate;
    destruct (ascii_dec b y); try discriminate;
    destruct (ascii_dec c z); try discriminate. 
  intros _. subst. eauto.
Qed.

Section Ten.
Variables c0 c1 c2 c3 c4 c5 c6 c7 c8 c9 : ascii.
Hypotheses (D0 : digit_like c0) (D1 : digit_like c1) (D2 : digit_like c2)
  (D3 : digit_like c3) (D4 : digit_like c4) (D5 : digit_like c5)
  (D6 : digit_like c6) (D7 : digit_like c7) (D8 : digit_like c8)
  (D9 : check_like c9).

Let n : string :=
  String c0 (String c1 (String c2 (String c3 (String c4 (String c5 (String c6
    (String c7 (String c8 (String c9 EmptyString))))))))).

Let formatted : string :=
  String c0 (String "-" (String c1 (String c2 (String c3 (String "-"
    (String c4 (String c5 (String c6 (String c7 (String c8 (String "-"
      (String c9 EmptyString)))))))))))).

Lemma exec_ISBN10_bare rest :
  Regex.exec true Constants.ISBN10 (n +:+ rest) Some = Some rest.
Proof.
  unfold Constants.ISBN10, Constants.nine_digits, n. rewrite !append_String, append_Empty.
  cbn [Regex.exec]. rewrite exec_label_None by (apply D0).
  exec_run. reflexivity.
Qed.

Lemma exec_ISBN10_formatted :
  Regex.exec true Constants.ISBN10 formatted Some = Some EmptyString.
Proof.
  unfold Constants.ISBN10, Constants.nine_digits, formatted.
  cbn [Regex.exec]. rewrite exec_label_None by (apply D0).
  exec_run. reflexivity.
Qed.

Lemma matchAt_ISBN13_formatted10 :
  Regex.matchAll true Constants.ISBN13 formatted = [].
Proof.
  unfold Regex.matchAll, formatted. rewrite matchAll_from_cons.
  replace (Regex.matchAt _ _ _) with (@None (string * string)).
  - apply matchAll_from_skip. vm_compute. lia.
  - unfold Regex.matchAt, Constants.ISBN13. cbn [Regex.exec].
    rewrite exec_label_None by (apply D0). exec_run.
    now destruct (Regex.mem true (Regex.Chr "9") c0).
Qed.

Lemma normal_n : normal n.
Proof.
  unfold n. cbn [normal]. repeat split;
    first [apply dl_sep'; assumption | apply dl_upper; assumption
          | apply dl_sharp; assumption
          | apply cl_sep'; assumption | apply cl_upper; assumption
          | apply cl_sharp; assumption].
Qed.

Lemma no_label_n : no_label n.
Proof.
  unfold n. cbn [no_label]. repeat split;
    first [apply dl_I; assumption | apply cl_I; assumption].
Qed.

Lemma no_label_formatted : no_label formatted.
Proof.
  unfold formatted. cbn [no_label]. repeat split;
    first [apply dl_I; assumption | apply cl_I; assumption | reflexivity].
Qed.

Lemma formatISBN_n : Isbn.formatISBN n = formatted.
Proof.
  unfold Isbn.formatISBN. rewrite (normal_normalizeISBN n normal_n). reflexivity.
Qed.

Lemma normalize_formatted : Isbn.normalizeISBN formatted = n.
Proof. rewrite <- formatISBN_n, normalizeISBN_formatISBN. apply normal_normalizeISBN, normal_n. Qed.

Hypothesis Hvalid : Isbn.isValidISBN n = true.

Lemma accept10_n found :
  Isbn.accept 10 "-10" found n = Js.set_add n found.
Proof.
  unfold Isbn.accept, Isbn.candidate.
  rewrite (replaceFirst_no_label _ n no_label_n), (normal_normalizeISBN n normal_n), Hvalid.
  reflexivity.
Qed.

Lemma extractISBNs_ten : Isbn.extractISBNs n = [n].
Proof.
  unfold Isbn.extractISBNs.
  replace (Regex.matchAll true Constants.ISBN13 n) with (@nil string)
    by (symmetry; apply matchAll_from_skip; vm_compute; lia).
  rewrite (matchAll_one true Constants.ISBN10 n EmptyString);
    [ | discriminate | | vm_compute; lia | vm_compute; lia ].
  2:{ exact (exec_ISBN10_bare EmptyString). }
  cbn [fold_left]. change (substring _ _ n) with n.
  rewrite accept10_n. apply set_add_nil.
Qed.

Lemma extractISBNs_ten_formatted : Isbn.extractISBNs formatted = [n].
Proof.
  unfold Isbn.extractISBNs. rewrite matchAt_ISBN13_formatted10.
  rewrite (matchAll_one true Constants.ISBN10 formatted EmptyString);
    [ | discriminate | apply exec_ISBN10_formatted | vm_compute; lia | vm_compute; lia ].
  cbn [fold_left]. change (substring _ _ formatted) with formatted.
  unfold Isbn.accept, Isbn.candidate.
  rewrite (replaceFirst_no_label _ _ no_label_formatted), normalize_formatted, Hvalid.
  apply set_add_nil.
Qed.

End Ten.

Ltac normalize_run :=
  unfold Isbn.normalizeISBN;
  repeat (progress
    (cbn [Regex.removeAll Js.toUpperCase]; mem_eval;
     repeat match goal with
     | H : digit_like ?c |- context [Regex.mem false Constants.separator ?c] =>
         rewrite (dl_sep' c H)
     | H : digit_like ?c |- context [Js.upperChar ?c] =>
         rewrite (dl_upper c H)
     | H : digit_like ?c |- context [Js.isSharpS ?c] =>
         rewrite (dl_sharp c H)
     | |- context [Js.isSharpS (Ascii ?a ?b ?c ?d ?e ?f ?g ?h)] =>
         let v := eval vm_compute in (Js.isSharpS (Ascii a b c d e f g h)) in
         change (Js.isSharpS (Ascii a b c d e f g h)) with v
     | |- context [Js.upperChar (Ascii ?a ?b ?c ?d ?e ?f ?g ?h)] =>
         let v := eval vm_compute in (Js.upperChar (Ascii a b c d e f g h)) in
         change (Js.upperChar (Ascii a b c d e f g h)) with v
     end)).

Section Thirteen.
Variables e c3 c4 c5 c6 c7 c8 c9 c10 c11 c12 : ascii.
Hypotheses (He : e = "8"%char \/ e = "9"%char)
  (D3 : digit_like c3) (D4 : digit_like c4) (D5 : digit_like c5)
  (D6 : digit_like c6) (D7 : digit_like c7) (D8 : digit_like c8)
  (D9 : digit_like c9) (D10 : digit_like c10) (D11 : digit_like c11)
  (D12 : digit_like c12).

Let n : string :=
  String "9" (String "7" (String e (String c3 (String c4 (String c5 (String c6
    (String c7 (String c8 (String c9 (String c10 (String c11
      (String c12 EmptyString)))))))))))).

Let head : string :=
  String "9" (String "7" (String e (String c3 (String c4 (String c5 (String c6
    (String c7 (String c8 (String c9 EmptyString))))))))).

Let formatted : string :=
  String "9" (String "7" (String e (String "-" (String c3 (String "-"
    (String c4 (String c5 (String c6 (String "-" (String c7 (String c8
      (String c9 (String c10 (String c11 (String "-"
        (String c12 EmptyString)))))))))))))))).

Let formatted_head : string :=
  String "9" (String "7" (String e (String "-" (String c3 (String "-"
    (String c4 (String c5 (String c6 (String "-" (String c7 (String c8
      (String c9 EmptyString)))))))))))).

Lemma digit_like_e : digit_like e.
Proof. destruct He as [-> | ->]; split; reflexivity. Qed.

Lemma exec_ISBN13_bare :
  Regex.exec true Constants.ISBN13 n Some = Some EmptyString.
Proof.
  unfold Constants.ISBN13, Constants.nine_digits, n.
  cbn [Regex.exec]. rewrite exec_label_None by reflexivity.
  destruct He as [-> | ->]; exec_run; reflexivity.
Qed.

Lemma exec_ISBN13_formatted :
  Regex.exec true Constants.ISBN13 formatted Some = Some EmptyString.
Proof.
  unfold Constants.ISBN13, Constants.nine_digits, formatted.
  cbn [Regex.exec]. rewrite exec_label_None by reflexivity.
  destruct He as [-> | ->]; exec_run; reflexivity.
Qed.

Lemma exec_ISBN10_thirteen :
  Regex.exec true Constants.ISBN10 n Some
  = Some (String c10 (String c11 (String c12 EmptyString))).
Proof.
  unfold Constants.ISBN10, Constants.nine_digits, n.
  cbn [Regex.exec]. rewrite exec_label_None by reflexivity.
  destruct He as [-> | ->]; exec_run; reflexivity.
Qed.

Lemma exec_ISBN10_thirteen_formatted :
  Regex.exec true Constants.ISBN10 formatted Some
  = Some (String c10 (String c11 (String "-" (String c12 EmptyString)))).
Proof.
  unfold Constants.ISBN10, Constants.nine_digits, formatted.
  cbn [Regex.exec]. rewrite exec_label_None by reflexivity.
  destruct He as [-> | ->]; exec_run; reflexivity.
Qed.

Lemma normal_thirteen : normal n.
Proof.
  pose proof digit_like_e.
  unfold n. cbn [normal]. repeat split;
    first [reflexivity | apply dl_sep'; assumption | apply dl_upper; assumption
          | apply dl_sharp; assumption].
Qed.

Lemma normal_head : normal head.
Proof.
  pose proof digit_like_e.
  unfold head. cbn [normal]. repeat split;
    first [reflexivity | apply dl_sep'; assumption | apply dl_upper; assumption
          | apply dl_sharp; assumption].
Qed.

Lemma no_label_thirteen : no_label n.
Proof.
  pose proof digit_like_e.
  unfold n. cbn [no_label]. repeat split; first [reflexivity | apply dl_I; assumption].
Qed.

Lemma no_label_head : no_label head.
Proof.
  pose proof digit_like_e.
  unfold head. cbn [no_label]. repeat split; first [reflexivity | apply dl_I; assumption].
Qed.

Lemma no_label_thirteen_formatted : no_label formatted.
Proof.
  pose proof digit_like_e.
  unfold formatted. cbn [no_label]. repeat split;
    first [reflexivity | apply dl_I; assumption].
Qed.

Lemma no_label_formatted_head : no_label formatted_head.
Proof.
  pose proof digit_like_e.
  unfold formatted_head. cbn [no_label]. repeat split;
    first [reflexivity | apply dl_I; assumption].
Qed.

Lemma formatISBN_thirteen : Isbn.formatISBN n = formatted.
Proof.
  unfold Isbn.formatISBN. rewrite (normal_normalizeISBN n normal_thirteen). reflexivity.
Qed.

Lemma normalize_thirteen_formatted : Isbn.normalizeISBN formatted = n.
Proof.
  rewrite <- formatISBN_thirteen, normalizeISBN_formatISBN.
  apply normal_normalizeISBN, normal_thirteen.
Qed.

Lemma normalize_formatted_head : Isbn.normalizeISBN formatted_head = head.
Proof.
  pose proof digit_like_e.
  unfold formatted_head, head. normalize_run. reflexivity.
Qed.

Hypothesis Hvalid : Isbn.isValidISBN n = true.

(** The second loop of [extractISBNs] on the first ten digits. *)
Lemma accept10_head :
  Isbn.accept 10 "-10" [n] head
  = n :: (if Isbn.isValidISBN head then [head] else []).
Proof.
  unfold Isbn.accept, Isbn.candidate.
  rewrite (replaceFirst_no_label _ _ no_label_head),
    (normal_normalizeISBN _ normal_head).
  change (String.length head =? 10)%nat with true. cbn [andb].
  destruct (Isbn.isValidISBN head); [|reflexivity].
  unfold Js.set_add. rewrite bool_decide_eq_false_2; [reflexivity|].
  rewrite list_elem_of_singleton. intros E. apply (f_equal String.length) in E.
  discriminate E.
Qed.

Lemma extractISBNs_thirteen :
  Isbn.extractISBNs n = n :: (if Isbn.isValidISBN head then [head] else []).
Proof.
  unfold Isbn.extractISBNs.
  rewrite (matchAll_one true Constants.ISBN13 n EmptyString);
    [ | discriminate | apply exec_ISBN13_bare | vm_compute; lia | vm_compute; lia ].
  rewrite (matchAll_one true Constants.ISBN10 n _ ltac:(discriminate) exec_ISBN10_thirteen);
    [ | vm_compute; lia | vm_compute; lia ].
  change (substring 0 (String.length n - String.length EmptyString) n) with n.
  change (substring 0 (String.length n -
            String.length (String c10 (String c11 (String c12 EmptyString)))) n)
    with head.
  cbn [fold_left].
  replace (Isbn.accept 13 "-13" [] n) with [n]; [apply accept10_head|].
  unfold Isbn.accept, Isbn.candidate.
  rewrite (replaceFirst_no_label _ _ no_label_thirteen),
    (normal_normalizeISBN _ normal_thirteen), Hvalid.
  symmetry. apply set_add_nil.
Qed.

Lemma extractISBNs_thirteen_formatted :
  Isbn.extractISBNs formatted = n :: (if Isbn.isValidISBN head then [head] else []).
Proof.
  unfold Isbn.extractISBNs.
  rewrite (matchAll_one true Constants.ISBN13 formatted EmptyString);
    [ | discriminate | apply exec_ISBN13_formatted | vm_compute; lia | vm_compute; lia ].
  rewrite (matchAll_one true Constants.ISBN10 formatted _ ltac:(discriminate)
             exec_ISBN10_thirteen_formatted);
    [ | vm_compute; lia | vm_compute; lia ].
  change (substring 0 (String.length formatted - String.length EmptyString) formatted)
    with formatted.
  change (substring 0 (String.length formatted -
            String.length (String c10 (String c11 (String "-" (String c12 EmptyString)))))
            formatted)
    with formatted_head.
  cbn [fold_left].
  replace (Isbn.accept 13 "-13" [] formatted) with [n].
  - rewrite <- accept10_head. unfold Isbn.accept, Isbn.candidate.
    now rewrite (replaceFirst_no_label _ _ no_label_formatted_head),
      (replaceFirst_no_label _ _ no_label_head),
      normalize_formatted_head, (normal_normalizeISBN _ normal_head).
  - unfold Isbn.accept, Isbn.candidate.
    rewrite (replaceFirst_no_label _ _ no_label_thirteen_formatted),
      normalize_thirteen_formatted, Hvalid.
    symmetry. apply set_add_nil.
Qed.

End Thirteen.

Lemma digits_of_digit_like s n d i c :
  IsbnSpec.digits_of s n d -> (i < n)%nat -> String.get i s = Some c -> digit_like c.
Proof.
  intros Hd Hi Hc. destruct (Hd i Hi) as (c' & Hc' & Hv).
  assert (c' = c) by congruence. subst c'.
  eapply digit_like_intro, digit_isDigit, Hv.
Qed.

(** A valid ISBN-10 that stands alone. *)
Lemma extractISBNs_valid10 n :
  Isbn.validateISBN10Checksum n = true ->
  Isbn.normalizeISBN n = n /\
  Isbn.extractISBNs n = [n] /\ Isbn.extractISBNs (Isbn.formatISBN n) = [n].
Proof.
  intros Hv. pose proof Hv as Hv'.
  apply validateISBN10Checksum_iff in Hv' as (L10 & d & Hd & (c & Hc & Hcv) & _).
  do 11 (destruct n as [|? n]; try discriminate L10).
  cbn in Hc. injection Hc as <-.
  pose proof (fun i c Hi => digits_of_digit_like _ _ d i c Hd Hi) as D.
  pose proof (D 0%nat _ ltac:(lia) eq_refl). pose proof (D 1%nat _ ltac:(lia) eq_refl).
  pose proof (D 2%nat _ ltac:(lia) eq_refl). pose proof (D 3%nat _ ltac:(lia) eq_refl).
  pose proof (D 4%nat _ ltac:(lia) eq_refl). pose proof (D 5%nat _ ltac:(lia) eq_refl).
  pose proof (D 6%nat _ ltac:(lia) eq_refl). pose proof (D 7%nat _ ltac:(lia) eq_refl).
  pose proof (D 8%nat _ ltac:(lia) eq_refl).
  pose proof (check_like_intro _ _ Hcv).
  match goal with
  | |- Isbn.normalizeISBN ?x = _ /\ _ =>
      assert (Hn : Isbn.normalizeISBN x = x)
        by (apply normal_normalizeISBN; now apply normal_n);
      assert (Hvalid : Isbn.isValidISBN x = true)
        by (unfold Isbn.isValidISBN; rewrite Hn; exact Hv)
  end.
  split; [exact Hn|].
  rewrite formatISBN_n by assumption.
  rewrite extractISBNs_ten_formatted, extractISBNs_ten by assumption.
  split; reflexivity.
Qed.

(** A valid ISBN-13 that stands alone. *)
Lemma extractISBNs_valid13 n :
  Isbn.isValidISBN n = true -> Isbn.normalizeISBN n = n ->
  String.length n = 13%nat ->
  Isbn.extractISBNs n =
    n :: (if Isbn.isValidISBN (Js.slice 0 10 n) then [Js.slice 0 10 n] else []) /\
  Isbn.extractISBNs (Isbn.formatISBN n) = Isbn.extractISBNs n.
Proof.
  intros Hvalid Hnorm L13. pose proof Hvalid as Hv.
  unfold Isbn.isValidISBN in Hv. rewrite Hnorm, L13 in Hv. cbn [Nat.eqb] in Hv.
  destruct (negb (Js.startsWith "978" n) && negb (Js.startsWith "979" n)) eqn:Hp;
    [discriminate|].
  apply validateISBN13Checksum_iff in Hv as (_ & d & Hd & _).
  assert (He : exists e t, (e = "8"%char \/ e = "9"%char) /\
                 n = String "9" (String "7" (String e t))).
  { apply andb_false_iff in Hp as [Hp|Hp]; apply negb_false_iff, prefix3 in Hp;
      destruct Hp as [t ->]; eauto. }
  destruct He as (e & t & He & ->).
  do 11 (destruct t as [|? t]; try discriminate L13).
  pose proof (fun i c Hi => digits_of_digit_like _ _ d i c Hd Hi) as D.
  pose proof (D 3%nat _ ltac:(lia) eq_refl). pose proof (D 4%nat _ ltac:(lia) eq_refl).
  pose proof (D 5%nat _ ltac:(lia) eq_refl). pose proof (D 6%nat _ ltac:(lia) eq_refl).
  pose proof (D 7%nat _ ltac:(lia) eq_refl). pose proof (D 8%nat _ ltac:(lia) eq_refl).
  pose proof (D 9%nat _ ltac:(lia) eq_refl). pose proof (D 10%nat _ ltac:(lia) eq_refl).
  pose proof (D 11%nat _ ltac:(lia) eq_refl). pose proof (D 12%nat _ ltac:(lia) eq_refl).
  rewrite formatISBN_thirteen by assumption.
  rewrite extractISBNs_thirteen_formatted, extractISBNs_thirteen by assumption.
  split; reflexivity.
Qed.

(** A valid ISBN in normalised form is found in the text that consists of
    it alone, and in its formatted form: it is the first element of the
    result.  For an ISBN-10 it is the only one; for an ISBN-13 the result
    holds a second element, the first ten digits, exactly when these pass
    the ISBN-10 checksum. *)
Theorem extractISBNs_finds_valid_isbn (n : string) :
  Isbn.isValidISBN n = true -> Isbn.normalizeISBN n = n ->
  Isbn.extractISBNs n =
    n :: (if (String.length n =? 13)%nat && Isbn.isValidISBN (Js.slice 0 10 n)
          then [Js.slice 0 10 n] else []) /\
  Isbn.extractISBNs (Isbn.formatISBN n) = Isbn.extractISBNs n.
Proof.
  intros Hvalid Hnorm. pose proof Hvalid as Hv.
  unfold Isbn.isValidISBN in Hv. rewrite Hnorm in Hv.
  destruct (String.length n =? 10)%nat eqn:L10.
  - apply Nat.eqb_eq in L10.
    destruct (extractISBNs_valid10 n Hv) as (_ & H1 & H2).
    rewrite H1, H2, L10. split; reflexivity.
  - destruct (String.length n =? 13)%nat eqn:L13; [|discriminate].
    apply Nat.eqb_eq in L13. cbn [andb].
    exact (extractISBNs_valid13 n Hvalid Hnorm L13).
Qed.

Lemma extractISBNs_finds_valid_isbn_witness :
  Isbn.extractISBNs "9780306406157" =
    "9780306406157" ::
      (if (String.length "9780306406157" =? 13)%nat &&
          Isbn.isValidISBN (Js.slice 0 10 "9780306406157")
       then [Js.slice 0 10 "9780306406157"] else []) /\
  Isbn.extractISBNs (Isbn.formatISBN "9780306406157") =
    Isbn.extractISBNs "9780306406157".
Proof. exact (extractISBNs_finds_valid_isbn "9780306406157" eq_refl eq_refl). Defined.

(** The first ten digits of an ISBN-13 can pass the ISBN-10 checksum. *)
Example extractISBNs_first_ten_digits :
  Isbn.extractISBNs "978-0-306-00500-8" = ["9780306005008"; "9780306005"].
Proof. vm_compute. reflexivity. Qed.
(** ** The cache and the resolution, continued *)

Section CacheHits.
Import World.

(** Logging a request leaves the cache's answer as it was. *)
Lemma lookup_log_request isbn r w :
  CacheView.lookup isbn (log_request r w) = CacheView.lookup isbn w.
Proof. reflexivity. Qed.

Lemma handleFetchBookInfo_hit isbn v w :
  CacheView.lookup isbn w = Some v -> truthy (Some v) = true ->
  ServiceWorker.handleFetchBookInfo isbn w = (Ok (ServiceWorker.FetchSuccess v), w).
Proof.
  intros Hl Ht. unfold ServiceWorker.handleFetchBookInfo, try_catch, bind.
  rewrite google_fetchBookInfo_eq, Hl, Ht. cbv beta iota. rewrite Ht. cbn [negb].
  unfold ret. now rewrite Ht.
Qed.

(** When the cache answers an ISBN with a truthy value, both providers, the
    resolution and the resolution of a detected ISBN return that value and
    leave the world as it is: no request is made and nothing is written. *)
Theorem cache_hit_answers_without_request (isbn : string) (v : value) (w : World) :
  GoogleBooks.getCachedBookInfo isbn w = (Ok (Some v), w) ->
  truthy (Some v) = true ->
  GoogleBooks.fetchBookInfo isbn true w = (Ok (Some v), w) /\
  OpenLibrary.fetchBookInfo isbn true w = (Ok (Some v), w) /\
  ServiceWorker.handleFetchBookInfo isbn w = (Ok (ServiceWorker.FetchSuccess v), w) /\
  ServiceWorker.detectedBook isbn w = (Ok v, w).
Proof.
  intros Hc Ht. rewrite google_getCachedBookInfo_lookup in Hc.
  assert (Hl : CacheView.lookup isbn w = Some v) by congruence.
  pose proof (handleFetchBookInfo_hit isbn v w Hl Ht) as Hh.
  split; [now rewrite google_fetchBookInfo_eq, Hl, Ht|].
  split; [now rewrite open_library_fetchBookInfo_eq, Hl, Ht|].
  split; [exact Hh|].
  unfold ServiceWorker.detectedBook, bind. now rewrite Hh.
Qed.

Lemma cache_hit_answers_without_request_witness :
  ServiceWorker.handleFetchBookInfo "9780306406157" MoreExamples.cached
  = (Ok (ServiceWorker.FetchSuccess (VBook Examples.book)), MoreExamples.cached).
Proof.
  exact (proj1 (proj2 (proj2 (cache_hit_answers_without_request
           "9780306406157" (VBook Examples.book) MoreExamples.cached
           eq_refl eq_refl)))).
Defined.

End CacheHits.

Section Resolution.
Import World ResolverView.

Lemma or_string_nonempty s d : d <> EmptyString -> or_string s d <> EmptyString.
Proof. intros H. destruct s as [[|c s]|]; cbn; trivial. discriminate. Qed.

Lemma parseGoogleBooksResponse_parsed item isbn :
  parsed_for isbn (GoogleBooks.parseGoogleBooksResponse item isbn).
Proof.
  split; [reflexivity|]. split; [|left; reflexivity].
  apply or_string_nonempty. discriminate.
Qed.

Lemma parseOpenLibraryBooksResponse_parsed data isbn :
  parsed_for isbn (OpenLibrary.parseOpenLibraryBooksResponse data isbn).
Proof.
  split; [reflexivity|]. split; [|right; reflexivity].
  apply or_string_nonempty. discriminate.
Qed.

Lemma parseOpenLibraryISBNResponse_parsed data isbn :
  parsed_for isbn (OpenLibrary.parseOpenLibraryISBNResponse data isbn).
Proof.
  split; [reflexivity|]. split; [|right; reflexivity].
  apply or_string_nonempty. discriminate.
Qed.

Lemma same_store_refl w : same_store w w.
Proof. repeat split. Qed.

Lemma same_store_log r w0 w : same_store w0 w -> same_store (log_request r w0) w.
Proof. intros H. exact H. Qed.

Lemma lookup_same_store isbn w0 w :
  same_store w0 w -> CacheView.lookup isbn w0 = CacheView.lookup isbn w.
Proof.
  intros (Hc & Hl & Hg & _). unfold CacheView.lookup, CacheView.stored.
  now rewrite Hc, Hl, Hg.
Qed.

Lemma google_fetchBookInfo_Some isbn w v w1 :
  truthy (CacheView.lookup isbn w) = false ->
  GoogleBooks.fetchBookInfo isbn true w = (Ok (Some v), w1) ->
  exists book w0,
    v = VBook book /\ w1 = CacheView.put isbn book w0 /\
    parsed_for isbn book /\ Book.source book = "google-books" /\ same_store w0 w /\
    requests w0 = requests w ++ [GoogleVolumes ("isbn:" +:+ isbn) (CacheView.api_key w)].
Proof.
  intros Ht. rewrite google_fetchBookInfo_eq, Ht. cbv zeta.
  destruct (google_books w _ _) as [e|[] status [data|]]; try discriminate.
  destruct (GoogleJson.items data) as [[|item l]|]; try discriminate.
  intros [= <- <-].
  exists (GoogleBooks.parseGoogleBooksResponse item isbn),
    (log_request (GoogleVolumes ("isbn:" +:+ isbn) (CacheView.api_key w)) w).
  split; [reflexivity|]. split; [reflexivity|].
  split; [apply parseGoogleBooksResponse_parsed|]. split; [reflexivity|].
  split; [repeat split|reflexivity].
Qed.

Lemma open_library_fetchBookInfo_Some isbn w v w1 :
  truthy (CacheView.lookup isbn w) = false ->
  OpenLibrary.fetchBookInfo isbn true w = (Ok (Some v), w1) ->
  exists book w0,
    v = VBook book /\ w1 = CacheView.put isbn book w0 /\
    parsed_for isbn book /\ Book.source book = "open-library" /\ same_store w0 w /\
    exists rest, requests w0 = requests w ++ OpenLibraryBooks ("ISBN:" +:+ isbn) :: rest.
Proof.
  intros Ht. rewrite open_library_fetchBookInfo_eq, Ht. cbv zeta.
  rewrite open_library_fetchFromBooksAPI_eq, open_library_fetchFromISBNEndpoint_eq.
  cbv zeta. cbn [fst].
  assert (Hany : forall b w0 rest,
            requests w0 = requests w ++ OpenLibraryBooks ("ISBN:" +:+ isbn) :: rest ->
            same_store w0 w -> parsed_for isbn b -> Book.source b = "open-library" ->
            (Ok (Some (VBook b)), CacheView.put isbn b w0) = (Ok (Some v), w1) ->
            exists book w0,
              v = VBook book /\ w1 = CacheView.put isbn book w0 /\
              parsed_for isbn book /\ Book.source book = "open-library" /\
              same_store w0 w /\
              exists rest, requests w0
                = requests w ++ OpenLibraryBooks ("ISBN:" +:+ isbn) :: rest).
  { intros b w0 rest Hr Hs Hp Hsrc [= <- <-]. exists b, w0. eauto 10. }
  destruct (open_library_books w _) as [e|[] status [data|]];
    [| destruct (data !! _) as [bookData|] | | |];
    try (destruct (open_library_isbn _ isbn) as [e'|[] status' [data'|]];
         try discriminate;
         apply (Hany _ _ [OpenLibraryISBN isbn]);
         [ cbn; now rewrite <- app_assoc | repeat split
         | apply parseOpenLibraryISBNResponse_parsed | reflexivity ]).
  apply (Hany _ _ []);
    [ reflexivity | repeat split
    | apply parseOpenLibraryBooksResponse_parsed | reflexivity ].
Qed.

Lemma handleFetchBookInfo_primary isbn w v w1 :
  GoogleBooks.fetchBookInfo isbn true w = (Ok (Some v), w1) ->
  ServiceWorker.handleFetchBookInfo isbn w = (Ok (ServiceWorker.FetchSuccess v), w1).
Proof.
  intros H. pose proof (google_fetchBookInfo_truthy _ _ _ _ H) as Ht.
  unfold ServiceWorker.handleFetchBookInfo, try_catch, bind. rewrite H.
  rewrite Ht. cbn [negb]. unfold ret. now rewrite Ht.
Qed.

(** A resolution that the cache does not answer and that succeeds: the book
    comes from a parser and has been put into the cache. *)
Lemma handleFetchBookInfo_Some isbn w v w1 :
  truthy (CacheView.lookup isbn w) = false ->
  ServiceWorker.handleFetchBookInfo isbn w = (Ok (ServiceWorker.FetchSuccess v), w1) ->
  exists book w0,
    v = VBook book /\ w1 = CacheView.put isbn book w0 /\
    parsed_for isbn book /\ same_store w0 w /\
    exists rest,
      requests w0 = requests w ++
        GoogleVolumes ("isbn:" +:+ isbn) (CacheView.api_key w) :: rest /\
      (Book.source book = "google-books" <-> rest = []).
Proof.
  intros Ht Hh.
  destruct (google_fetchBookInfo_total isbn true w) as ([v1|] & w' & H1).
  - rewrite (handleFetchBookInfo_primary _ _ _ _ H1) in Hh. injection Hh as <- <-.
    destruct (google_fetchBookInfo_Some _ _ _ _ Ht H1)
      as (book & w0 & -> & -> & Hp & Hsrc & Hs & Hr).
    exists book, w0. repeat split; try apply Hp; try apply Hs.
    exists []. rewrite Hr. split; [reflexivity|]. tauto.
  - pose proof H1 as H1'. apply google_fetchBookInfo_None in H1' as (_ & _ & ->).
    destruct (open_library_fetchBookInfo_total isbn true
                (log_request (GoogleVolumes ("isbn:" +:+ isbn) (CacheView.api_key w)) w))
      as (r2 & w2 & H2).
    rewrite (handleFetchBookInfo_fallback _ _ _ _ _ H1 H2) in Hh.
    destruct r2 as [v2|]; [|discriminate]. injection Hh as <- <-.
    set (wg := log_request _ w) in *.
    assert (Ht' : truthy (CacheView.lookup isbn wg) = false) by exact Ht.
    destruct (open_library_fetchBookInfo_Some _ _ _ _ Ht' H2)
      as (book & w0 & -> & -> & Hp & Hsrc & Hs & rest & Hr).
    exists book, w0. repeat split; try apply Hp; try apply Hs.
    exists (OpenLibraryBooks ("ISBN:" +:+ isbn) :: rest). split.
    + rewrite Hr. subst wg. cbn. now rewrite <- app_assoc.
    + rewrite Hsrc. split; discriminate.
Qed.

Lemma lookup_put_later isbn book w0 t :
  isbn <> "__proto__" ->
  local_get_fails w0 = false -> local_set_fails w0 = false ->
  CacheView.lookup isbn (at_time t (CacheView.put isbn book w0))
  = if Constants.CACHE_TTL_MS <? t - clock w0 then None else Some (VBook book).
Proof.
  intros Hk Hg Hs. unfold CacheView.lookup.
  replace (CacheView.stored (at_time t (CacheView.put isbn book w0)))
    with (<[isbn := CacheView.entry_of book (clock w0)]> (CacheView.stored w0)).
  - rewrite lookup_insert_eq, expired_entry_of. reflexivity.
  - rewrite <- (stored_put isbn book w0 Hk Hg Hs).
    unfold CacheView.put. rewrite Hs. reflexivity.
Qed.

(** A resolution that succeeded from the network is repeated from the
    cache, when both resolutions run alone and nothing else writes the
    cache between them: when the store can be read and written, a
    resolution of the same ISBN at any time up to the TTL after the first
    one returns the same book and leaves the world as it is; later than that
    the cache answers [null] again.  (The key is any string but
    [__proto__].  A put of another lookup that overlaps with the first
    resolution can erase its entry: see [Interleaving.two_puts].) *)
Theorem resolution_served_from_cache
    (isbn : string) (cached : option value) (v : value) (w w1 : World) :
  isbn <> "__proto__" ->
  local_get_fails w = false -> local_set_fails w = false ->
  GoogleBooks.getCachedBookInfo isbn w = (Ok cached, w) -> truthy cached = false ->
  ServiceWorker.handleFetchBookInfo isbn w = (Ok (ServiceWorker.FetchSuccess v), w1) ->
  (forall t, t - clock w <= Constants.CACHE_TTL_MS ->
     ServiceWorker.handleFetchBookInfo isbn (at_time t w1)
     = (Ok (ServiceWorker.FetchSuccess v), at_time t w1)) /\
  (forall t, Constants.CACHE_TTL_MS < t - clock w ->
     GoogleBooks.getCachedBookInfo isbn (at_time t w1) = (Ok None, at_time t w1)).
Proof.
  intros Hk Hg Hs Hcached Ht Hh.
  rewrite google_getCachedBookInfo_lookup in Hcached. injection Hcached as <-.
  destruct (handleFetchBookInfo_Some _ _ _ _ Ht Hh)
    as (book & w0 & -> & -> & _ & (Hc & _ & Hg0 & Hs0) & _).
  rewrite Hg in Hg0. rewrite Hs in Hs0.
  split; intros t Hle.
  - apply handleFetchBookInfo_hit; [|reflexivity].
    rewrite (lookup_put_later _ _ _ _ Hk Hg0 Hs0), Hc.
    now replace (Constants.CACHE_TTL_MS <? t - clock w) with false
      by (symmetry; apply Z.ltb_ge; exact Hle).
  - rewrite google_getCachedBookInfo_lookup.
    rewrite (lookup_put_later _ _ _ _ Hk Hg0 Hs0), Hc.
    now replace (Constants.CACHE_TTL_MS <? t - clock w) with true
      by (symmetry; apply Z.ltb_lt; exact Hle).
Qed.

Lemma resolution_served_from_cache_witness :
  let w1 := (ServiceWorker.handleFetchBookInfo "9780306406157" Examples.google_down).2 in
  (forall t, t - clock Examples.google_down <= Constants.CACHE_TTL_MS ->
     ServiceWorker.handleFetchBookInfo "9780306406157" (at_time t w1)
     = (Ok (ServiceWorker.FetchSuccess (VBook Examples.book)), at_time t w1)) /\
  (forall t, Constants.CACHE_TTL_MS < t - clock Examples.google_down ->
     GoogleBooks.getCachedBookInfo "9780306406157" (at_time t w1)
     = (Ok None, at_time t w1)).
Proof.
  refine (resolution_served_from_cache "9780306406157" None (VBook Examples.book)
            Examples.google_down _ _ eq_refl eq_refl eq_refl eq_refl eq_refl).
  discriminate.
Defined.

(** The record returned by a resolution that the cache did not answer has
    the requested ISBN, a title that is not empty, and the source
    "google-books" or "open-library"; the request to Google Books is the
    first one in the log, and the source is "google-books" exactly when it
    is the only one. *)
Theorem resolved_record_fields
    (isbn : string) (cached : option value) (v : value) (w w1 : World) :
  GoogleBooks.getCachedBookInfo isbn w = (Ok cached, w) -> truthy cached = false ->
  ServiceWorker.handleFetchBookInfo isbn w = (Ok (ServiceWorker.FetchSuccess v), w1) ->
  exists book rest,
    v = VBook book /\
    Book.isbn book = isbn /\ Book.title book <> EmptyString /\
    (Book.source book = "google-books" \/ Book.source book = "open-library") /\
    requests w1 = requests w ++
      GoogleVolumes ("isbn:" +:+ isbn) (CacheView.api_key w) :: rest /\
    (Book.source book = "google-books" <-> rest = []).
Proof.
  intros Hcached Ht Hh.
  rewrite google_getCachedBookInfo_lookup in Hcached. injection Hcached as <-.
  destruct (handleFetchBookInfo_Some _ _ _ _ Ht Hh)
    as (book & w0 & -> & -> & (Hi & Hti & Hsrc) & _ & rest & Hr & Hg).
  exists book, rest. repeat split; trivial; try apply Hg.
  unfold CacheView.put. destruct (local_set_fails w0); exact Hr.
Qed.

Lemma resolved_record_fields_witness :
  exists book rest,
    VBook Examples.book = VBook book /\
    Book.isbn book = "9780306406157" /\ Book.title book <> EmptyString /\
    (Book.source book = "google-books" \/ Book.source book = "open-library") /\
    requests (ServiceWorker.handleFetchBookInfo "9780306406157" Examples.google_down).2
      = requests Examples.google_down ++
        GoogleVolumes ("isbn:" +:+ "9780306406157")
          (CacheView.api_key Examples.google_down) :: rest /\
    (Book.source book = "google-books" <-> rest = []).
Proof.
  exact (resolved_record_fields "9780306406157" None (VBook Examples.book)
           Examples.google_down _ eq_refl eq_refl eq_refl).
Defined.

End Resolution.

Section CacheMore.
Import World ResolverView.

(** A put that runs alone, no other call writing the cache between its read
    and its write, leaves the answers of the cache for every other ISBN as
    they were.  When the read of the cache is rejected and the write is
    not, the put stores a cache that holds the new entry alone.  (Puts that
    overlap do not keep each other's entries: see [Interleaving.two_puts].) *)
Theorem cache_put_keeps_other_entries
    (isbn isbn' : string) (m : Book.BookMetadata) (w : World) :
  let w1 := (GoogleBooks.cacheBookInfo isbn m w).2 in
  (isbn' <> isbn ->
   (GoogleBooks.getCachedBookInfo isbn' w1).1 = (GoogleBooks.getCachedBookInfo isbn' w).1) /\
  (isbn <> "__proto__" -> local_get_fails w = true -> local_set_fails w = false ->
   local_cache w1 = Some {[ isbn := CacheView.entry_of m (clock w) ]}).
Proof.
  cbv zeta. rewrite google_cacheBookInfo_put. cbn [snd]. split.
  - intros Hne. rewrite !google_getCachedBookInfo_lookup. cbn [fst]. f_equal.
    unfold CacheView.lookup, CacheView.put.
    destruct (local_set_fails w); [reflexivity|].
    unfold CacheView.stored at 1. cbn.
    change (if local_get_fails w then ∅ else default ∅ (local_cache w))
      with (CacheView.stored w).
    destruct (local_get_fails w) eqn:Hg.
    + unfold CacheView.stored. rewrite Hg. reflexivity.
    + unfold obj_set. destruct (bool_decide _); [reflexivity|].
      now rewrite lookup_insert_ne by congruence.
  - intros Hk Hg Hs. unfold CacheView.put. rewrite Hs, (obj_set_insert _ _ _ Hk).
    unfold CacheView.stored. rewrite Hg. reflexivity.
Qed.

Lemma cache_put_keeps_other_entries_witness :
  (GoogleBooks.getCachedBookInfo "9780306406157"
     (GoogleBooks.cacheBookInfo "0306406152" Examples.book MoreExamples.cached).2).1
  = (GoogleBooks.getCachedBookInfo "9780306406157" MoreExamples.cached).1.
Proof.
  refine (proj1 (cache_put_keeps_other_entries "0306406152" "9780306406157"
                   Examples.book MoreExamples.cached) _).
  discriminate.
Defined.

(** [cacheBookInfo] is its read of the cache followed by [write_back]. *)
Lemma cacheBookInfo_steps isbn m w :
  GoogleBooks.cacheBookInfo isbn m w
  = (let! cache := Storage.getLocalStorage ∅ in Interleaving.write_back isbn m cache) w.
Proof.
  unfold GoogleBooks.cacheBookInfo, Interleaving.write_back, try_catch, bind.
  rewrite getLocalStorage_stored. reflexivity.
Qed.

Lemma write_back_put isbn m c w :
  isbn <> "__proto__" -> local_set_fails w = false ->
  Interleaving.write_back isbn m c w
  = (Ok tt, set_local_cache (Some (<[isbn := CacheView.entry_of m (clock w)]> c)) w).
Proof.
  intros Hk Hs.
  unfold Interleaving.write_back, try_catch, bind, Date_now, Storage.setLocalStorage,
    try_catch, chrome_storage_local_set.
  rewrite Hs, (obj_set_insert _ _ _ Hk). reflexivity.
Qed.

(** Two puts that overlap lose an entry.  [cacheBookInfo] is a read of the
    whole cache followed, after a wait, by the write of the copy read with
    one entry set.  When the reads of two puts are both answered before
    either write is made, the second write stores the cache as it was
    before the puts with the second entry alone: for the first ISBN the
    cache then answers what it answered before, as if the first put had not
    been made.  The same two puts made one after the other keep both
    entries. *)
Theorem interleaved_puts_lose_an_entry
    (isbn1 isbn2 : string) (m1 m2 : Book.BookMetadata) (w : World) :
  isbn1 <> isbn2 -> isbn1 <> "__proto__" -> isbn2 <> "__proto__" ->
  local_get_fails w = false -> local_set_fails w = false ->
  let w2 := (Interleaving.two_puts isbn1 m1 isbn2 m2 w).2 in
  let w2' := (GoogleBooks.cacheBookInfo isbn2 m2
                (GoogleBooks.cacheBookInfo isbn1 m1 w).2).2 in
  (forall isbn m w0,
     GoogleBooks.cacheBookInfo isbn m w0
     = (let! cache := Storage.getLocalStorage ∅ in
        Interleaving.write_back isbn m cache) w0) /\
  local_cache w2
  = Some (<[isbn2 := CacheView.entry_of m2 (clock w)]> (default ∅ (local_cache w))) /\
  CacheView.lookup isbn1 w2 = CacheView.lookup isbn1 w /\
  CacheView.lookup isbn2 w2 = Some (VBook m2) /\
  CacheView.lookup isbn1 w2' = Some (VBook m1) /\
  CacheView.lookup isbn2 w2' = Some (VBook m2).
Proof.
  intros Hne Hk1 Hk2 Hg Hs. cbv zeta.
  split; [exact cacheBookInfo_steps|].
  assert (Hw2 : (Interleaving.two_puts isbn1 m1 isbn2 m2 w).2
                = set_local_cache
                    (Some (<[isbn2 := CacheView.entry_of m2 (clock w)]>
                             (CacheView.stored w))) w).
  { unfold Interleaving.two_puts, bind. rewrite !getLocalStorage_stored.
    rewrite (write_back_put isbn1 m1 _ w Hk1 Hs).
    rewrite write_back_put by assumption. reflexivity. }
  rewrite Hw2.
  assert (Hst : CacheView.stored w = default ∅ (local_cache w))
    by (unfold CacheView.stored; now rewrite Hg).
  split; [now rewrite Hst|].
  assert (Hstored : CacheView.stored
                      (set_local_cache
                         (Some (<[isbn2 := CacheView.entry_of m2 (clock w)]>
                                  (CacheView.stored w))) w)
                    = <[isbn2 := CacheView.entry_of m2 (clock w)]> (CacheView.stored w)).
  { unfold CacheView.stored at 1. cbn. now rewrite Hg. }
  split; [|split].
  - unfold CacheView.lookup. rewrite Hstored.
    now rewrite lookup_insert_ne by congruence.
  - unfold CacheView.lookup. rewrite Hstored, lookup_insert_eq.
    change (clock (set_local_cache _ w)) with (clock w).
    now rewrite expired_entry_of, Z.sub_diag.
  - rewrite !google_cacheBookInfo_put. cbn [snd].
    pose proof (stored_put isbn1 m1 w Hk1 Hg Hs) as Hst1.
    assert (Hg1 : local_get_fails (CacheView.put isbn1 m1 w) = false)
      by (unfold CacheView.put; rewrite Hs; exact Hg).
    assert (Hs1 : local_set_fails (CacheView.put isbn1 m1 w) = false)
      by (unfold CacheView.put; rewrite Hs; exact Hs).
    assert (Hc1 : clock (CacheView.put isbn1 m1 w) = clock w)
      by (unfold CacheView.put; now rewrite Hs).
    pose proof (stored_put isbn2 m2 _ Hk2 Hg1 Hs1) as Hst2.
    rewrite Hst1, Hc1 in Hst2.
    assert (Hc2 : clock (CacheView.put isbn2 m2 (CacheView.put isbn1 m1 w)) = clock w)
      by (unfold CacheView.put at 1; rewrite Hs1; exact Hc1).
    unfold CacheView.lookup. rewrite Hst2, Hc2. split.
    + rewrite lookup_insert_ne by congruence. rewrite lookup_insert_eq.
      now rewrite expired_entry_of, Z.sub_diag.
    + rewrite lookup_insert_eq. now rewrite expired_entry_of, Z.sub_diag.
Qed.

Lemma interleaved_puts_lose_an_entry_witness :
  let w2 := (Interleaving.two_puts "0306406152" Examples.book
               "9780306406157" Examples.book Examples.offline).2 in
  CacheView.lookup "0306406152" w2 = CacheView.lookup "0306406152" Examples.offline /\
  CacheView.lookup "9780306406157" w2 = Some (VBook Examples.book).
Proof.
  cbv zeta.
  destruct (interleaved_puts_lose_an_entry "0306406152" "9780306406157"
              Examples.book Examples.book Examples.offline)
    as (_ & _ & H1 & H2 & _); [discriminate | discriminate | discriminate
                              | reflexivity | reflexivity |].
  split; [exact H1 | exact H2].
Defined.

(** [clearCache] never throws and makes no request.  When the removal is
    not rejected, the key of the cache is unset and the cache of both
    providers answers [null] for every ISBN; when it is rejected, nothing
    changes. *)
Theorem clearCache_empties_cache (rejects : bool) (isbn : string) (w : World) :
  let w1 := (StorageMore.clearCache rejects w).2 in
  (StorageMore.clearCache rejects w).1 = Ok tt /\
  requests w1 = requests w /\
  (rejects = true -> w1 = w) /\
  (rejects = false ->
   local_cache w1 = None /\
   GoogleBooks.getCachedBookInfo isbn w1 = (Ok None, w1) /\
   OpenLibrary.getCachedBookInfo isbn w1 = (Ok None, w1)).
Proof.
  cbv zeta. unfold StorageMore.clearCache, StorageMore.chrome_storage_local_remove,
    try_catch, ret.
  destruct rejects; cbn [fst snd]; repeat split; try discriminate.
  - rewrite google_getCachedBookInfo_lookup. unfold CacheView.lookup, CacheView.stored.
    cbn. destruct (local_get_fails w); now rewrite lookup_empty.
  - rewrite open_library_getCachedBookInfo_lookup.
    unfold CacheView.lookup, CacheView.stored.
    cbn. destruct (local_get_fails w); now rewrite lookup_empty.
Qed.

Lemma clearCache_empties_cache_witness :
  let w1 := (StorageMore.clearCache false MoreExamples.cached).2 in
  local_cache MoreExamples.cached <> None /\
  local_cache w1 = None /\
  GoogleBooks.getCachedBookInfo "9780306406157" w1 = (Ok None, w1) /\
  OpenLibrary.getCachedBookInfo "9780306406157" w1 = (Ok None, w1).
Proof.
  split; [discriminate|].
  exact (proj2 (proj2 (proj2 (clearCache_empties_cache false "9780306406157"
                                MoreExamples.cached))) eq_refl).
Defined.

End CacheMore.

Section NoCache.
Import World ResolverView.

(** Without the cache check the provider goes to the network at once. *)
Lemma google_fetchBookInfo_no_cache isbn w :
  GoogleBooks.fetchBookInfo isbn false w =
  let q := "isbn:" +:+ isbn in
  let key := CacheView.api_key w in
  let w' := log_request (GoogleVolumes q key) w in
  match google_books w q key with
  | Http true _ (Some data) =>
      match GoogleJson.items data with
      | Some (item :: _) =>
          let book := GoogleBooks.parseGoogleBooksResponse item isbn in
          (Ok (Some (VBook book)), CacheView.put isbn book w')
      | _ => (Ok None, w')
      end
  | _ => (Ok None, w')
  end.
Proof.
  unfold GoogleBooks.fetchBookInfo, try_catch, bind. cbn [andb ret].
  destruct (getSyncStorage_api_key w) as (apiKey & -> & Hkey). rewrite Hkey.
  unfold fetch. cbv zeta.
  destruct (google_books w _ _) as [e|ok status body]; [reflexivity|].
  destruct ok; cbn [negb]; [|reflexivity].
  destruct body as [data|]; [|reflexivity]. cbn [json ret].
  destruct (GoogleJson.items data) as [[|item l]|]; try reflexivity.
  now rewrite google_cacheBookInfo_put.
Qed.

(** [fetchBookInfo(isbn, false)] of Google Books does not read the cache: it
    always returns a value after exactly one request, and it is what
    [fetchBookInfo(isbn)] does when the cache has no answer. *)
Theorem fetchBookInfo_without_cache (isbn : string) (w : World) :
  (exists r w1,
     GoogleBooks.fetchBookInfo isbn false w = (Ok r, w1) /\
     requests w1 = requests w ++
       [GoogleVolumes ("isbn:" +:+ isbn) (CacheView.api_key w)]) /\
  (forall cached,
     GoogleBooks.getCachedBookInfo isbn w = (Ok cached, w) -> truthy cached = false ->
     GoogleBooks.fetchBookInfo isbn true w = GoogleBooks.fetchBookInfo isbn false w).
Proof.
  split.
  - rewrite google_fetchBookInfo_no_cache. cbv zeta.
    destruct (google_books w _ _) as [e|[] status [data|]];
      [| destruct (GoogleJson.items data) as [[|item l]|] | | |];
      eexists _, _; (split; [reflexivity|]); try reflexivity.
    unfold CacheView.put. destruct (local_set_fails _); reflexivity.
  - intros cached Hc Ht. rewrite google_getCachedBookInfo_lookup in Hc.
    injection Hc as <-.
    now rewrite google_fetchBookInfo_eq, google_fetchBookInfo_no_cache, Ht.
Qed.

Lemma fetchBookInfo_without_cache_witness :
  GoogleBooks.fetchBookInfo "9780306406157" true Examples.google_down
  = GoogleBooks.fetchBookInfo "9780306406157" false Examples.google_down.
Proof.
  exact (proj2 (fetchBookInfo_without_cache "9780306406157" Examples.google_down)
           None eq_refl eq_refl).
Defined.

End NoCache.

Section DetectedBooks.
Import World ResolverView.

Lemma requests_put isbn book w : requests (CacheView.put isbn book w) = requests w.
Proof. unfold CacheView.put. now destruct (local_set_fails w). Qed.

Lemma google_fetchBookInfo_log isbn w r w1 :
  GoogleBooks.fetchBookInfo isbn true w = (Ok r, w1) ->
  exists rest, requests w1 = requests w ++ rest.
Proof.
  rewrite google_fetchBookInfo_eq. cbv zeta.
  destruct (truthy _); [intros [= _ <-]; exists []; now rewrite app_nil_r|].
  destruct (google_books w _ _) as [e|[] status [data|]];
    [| destruct (GoogleJson.items data) as [[|item l]|] | | |];
    intros [= _ <-]; rewrite ?requests_put; eexists; reflexivity.
Qed.

Lemma open_library_fetchBookInfo_log isbn w r w1 :
  OpenLibrary.fetchBookInfo isbn true w = (Ok r, w1) ->
  exists rest, requests w1 = requests w ++ rest.
Proof.
  destruct (truthy (CacheView.lookup isbn w)) eqn:Ht.
  - rewrite open_library_fetchBookInfo_eq, Ht. intros [= _ <-].
    exists []. now rewrite app_nil_r.
  - destruct (open_library_fetchBookInfo_requests isbn w Ht) as (r2 & w2 & rest & H & Hr).
    rewrite H. intros [= _ <-]. eauto.
Qed.

(** A resolution returns a truthy book or the failure "Book metadata not
    found"; the log of requests only grows. *)
Lemma handleFetchBookInfo_cases isbn w :
  exists r w1 rest,
    ServiceWorker.handleFetchBookInfo isbn w = (Ok r, w1) /\
    requests w1 = requests w ++ rest /\
    ((exists v, r = ServiceWorker.FetchSuccess v /\ truthy (Some v) = true) \/
     r = ServiceWorker.FetchFailure "Book metadata not found" isbn).
Proof.
  destruct (google_fetchBookInfo_total isbn true w) as ([v1|] & w' & H1).
  - destruct (google_fetchBookInfo_log _ _ _ _ H1) as (rest & Hr).
    exists (ServiceWorker.FetchSuccess v1), w', rest.
    split; [exact (handleFetchBookInfo_primary _ _ _ _ H1)|]. split; [exact Hr|].
    left. exists v1. split; [reflexivity|]. exact (google_fetchBookInfo_truthy _ _ _ _ H1).
  - destruct (google_fetchBookInfo_log _ _ _ _ H1) as (rest1 & Hr1).
    destruct (open_library_fetchBookInfo_total isbn true w') as (r2 & w2 & H2).
    destruct (open_library_fetchBookInfo_log _ _ _ _ H2) as (rest2 & Hr2).
    eexists _, w2, (rest1 ++ rest2).
    split; [exact (handleFetchBookInfo_fallback _ _ _ _ _ H1 H2)|].
    split; [now rewrite Hr2, Hr1, app_assoc|].
    destruct r2 as [v2|]; [left|now right].
    exists v2. split; [reflexivity|]. exact (open_library_fetchBookInfo_truthy _ _ _ _ H2).
Qed.

Lemma detectedBook_cases isbn w :
  exists b w1 rest,
    ServiceWorker.detectedBook isbn w = (Ok b, w1) /\
    requests w1 = requests w ++ rest /\ shown_for isbn b.
Proof.
  destruct (handleFetchBookInfo_cases isbn w) as (r & w1 & rest & H & Hr & Hc).
  unfold ServiceWorker.detectedBook, bind. rewrite H.
  destruct Hc as [(v & -> & Hv) | ->].
  - exists v, w1, rest. repeat split; trivial. now right.
  - eexists _, w1, rest. repeat split; trivial. now left.
Qed.

Lemma all_detectedBook isbns : forall w,
  exists books w1 rest,
    ServiceWorker.all ServiceWorker.detectedBook isbns w = (Ok books, w1) /\
    requests w1 = requests w ++ rest /\ Forall2 shown_for isbns books.
Proof.
  induction isbns as [|isbn isbns IH]; intros w.
  - exists [], w, []. split; [reflexivity|]. split; [now rewrite app_nil_r|constructor].
  - destruct (detectedBook_cases isbn w) as (b & w1 & rest1 & Hb & Hr1 & Hs).
    destruct (IH w1) as (books & w2 & rest2 & Hbs & Hr2 & Hall).
    exists (b :: books), w2, (rest1 ++ rest2).
    split; [|split; [now rewrite Hr2, Hr1, app_assoc|now constructor]].
    cbn [ServiceWorker.all]. unfold bind. rewrite Hb, Hbs. reflexivity.
Qed.

Lemma handleGetDetectedBooks_tab id w :
  id <> 0 ->
  ServiceWorker.handleGetDetectedBooks (Some id) w
  = match ServiceWorker.all ServiceWorker.detectedBook
            (default [] (tabISBNs w !! id)) w with
    | (Ok books, w1) => (Ok (ServiceWorker.BooksSuccess books), w1)
    | (Throw e, w1) => (Ok (ServiceWorker.BooksFailure e), w1)
    end.
Proof.
  intros Hid. apply Z.eqb_neq in Hid.
  unfold ServiceWorker.handleGetDetectedBooks, try_catch, bind, ret,
    ServiceWorker.tab_falsy.
  rewrite Hid. cbv beta iota. rewrite Hid.
  destruct (ServiceWorker.all _ _ w) as [[books|e] w1]; reflexivity.
Qed.




End DetectedBooks.
(** ** The content script *)

Section Extraction.

(** [extractISBNs] as a list of first occurrences. *)
Lemma extractISBNs_first_occurrences text :
  Isbn.extractISBNs text
  = IsbnSpec.first_occurrences
      (filter (fun c => String.length c = 13%nat /\ Isbn.isValidISBN c = true)
         (map (Isbn.candidate "-13") (Regex.matchAll true Constants.ISBN13 text)) ++
       filter (fun c => String.length c = 10%nat /\ Isbn.isValidISBN c = true)
         (map (Isbn.candidate "-10") (Regex.matchAll true Constants.ISBN10 text))).
Proof.
  unfold Isbn.extractISBNs. cbv zeta.
  rewrite !fold_accept, <- fold_left_app, set_add_fold. cbn [app].
  apply filter_all. intros y _. apply not_elem_of_nil.
Qed.

Lemma extractISBNs_NoDup text : NoDup (Isbn.extractISBNs text).
Proof. rewrite extractISBNs_first_occurrences. apply first_occurrences_NoDup. Qed.

Lemma extractISBNs_valid text x :
  x ∈ Isbn.extractISBNs text ->
  Isbn.isValidISBN x = true /\ Isbn.normalizeISBN x = x.
Proof.
  rewrite extractISBNs_first_occurrences, first_occurrences_elem, elem_of_app.
  intros [Hx | Hx]; apply list_elem_of_filter in Hx as [[_ Hv] Hm];
    (split; [exact Hv|]);
    apply list_elem_of_In, in_map_iff in Hm as (m & <- & _);
    apply normalizeISBN_idem.
Qed.

Lemma first_occurrences_NoDup_id l : NoDup l -> IsbnSpec.first_occurrences l = l.
Proof.
  induction 1 as [|x l Hx Hl IH]; cbn [IsbnSpec.first_occurrences]; [reflexivity|].
  rewrite IH. f_equal. apply filter_all. intros y Hy ->. contradiction.
Qed.

(** Adding new, distinct elements to a set appends them. *)
Lemma set_add_fold_new (l acc : list string) :
  NoDup l -> (forall x, x ∈ l -> x ∉ acc) ->
  fold_left (fun s x => Js.set_add x s) l acc = acc ++ l.
Proof.
  intros Hl Hnew. rewrite set_add_fold, (first_occurrences_NoDup_id l Hl).
  f_equal. now apply filter_all.
Qed.

Lemma filter_none (acc l : list string) :
  (forall x, x ∈ l -> x ∈ acc) -> filter (fun x => x ∉ acc) l = [].
Proof.
  induction l as [|y l IH]; intros H; [reflexivity|].
  rewrite filter_cons_False.
  - apply IH. intros x Hx. apply H. now right.
  - intros Hn. apply Hn, H. left.
Qed.

End Extraction.

Section ContentScript.
Import ContentScript.

Lemma scanForISBNs_eq text href p :
  isScanning p = false ->
  scanForISBNs (Some text) href p =
  let new := filter (fun x => x ∉ foundISBNs p)
               (Isbn.extractISBNs (World.or_string text EmptyString)) in
  {| foundISBNs := foundISBNs p ++ new;
     isScanning := false;
     sent := sent p ++
             match new with
             | [] => []
             | _ => [{| isbns := foundISBNs p ++ new; url := href |}]
             end |}.
Proof.
  intros Hs. unfold scanForISBNs. rewrite Hs. cbv zeta.
  set (new := filter _ _).
  assert (Hadd : fold_left (fun s isbn => Js.set_add isbn s) new (foundISBNs p)
                 = foundISBNs p ++ new).
  { apply set_add_fold_new.
    - apply NoDup_filter, extractISBNs_NoDup.
    - intros x Hx. now apply list_elem_of_filter in Hx as [Hx _]. }
  rewrite Hadd. destruct new as [|x new]; cbn [length Nat.ltb Nat.leb].
  - now rewrite !app_nil_r.
  - reflexivity.
Qed.

(** A scan that is not nested adds to [foundISBNs] the ISBNs of the text it
    has not yet, after the old ones; it sends one message when there is a
    new ISBN, and none otherwise; the message lists all the ISBNs found so
    far.  A second scan of the same text changes nothing and sends
    nothing. *)
Theorem scanForISBNs_step (text : option string) (href : string) (p : Page) :
  isScanning p = false ->
  let found := Isbn.extractISBNs (World.or_string text EmptyString) in
  let new := filter (fun x => x ∉ foundISBNs p) found in
  let p1 := scanForISBNs (Some text) href p in
  foundISBNs p1 = foundISBNs p ++ new /\
  (forall x, x ∈ foundISBNs p1 <-> x ∈ foundISBNs p \/ x ∈ found) /\
  isScanning p1 = false /\
  sent p1 = sent p ++
            match new with
            | [] => []
            | _ => [{| isbns := foundISBNs p1; url := href |}]
            end /\
  (forall href', scanForISBNs (Some text) href' p1 = p1).
Proof.
  intros Hs. cbv zeta. rewrite (scanForISBNs_eq text href p Hs). cbv zeta.
  set (found := Isbn.extractISBNs _). set (new := filter _ found).
  cbn [foundISBNs isScanning sent].
  assert (Hin : forall x, x ∈ foundISBNs p ++ new <-> x ∈ foundISBNs p \/ x ∈ found).
  { intros x. rewrite elem_of_app. unfold new. rewrite list_elem_of_filter.
    destruct (decide (x ∈ foundISBNs p)); tauto. }
  split; [reflexivity|]. split; [exact Hin|]. split; [reflexivity|].
  split; [reflexivity|]. intros href'.
  rewrite scanForISBNs_eq by reflexivity. cbv zeta. cbn [foundISBNs isScanning sent].
  fold found.
  replace (filter (fun x => x ∉ foundISBNs p ++ new) found) with (@nil string).
  - now rewrite !app_nil_r.
  - symmetry. apply filter_none. intros x Hx. apply Hin. now right.
Qed.

Lemma scanForISBNs_step_witness :
  let p1 := scanForISBNs (Some (Some "ISBN 978-0-306-40615-7"))
              "https://example.org/book" loaded in
  foundISBNs p1 = ["9780306406157"] /\
  sent p1 = [{| isbns := ["9780306406157"]; url := "https://example.org/book" |}] /\
  (forall href', scanForISBNs (Some (Some "ISBN 978-0-306-40615-7")) href' p1 = p1).
Proof.
  cbv zeta.
  destruct (scanForISBNs_step (Some "ISBN 978-0-306-40615-7")
              "https://example.org/book" loaded eq_refl) as (H1 & _ & _ & H2 & H3).
  split; [|split; [|exact H3]].
  - rewrite H1. vm_compute. reflexivity.
  - rewrite H2. vm_compute. reflexivity.
Defined.

Lemma scanForISBNs_ok r href p : page_ok p -> page_ok (scanForISBNs r href p).
Proof.
  intros (Hs & Hnd & Hv & Hm). destruct r as [text|].
  - rewrite (scanForISBNs_eq text href p Hs). cbv zeta.
    set (found := Isbn.extractISBNs _). set (new := filter _ found).
    assert (Hnd' : NoDup (foundISBNs p ++ new)).
    { apply NoDup_app. split; [exact Hnd|]. split.
      - intros x Hx Hx'. now apply list_elem_of_filter in Hx' as [Hx' _].
      - apply NoDup_filter, extractISBNs_NoDup. }
    split; [reflexivity|]. cbn [foundISBNs sent]. split; [exact Hnd'|]. split.
    + apply Forall_app. split; [exact Hv|]. apply Forall_forall. intros x Hx.
      apply list_elem_of_filter in Hx as [_ Hx]. exact (extractISBNs_valid _ _ Hx).
    + apply Forall_app. split; [exact Hm|].
      destruct new as [|x new']; constructor; [|constructor].
      cbn [isbns]. split; [|exact Hnd'].
      now destruct (foundISBNs p).
  - unfold scanForISBNs. rewrite Hs. repeat split; assumption.
Qed.

Lemma handleMessage_ok type body href p :
  page_ok p -> page_ok (handleMessage type body href p).2.
Proof.
  intros Hp. unfold handleMessage.
  destruct (bool_decide (type = Some "SCAN_PAGE")); cbn [snd].
  - apply scanForISBNs_ok. destruct Hp as (Hs & _ & _ & Hm).
    repeat split; cbn; trivial; constructor.
  - now destruct (bool_decide _).
Qed.

(** Whatever scans and messages the content script has handled since it
    was loaded: no scan is running (so the guard [isScanning] never stops a
    scan), [foundISBNs] has no duplicate and holds only normalised ISBNs
    that [isValidISBN] accepts, and every message sent lists at least one
    ISBN, and none twice. *)
Theorem content_script_invariants (events : list event) :
  let p := fold_left (fun p e => handle e p) events loaded in
  isScanning p = false /\
  NoDup (foundISBNs p) /\
  Forall (fun x => Isbn.isValidISBN x = true /\ Isbn.normalizeISBN x = x) (foundISBNs p) /\
  Forall (fun m => isbns m <> [] /\ NoDup (isbns m)) (sent p).
Proof.
  cbv zeta.
  assert (H : forall p, page_ok p ->
            page_ok (fold_left (fun p e => handle e p) events p)).
  { induction events as [|e events IH]; intros p Hp; [exact Hp|].
    cbn [fold_left]. apply IH.
    destruct e; cbn [handle]; auto using scanForISBNs_ok, handleMessage_ok. }
  apply (H loaded). repeat split; cbn; constructor.
Qed.

(** The message [SCAN_PAGE] empties [foundISBNs] and scans again: the
    response counts the ISBNs of the present text, which are all reported
    again in one message, if there is any.  [GET_DETECTED_BOOKS] answers
    the ISBNs found and changes nothing; any other message gets no
    response. *)
Theorem scan_page_counts
    (type : option string) (body : option string) (href : string) (p : Page) :
  let found := Isbn.extractISBNs (World.or_string body EmptyString) in
  (isScanning p = false ->
   let '(response, p1) := handleMessage (Some "SCAN_PAGE") (Some body) href p in
   response = Some (Scanned (length found)) /\ foundISBNs p1 = found /\
   sent p1 = sent p ++
             match found with
             | [] => []
             | _ => [{| isbns := found; url := href |}]
             end) /\
  handleMessage (Some "GET_DETECTED_BOOKS") (Some body) href p
  = (Some (DetectedISBNs (foundISBNs p)), p) /\
  (type <> Some "SCAN_PAGE" -> type <> Some "GET_DETECTED_BOOKS" ->
   handleMessage type (Some body) href p = (None, p)).
Proof.
  cbv zeta. split; [|split].
  - intros Hs. unfold handleMessage.
    rewrite bool_decide_eq_true_2 by reflexivity.
    rewrite scanForISBNs_eq by exact Hs. cbv zeta. cbn [foundISBNs sent app].
    rewrite filter_all by (intros y _; apply not_elem_of_nil).
    repeat split.
  - unfold handleMessage. rewrite bool_decide_eq_false_2 by discriminate.
    now rewrite bool_decide_eq_true_2.
  - intros H1 H2. unfold handleMessage. now rewrite !bool_decide_eq_false_2.
Qed.

Lemma scan_page_counts_witness :
  let found := Isbn.extractISBNs (World.or_string (Some "ISBN 0-306-40615-2") EmptyString) in
  let '(response, p1) :=
    handleMessage (Some "SCAN_PAGE") (Some (Some "ISBN 0-306-40615-2"))
      "https://example.org/" loaded in
  response = Some (Scanned (length found)) /\ foundISBNs p1 = found /\
  sent p1 = sent loaded ++
            match found with
            | [] => []
            | _ => [{| isbns := found; url := "https://example.org/" |}]
            end.
Proof.
  exact (proj1 (scan_page_counts None (Some "ISBN 0-306-40615-2")
                  "https://example.org/" loaded) eq_refl).
Defined.

End ContentScript.

(** ** The tabs of the service worker *)

Section TabTracking.
Import World ResolverView TabTracking.

Lemma updateBadge_text id n s :
  badgeText (updateBadge id (Z.of_nat n) s) = <[id := badge_for n]> (badgeText s).
Proof.
  unfold updateBadge, badge_for. destruct n as [|n]; [reflexivity|].
  replace (0 <? Z.of_nat (S n)) with true by (symmetry; apply Z.ltb_lt; lia).
  reflexivity.
Qed.

Lemma updateBadge_world id count s : world (updateBadge id count s) = world s.
Proof. unfold updateBadge. now destruct (0 <? count). Qed.

Lemma handleISBNsDetected_tab isbns id s :
  id <> 0 ->
  tabISBNs (world (handleISBNsDetected isbns (Some id) s))
    = <[id := isbns]> (tabISBNs (world s)) /\
  badgeText (handleISBNsDetected isbns (Some id) s)
    = <[id := badge_for (length isbns)]> (badgeText s).
Proof.
  intros Hid. unfold handleISBNsDetected, ServiceWorker.tab_falsy.
  replace (id =? 0) with false by (symmetry; apply Z.eqb_neq; exact Hid).
  cbv zeta. now rewrite updateBadge_world, updateBadge_text.
Qed.

Lemma handle_badge_in_step e s : badge_in_step s -> badge_in_step (handle e s).
Proof.
  intros Hs. destruct e as [isbns [id|]|id|id status url]; cbn [handle]; trivial.
  - destruct (Z.eq_dec id 0) as [->|Hid]; [exact Hs|].
    destruct (handleISBNsDetected_tab isbns id s Hid) as [Ht Hb].
    intros id' l. rewrite Ht, Hb. destruct (Z.eq_dec id' id) as [->|Hne].
    + rewrite !lookup_insert_eq. now intros [= <-].
    + rewrite !lookup_insert_ne by congruence. apply Hs.
  - intros id' l. unfold handleTabClosed. cbn.
    destruct (Z.eq_dec id' id) as [->|Hne].
    + now rewrite lookup_delete_eq.
    + rewrite lookup_delete_ne by congruence. apply Hs.
  - unfold handleTabUpdated. destruct (_ && _); [|exact Hs].
    intros id' l. change 0 with (Z.of_nat 0).
    rewrite updateBadge_world, updateBadge_text. cbn.
    destruct (Z.eq_dec id' id) as [->|Hne].
    + now rewrite lookup_delete_eq.
    + rewrite lookup_delete_ne, lookup_insert_ne by congruence. apply Hs.
Qed.

Lemma handle_same_services e s : same_services (world (handle e s)) (world s).
Proof.
  destruct e as [isbns [id|]|id|id status url]; cbn [handle]; try (repeat split; fail).
  - unfold handleISBNsDetected. destruct (ServiceWorker.tab_falsy _); [repeat split|].
    cbv zeta. rewrite updateBadge_world. repeat split.
  - unfold handleTabUpdated. destruct (_ && _); [|repeat split].
    rewrite updateBadge_world. repeat split.
Qed.

(** Whatever events the service worker has handled since its start, the
    badge of every tab with recorded ISBNs shows their number (no text for
    none); the events touch neither the clock, the cache, the log of
    requests nor the active tab. *)
Theorem badge_shows_number_of_isbns (w : World) (events : list event) :
  let s := fold_left (fun s e => handle e s) events (start w) in
  (forall id isbns,
     tabISBNs (world s) !! id = Some isbns ->
     badgeText s !! id = Some (badge_for (length isbns))) /\
  clock (world s) = clock w /\ local_cache (world s) = local_cache w /\
  requests (world s) = requests w /\ active_tab (world s) = active_tab w.
Proof.
  cbv zeta.
  assert (H : forall s,
            badge_in_step s ->
            badge_in_step (fold_left (fun s e => handle e s) events s) /\
            same_services (world (fold_left (fun s e => handle e s) events s)) (world s)).
  { induction events as [|e events IH]; intros s Hs; [split; [exact Hs|repeat split]|].
    cbn [fold_left]. destruct (IH (handle e s) (handle_badge_in_step e s Hs)) as [H1 H2].
    split; [exact H1|].
    destruct H2 as (A1 & A2 & A3 & A4), (handle_same_services e s) as (B1 & B2 & B3 & B4).
    repeat split; congruence. }
  destruct (H (start w)) as [H1 H2]; [intros id l Hl; discriminate Hl|].
  split; [exact H1|exact H2].
Qed.

(** After [handleISBNsDetected] for a tab, the tab has the ISBNs of the
    message (they replace the ones it had), its badge shows their number,
    the other tabs are as they were, and [handleGetDetectedBooks] for the
    tab returns one book for each of them.  A message without tab id, or
    with the id 0, changes nothing. *)
Theorem detected_isbns_are_resolved (isbns : list string) (id : Z) (s : Worker) :
  id <> 0 ->
  let s1 := handleISBNsDetected isbns (Some id) s in
  tabISBNs (world s1) !! id = Some isbns /\
  badgeText s1 !! id = Some (badge_for (length isbns)) /\
  (forall id', id' <> id ->
     tabISBNs (world s1) !! id' = tabISBNs (world s) !! id' /\
     badgeText s1 !! id' = badgeText s !! id') /\
  (exists books w1,
     ServiceWorker.handleGetDetectedBooks (Some id) (world s1)
     = (Ok (ServiceWorker.BooksSuccess books), w1) /\
     Forall2 shown_for isbns books) /\
  handleISBNsDetected isbns None s = s /\
  handleISBNsDetected isbns (Some 0) s = s.
Proof.
  intros Hid. cbv zeta.
  destruct (handleISBNsDetected_tab isbns id s Hid) as [Ht Hb].
  split; [now rewrite Ht, lookup_insert_eq|].
  split; [now rewrite Hb, lookup_insert_eq|].
  split; [intros id' Hne; now rewrite Ht, Hb, !lookup_insert_ne by congruence|].
  split; [|split; reflexivity].
  rewrite (handleGetDetectedBooks_tab id _ Hid), Ht, lookup_insert_eq.
  change (default [] (Some isbns)) with isbns.
  destruct (all_detectedBook isbns (world (handleISBNsDetected isbns (Some id) s)))
    as (books & w1 & rest & -> & _ & Hall).
  eauto.
Qed.

Lemma detected_isbns_are_resolved_witness :
  let s1 := handleISBNsDetected ["9780306406157"] (Some 7) (start Examples.google_down) in
  tabISBNs (world s1) !! 7 = Some ["9780306406157"] /\
  badgeText s1 !! 7 = Some "1" /\
  (ServiceWorker.handleGetDetectedBooks (Some 7) (world s1)).1
  = Ok (ServiceWorker.BooksSuccess [VBook Examples.book]).
Proof.
  cbv zeta.
  destruct (detected_isbns_are_resolved ["9780306406157"] 7 (start Examples.google_down))
    as (H1 & H2 & _); [discriminate|].
  split; [exact H1|]. split; [exact H2|]. reflexivity.
Defined.

(** A closed tab has no ISBN any more, and so has a tab that starts loading
    an address, whose badge is emptied too; [handleGetDetectedBooks] then
    returns no book for it and makes no request.  An update that is not the
    start of a navigation changes nothing. *)
Theorem closed_or_navigated_tab_forgets
    (id : Z) (status url : option string) (s : Worker) :
  (let s1 := handleTabClosed id s in
   tabISBNs (world s1) !! id = None /\ badgeText s1 = badgeText s /\
   (id <> 0 ->
    ServiceWorker.handleGetDetectedBooks (Some id) (world s1)
    = (Ok (ServiceWorker.BooksSuccess []), world s1))) /\
  (let s1 := handleTabUpdated id status url s in
   (status = Some "loading" -> or_string url EmptyString <> EmptyString ->
    tabISBNs (world s1) !! id = None /\ badgeText s1 !! id = Some EmptyString /\
    (id <> 0 ->
     ServiceWorker.handleGetDetectedBooks (Some id) (world s1)
     = (Ok (ServiceWorker.BooksSuccess []), world s1))) /\
   (status <> Some "loading" \/ or_string url EmptyString = EmptyString -> s1 = s)).
Proof.
  assert (Hget : forall w, id <> 0 -> tabISBNs w !! id = None ->
            ServiceWorker.handleGetDetectedBooks (Some id) w
            = (Ok (ServiceWorker.BooksSuccess []), w)).
  { intros w Hid Hn. rewrite (handleGetDetectedBooks_tab id w Hid), Hn. reflexivity. }
  cbv zeta. split; [|split].
  - assert (Hn : tabISBNs (world (handleTabClosed id s)) !! id = None)
      by apply lookup_delete_eq.
    split; [exact Hn|]. split; [reflexivity|]. intros Hid. now apply Hget.
  - intros Hst Hurl. unfold handleTabUpdated.
    rewrite bool_decide_eq_true_2, bool_decide_eq_false_2 by assumption. cbn [andb negb].
    assert (Hn : tabISBNs (world (updateBadge id 0
                   (with_tabISBNs (delete id (tabISBNs (world s))) s))) !! id = None)
      by apply lookup_delete_eq.
    split; [exact Hn|]. split; [apply lookup_insert_eq|]. intros Hid. now apply Hget.
  - intros [Hst | Hurl]; unfold handleTabUpdated.
    + now rewrite bool_decide_eq_false_2.
    + rewrite (bool_decide_eq_true_2 (or_string url "" = "")) by exact Hurl.
      now rewrite andb_false_r.
Qed.

Lemma closed_or_navigated_tab_forgets_witness :
  let s := handleISBNsDetected ["9780306406157"] (Some 7) (start Examples.offline) in
  let s1 := handleTabUpdated 7 (Some "loading") (Some "https://example.org/") s in
  tabISBNs (world s) !! 7 = Some ["9780306406157"] /\
  tabISBNs (world s1) !! 7 = None /\ badgeText s1 !! 7 = Some EmptyString /\
  (7 <> 0 ->
   ServiceWorker.handleGetDetectedBooks (Some 7) (world s1)
   = (Ok (ServiceWorker.BooksSuccess []), world s1)).
Proof.
  split; [reflexivity|].
  refine (proj1 (proj2 (closed_or_navigated_tab_forgets 7 (Some "loading")
                          (Some "https://example.org/")
                          (handleISBNsDetected ["9780306406157"] (Some 7)
                             (start Examples.offline)))) eq_refl _).
  discriminate.
Defined.

End TabTracking.

(** ** From the page to the badge *)

Section Delivered.
Import World ContentScript TabTracking Delivery.

Lemma scanForISBNs_reported r href p :
  reported p -> reported (scanForISBNs r href p).
Proof.
  intros [Hs Hl]. destruct r as [text|].
  - rewrite (scanForISBNs_eq text href p Hs). cbv zeta.
    destruct (filter _ _) as [|x new]; split; try reflexivity.
    + cbn [sent foundISBNs]. now rewrite !app_nil_r.
    + cbn [sent foundISBNs]. now rewrite last_snoc.
  - unfold scanForISBNs. rewrite Hs. split; [reflexivity|exact Hl].
Qed.

Lemma scans_reported roots : forall p, reported p -> reported (scans roots p).
Proof.
  induction roots as [|r roots IH]; intros p Hp; [exact Hp|].
  apply (IH (scanForISBNs r.1 r.2 p)), scanForISBNs_reported, Hp.
Qed.

Lemma deliver_last id messages : forall s,
  id <> 0 ->
  tabISBNs (world (deliver id messages s)) !! id
  = match last messages with
    | Some m => Some (isbns m)
    | None => tabISBNs (world s) !! id
    end.
Proof.
  intros s Hid. revert s.
  induction messages as [|m messages IH] using rev_ind; intros s; [reflexivity|].
  unfold deliver. rewrite fold_left_app, last_snoc. cbn [fold_left].
  destruct (handleISBNsDetected_tab (isbns m) id
              (fold_left (fun s m => handleISBNsDetected (isbns m) (Some id) s) messages s)
              Hid) as [Ht _].
  now rewrite Ht, lookup_insert_eq.
Qed.

Lemma start_badge_in_step w : badge_in_step (start w).
Proof. intros i l H. cbn in H. now rewrite lookup_empty in H. Qed.

Lemma deliver_badge_in_step id messages : forall s,
  badge_in_step s -> badge_in_step (deliver id messages s).
Proof.
  induction messages as [|m ms IH]; intros s Hs; [exact Hs|].
  apply IH. exact (handle_badge_in_step (ISBNsDetected (isbns m) (Some id)) s Hs).
Qed.

(** The messages of the scans of a page, delivered in order, keep the
    service worker in step with the page: the ISBNs recorded for the tab are
    those of [foundISBNs], and the badge shows their number. *)
Theorem tab_lists_what_the_page_found
    (roots : list (option (option string) * string)) (id : Z) (w : World) :
  id <> 0 ->
  let p := scans roots loaded in
  let s := deliver id (sent p) (start w) in
  default [] (tabISBNs (world s) !! id) = foundISBNs p /\
  (foundISBNs p <> [] ->
   badgeText s !! id = Some (Js.numberToString (Some (Z.of_nat (length (foundISBNs p)))))).
Proof.
  intros Hid. cbv zeta.
  destruct (scans_reported roots loaded) as [_ Hl]; [now split|].
  set (p := scans roots loaded) in *.
  pose proof (deliver_last id (sent p) (start w) Hid) as Ht.
  assert (Hfound : default [] (tabISBNs (world (deliver id (sent p) (start w))) !! id)
                   = foundISBNs p).
  { rewrite Ht. destruct (last (sent p)) as [m|]; cbn; [exact Hl|now rewrite Hl]. }
  split; [exact Hfound|]. intros Hne.
  assert (Hstep : badge_in_step (deliver id (sent p) (start w)))
    by apply deliver_badge_in_step, start_badge_in_step.
  destruct (last (sent p)) as [m|]; [|contradiction].
  rewrite (Hstep id (isbns m) Ht), Hl.
  now destruct (foundISBNs p).
Qed.

Lemma tab_lists_what_the_page_found_witness :
  let p := scans [(Some (Some "ISBN 0-306-40615-2"), "https://example.org/");
                  (Some (Some "and 9780306406157"), "https://example.org/#more")]
             loaded in
  let s := deliver 7 (sent p) (start Examples.offline) in
  default [] (tabISBNs (world s) !! 7) = foundISBNs p /\
  (foundISBNs p <> [] ->
   badgeText s !! 7 = Some (Js.numberToString (Some (Z.of_nat (length (foundISBNs p)))))).
Proof.
  refine (tab_lists_what_the_page_found
            [(Some (Some "ISBN 0-306-40615-2"), "https://example.org/");
             (Some (Some "and 9780306406157"), "https://example.org/#more")]
            7 Examples.offline _).
  discriminate.
Defined.

(** A rescan asked by [SCAN_PAGE] that finds nothing sends nothing: the
    service worker keeps the list it had. *)
Example scan_page_leaves_stale_list :
  let p := scanForISBNs (Some (Some "ISBN 0-306-40615-2")) "https://example.org/" loaded in
  let '(response, p1) :=
    handleMessage (Some "SCAN_PAGE") (Some (Some "no book here")) "https://example.org/" p in
  response = Some (Scanned 0) /\ foundISBNs p1 = [] /\
  tabISBNs (world (deliver 7 (sent p1) (start Examples.offline))) !! 7
  = Some ["0306406152"].
Proof. vm_compute. repeat split. Qed.

End Delivered.

(** ** The mutation observer *)

Section MutationFacts.
Import Mutations.

Lemma significant_iff nodes :
  significant nodes = true <->
  exists node, node ∈ nodes /\ nodeType node = ELEMENT_NODE /\
    (10 < String.length (World.or_string (innerText node) EmptyString))%nat.
Proof.
  induction nodes as [|n nodes IH]; cbn [significant].
  - split; [discriminate|]. intros (node & H & _). now apply elem_of_nil in H.
  - destruct (nodeType n =? ELEMENT_NODE) eqn:Ht;
      [destruct (10 <? _)%nat eqn:Hl|]; cbn [andb].
    + split; [intros _|reflexivity]. exists n. apply Z.eqb_eq in Ht.
      apply Nat.ltb_lt in Hl. split; [left|]. now split.
    + rewrite IH. apply Nat.ltb_ge in Hl.
      split; intros (node & Hin & Hn & Hlen); exists node.
      * split; [now right|]. now split.
      * apply elem_of_cons in Hin as [-> | Hin]; [lia|]. now split.
    + rewrite IH. apply Z.eqb_neq in Ht.
      split; intros (node & Hin & Hn & Hlen); exists node.
      * split; [now right|]. now split.
      * apply elem_of_cons in Hin as [-> | Hin]; [contradiction|]. now split.
Qed.

Lemma extractISBNs_short text :
  (String.length text < 10)%nat -> Isbn.extractISBNs text = [].
Proof.
  intros H. unfold Isbn.extractISBNs, Regex.matchAll.
  rewrite !matchAll_from_skip; [reflexivity| |].
  - change (min_len Constants.ISBN13) with 13%nat. lia.
  - change (min_len Constants.ISBN10) with 10%nat. lia.
Qed.

(** [handleMutations] asks for a scan exactly when a [childList] mutation
    added an element whose text has more than 10 characters.  A text of
    fewer than 10 characters holds no ISBN; but a valid ISBN-10 written
    without separators has exactly 10, so that an added element whose text
    is this ISBN alone starts no scan. *)
Theorem handleMutations_threshold (mutations : list MutationRecord) (n : string) :
  (handleMutations mutations = true <->
   exists mutation node,
     mutation ∈ mutations /\ type mutation = "childList" /\
     node ∈ addedNodes mutation /\ nodeType node = ELEMENT_NODE /\
     (10 < String.length (World.or_string (innerText node) EmptyString))%nat) /\
  (forall text, (String.length text < 10)%nat -> Isbn.extractISBNs text = []) /\
  (Isbn.validateISBN10Checksum n = true ->
   Isbn.extractISBNs n = [n] /\
   handleMutations
     [{| type := "childList";
         addedNodes := [{| nodeType := ELEMENT_NODE; innerText := Some n |}] |}]
   = false).
Proof.
  split; [|split; [exact extractISBNs_short|]].
  - induction mutations as [|m ms IH]; cbn [handleMutations].
    + split; [discriminate|]. intros (mu & node & H & _). now apply elem_of_nil in H.
    + destruct (bool_decide (type m = "childList")) eqn:Ht;
        [destruct (significant (addedNodes m)) eqn:Hs|].
      * apply bool_decide_eq_true in Ht.
        pose proof (proj1 (significant_iff _) Hs) as (node & Hin & Hn & Hl).
        replace (0 <? length (addedNodes m))%nat with true.
        2:{ symmetry. apply Nat.ltb_lt. destruct (addedNodes m); [|cbn; lia].
            now apply elem_of_nil in Hin. }
        cbn [andb]. split; [intros _|reflexivity].
        exists m, node. split; [left|]. auto.
      * rewrite andb_false_r, IH.
        split; intros (mu & node & Hin & Hty & Hnode & Hn & Hl); exists mu, node.
        -- split; [now right|]. auto.
        -- apply elem_of_cons in Hin as [-> | Hin]; [|auto].
           assert (significant (addedNodes m) = true)
             by (apply significant_iff; eauto).
           congruence.
      * cbn [andb]. rewrite IH. apply bool_decide_eq_false in Ht.
        split; intros (mu & node & Hin & Hty & Hnode & Hn & Hl); exists mu, node.
        -- split; [now right|]. auto.
        -- apply elem_of_cons in Hin as [-> | Hin]; [contradiction|auto].
  - intros Hv.
    assert (Hlen : String.length n = 10%nat)
      by (apply validateISBN10Checksum_iff in Hv; apply Hv).
    destruct (extractISBNs_valid10 n Hv) as (_ & Hfound & _).
    split; [exact Hfound|].
    assert (Htext : World.or_string (Some n) EmptyString = n)
      by (destruct n; [discriminate Hlen|reflexivity]).
    cbn [handleMutations significant type addedNodes nodeType innerText].
    rewrite Htext, Hlen. reflexivity.
Qed.

Lemma handleMutations_threshold_witness :
  Isbn.extractISBNs "0306406152" = ["0306406152"] /\
  handleMutations
    [{| type := "childList";
        addedNodes := [{| nodeType := ELEMENT_NODE; innerText := Some "0306406152" |}] |}]
  = false.
Proof.
  exact (proj2 (proj2 (handleMutations_threshold [] "0306406152")) eq_refl).
Defined.

End MutationFacts.

(** ** The settings *)

Section SettingsFacts.
Import World Settings.

Lemma name_inj k k' : name k = name k' -> k = k'.
Proof. destruct k, k'; cbn; intros H; try reflexivity; discriminate H. Qed.

Ltac settings_lookup :=
  repeat first [rewrite lookup_insert_eq | rewrite lookup_insert_ne by discriminate].

Ltac save_end k :=
  cbn [accepted tail]; unfold saveSettings, andThen, setSyncStorage;
  cbn [set_rejects tail items get_fails fst snd];
  split; [reflexivity|]; split; [reflexivity|]; split;
  [ intros ->; destruct k; unfold getAllSettings;
    cbn [get_fails items field Nat.ltb Nat.leb rank of_form
         autoScan defaultShelf confirmBeforeAdd googleBooksApiKey
         goodreadsApiKey goodreadsApiSecret];
    settings_lookup; reflexivity
  | intros -> Hn; try discriminate Hn; unfold getAllSettings, of_form;
    cbn [get_fails items]; settings_lookup; reflexivity ].

(** Settings are read back as they were saved, as far as they were saved.
    [saveSettings] makes its six writes in a row and stops at the first one
    that is rejected: it shows the message of success exactly when all six
    were accepted, and then [getAllSettings] returns the values of the
    form, [false] and the empty string included.  After a rejected write
    the message of error is shown while the writes made before it stay
    stored: [getAllSettings] returns the values of the form for their keys
    and the former values for the other keys.  A value set under a key is
    what [getSyncStorage] returns for it, the other keys being untouched; a
    rejected [setSyncStorage] throws and stores nothing.  A rejected read
    gives the defaults, and [getAllSettings] and [getSyncStorage] agree on
    every key. *)
Theorem settings_are_read_back (f : Form) (k : key) (d v : setting) (s : Sync) :
  let n := accepted (set_rejects s) 6 in
  let s' := (saveSettings f s).2 in
  (saveSettings f s).1 = bool_decide (n = 6%nat) /\
  get_fails s' = get_fails s /\
  (get_fails s = false ->
   field k (getAllSettings s') =
     if (rank k <? n)%nat then field k (of_form f) else field k (getAllSettings s)) /\
  (get_fails s = false -> n = 6%nat -> getAllSettings s' = of_form f) /\
  (get_fails s = false -> accepted (set_rejects s) 1 = 1%nat ->
   getSyncStorage k d (setSyncStorage k v s).2 = v /\
   (forall k', k' <> k ->
      getSyncStorage k' d (setSyncStorage k v s).2 = getSyncStorage k' d s)) /\
  (accepted (set_rejects s) 1 = 0%nat ->
   (exists e, (setSyncStorage k v s).1 = Throw e) /\
   items (setSyncStorage k v s).2 = items s) /\
  (get_fails s = true ->
   getAllSettings s = defaults /\ getSyncStorage k d s = d) /\
  getSyncStorage k (field k defaults) s = field k (getAllSettings s).
Proof.
  cbv zeta.
  assert (Hread : getSyncStorage k (field k defaults) s = field k (getAllSettings s)).
  { unfold getAllSettings, getSyncStorage. destruct (get_fails s); [reflexivity|].
    destruct k; reflexivity. }
  assert (Hone : get_fails s = false -> accepted (set_rejects s) 1 = 1%nat ->
            getSyncStorage k d (setSyncStorage k v s).2 = v /\
            (forall k', k' <> k ->
               getSyncStorage k' d (setSyncStorage k v s).2 = getSyncStorage k' d s)).
  { intros Hg Ha. unfold getSyncStorage, setSyncStorage.
    destruct (set_rejects s) as [|[|] coming]; try discriminate Ha;
      cbn [snd items get_fails]; rewrite Hg; (split; [now rewrite lookup_insert_eq|]);
      intros k' Hne; (rewrite lookup_insert_ne; [reflexivity|]);
      intros E; apply Hne; symmetry; now apply name_inj. }
  assert (Hrej : accepted (set_rejects s) 1 = 0%nat ->
            (exists e, (setSyncStorage k v s).1 = Throw e) /\
            items (setSyncStorage k v s).2 = items s).
  { intros Ha. unfold setSyncStorage.
    destruct (set_rejects s) as [|[|] coming]; try discriminate Ha.
    split; [eexists|]; reflexivity. }
  assert (Hdef : get_fails s = true ->
            getAllSettings s = defaults /\ getSyncStorage k d s = d).
  { intros Hg. unfold getAllSettings, getSyncStorage. now rewrite Hg. }
  enough (Hsave :
    (saveSettings f s).1 = bool_decide (accepted (set_rejects s) 6 = 6%nat) /\
    get_fails (saveSettings f s).2 = get_fails s /\
    (get_fails s = false ->
     field k (getAllSettings (saveSettings f s).2) =
       if (rank k <? accepted (set_rejects s) 6)%nat then field k (of_form f)
       else field k (getAllSettings s)) /\
    (get_fails s = false -> accepted (set_rejects s) 6 = 6%nat ->
     getAllSettings (saveSettings f s).2 = of_form f)).
  { destruct Hsave as (H1 & H2 & H3 & H4). repeat split; try assumption;
      first [apply Hone | apply Hrej | apply Hdef]; assumption. }
  clear. destruct s as [it g coming]. cbn [set_rejects get_fails].
  (* one case for each number of writes made before the first rejection *)
  do 6 (destruct coming as [|[|] coming]; [save_end k | save_end k | ]).
  save_end k.
Qed.

Lemma settings_are_read_back_witness :
  let s := {| items := {[ "defaultShelf" := SString "to-read" ]};
              get_fails := false; set_rejects := [false; false; true] |} in
  let f := {| autoScan_checked := false; confirmBeforeAdd_checked := true;
              defaultShelf_value := "read"; googleApiKey_value := EmptyString;
              goodreadsApiKey_value := EmptyString;
              goodreadsApiSecret_value := EmptyString |} in
  (saveSettings f s).1 = false /\
  autoScan (getAllSettings (saveSettings f s).2) = SBool false /\
  defaultShelf (getAllSettings (saveSettings f s).2) = SString "to-read".
Proof.
  cbv zeta.
  set (s := {| items := {[ "defaultShelf" := SString "to-read" ]};
               get_fails := false; set_rejects := [false; false; true] |}).
  set (f := {| autoScan_checked := false; confirmBeforeAdd_checked := true;
               defaultShelf_value := "read"; googleApiKey_value := EmptyString;
               goodreadsApiKey_value := EmptyString;
               goodreadsApiSecret_value := EmptyString |}).
  split; [exact (proj1 (settings_are_read_back f AUTO_SCAN (SBool true) (SBool true) s))|].
  split.
  - exact (proj1 (proj2 (proj2
             (settings_are_read_back f AUTO_SCAN (SBool true) (SBool true) s))) eq_refl).
  - exact (proj1 (proj2 (proj2
             (settings_are_read_back f DEFAULT_SHELF (SBool true) (SBool true) s))) eq_refl).
Defined.

End SettingsFacts.

(** ** The search on Goodreads *)

Section GoodreadsFacts.
Import World Goodreads.

Lemma chars_app a b : chars (a +:+ b) = chars a ++ chars b.
Proof. induction a as [|c a IH]; [reflexivity|]. rewrite append_String. cbn. now rewrite IH. Qed.

Lemma hex_unreserved n : 0 <= n < 16 -> unreserved (hex n) = true.
Proof.
  intros H. rewrite <- (Z2Nat.id n) by lia.
  assert (Hk : (Z.to_nat n < 16)%nat) by lia.
  revert Hk. generalize (Z.to_nat n). intros k Hk.
  do 16 (destruct k as [|k]; [reflexivity|]). lia.
Qed.

Lemma percent_safe n : 0 <= n < 256 -> Forall url_safe (chars (percent n)).
Proof.
  intros H. unfold percent. cbn [chars].
  constructor; [now right|].
  constructor; [left; apply hex_unreserved|].
  - split; [apply Z.div_pos; lia|apply Z.div_lt_upper_bound; lia].
  - constructor; [left; apply hex_unreserved|constructor].
    apply Z.mod_pos_bound. lia.
Qed.

Lemma code_bounds c : 0 <= Js.code c < 256.
Proof. destruct c as [[] [] [] [] [] [] [] []]; vm_compute; split; congruence. Qed.

Lemma escape_safe c : Forall url_safe (chars (escape c)).
Proof.
  unfold escape. pose proof (code_bounds c) as H. cbv zeta.
  destruct (Js.code c <? 128) eqn:E.
  - now apply percent_safe.
  - apply Z.ltb_ge in E. rewrite chars_app. apply Forall_app. split; apply percent_safe.
    + assert (Js.code c / 64 < 4) by (apply Z.div_lt_upper_bound; lia).
      assert (0 <= Js.code c / 64) by (apply Z.div_pos; lia). lia.
    + pose proof (Z.mod_pos_bound (Js.code c) 64). lia.
Qed.

Lemma encodeURIComponent_safe s : Forall url_safe (chars (encodeURIComponent s)).
Proof.
  induction s as [|c s IH]; cbn [encodeURIComponent]; [constructor|].
  destruct (unreserved c) eqn:E.
  - cbn [chars]. constructor; [now left|exact IH].
  - rewrite chars_app. apply Forall_app. split; [apply escape_safe|exact IH].
Qed.

Lemma encodeURIComponent_id s :
  Forall (fun c => unreserved c = true) (chars s) -> encodeURIComponent s = s.
Proof.
  induction s as [|c s IH]; [reflexivity|]. cbn [chars encodeURIComponent].
  intros H. inversion H as [|? ? Hc Hs]; subst. now rewrite Hc, IH.
Qed.

End GoodreadsFacts.

Section GoodreadsSearch.
Import World Goodreads.

Lemma Forall_chars_get (P : ascii -> Prop) s :
  (forall i c, String.get i s = Some c -> P c) -> Forall P (chars s).
Proof.
  induction s as [|a s IH]; intros H; cbn [chars]; constructor.
  - apply (H 0%nat). reflexivity.
  - apply IH. intros i c Hc. apply (H (S i)). exact Hc.
Qed.

Lemma check_unreserved c v : IsbnSpec.check c = Some v -> unreserved c = true.
Proof.
  destruct c as [[] [] [] [] [] [] [] []]; intros H; vm_compute in H;
    try discriminate H; reflexivity.
Qed.

(** An ISBN that [isValidISBN] accepts in normalised form is made of digits,
    and of [X] in the last place of an ISBN-10. *)
Lemma valid_isbn_unreserved x :
  Isbn.isValidISBN x = true -> Isbn.normalizeISBN x = x ->
  Forall (fun c => unreserved c = true) (chars x).
Proof.
  intros Hv Hn. unfold Isbn.isValidISBN in Hv. rewrite Hn in Hv.
  apply Forall_chars_get. intros i c Hc.
  pose proof (get_Some_lt _ _ _ Hc) as Hi.
  destruct (String.length x =? 10)%nat eqn:L10.
  - apply Nat.eqb_eq in L10. rewrite L10 in Hi.
    apply validateISBN10Checksum_iff in Hv as (_ & d & Hd & (c9 & H9 & Hv9) & _).
    destruct (Nat.eq_dec i 9%nat) as [->|Hne].
    + assert (c9 = c) by congruence. subst c9. exact (check_unreserved _ _ Hv9).
    + destruct (Hd i ltac:(lia)) as (c' & Hc' & Hv').
      assert (c' = c) by congruence. subst c'.
      apply (check_unreserved c (d i)), check_digit, Hv'.
  - destruct (String.length x =? 13)%nat eqn:L13; [|discriminate].
    apply Nat.eqb_eq in L13. rewrite L13 in Hi.
    destruct (negb _ && negb _); [discriminate|].
    apply validateISBN13Checksum_iff in Hv as (_ & d & Hd & _).
    destruct (Hd i Hi) as (c' & Hc' & Hv').
    assert (c' = c) by congruence. subst c'.
    apply (check_unreserved c (d i)), check_digit, Hv'.
Qed.

(** [handleSearchGoodreads] never throws.  When the tab can be created it
    opens one tab, at the search address followed by "?q=" and the encoded
    ISBN, and reports success; when the creation is rejected it opens none
    and reports the failure with the message of the error.  The encoded
    ISBN holds only characters that stand for themselves in a query, and
    escapes; an ISBN that [extractISBNs] returned is encoded as itself. *)
Theorem handleSearchGoodreads_opens_search (isbn text : string) (b : Browser) :
  (create_fails b = None ->
   handleSearchGoodreads isbn b
   = (SearchSuccess,
      {| created := created b ++
                    [GOODREADS_SEARCH +:+ "?q=" +:+ encodeURIComponent isbn];
         create_fails := None |})) /\
  (forall e, create_fails b = Some e ->
     handleSearchGoodreads isbn b = (SearchFailure e, b)) /\
  Forall url_safe (chars (encodeURIComponent isbn)) /\
  (isbn ∈ Isbn.extractISBNs text -> encodeURIComponent isbn = isbn).
Proof.
  unfold handleSearchGoodreads, searchOnGoodreads, chrome_tabs_create. cbv zeta.
  split; [now intros ->|]. split; [now intros e ->|].
  split; [apply encodeURIComponent_safe|].
  intros Hin. destruct (extractISBNs_valid _ _ Hin) as [Hv Hn].
  apply encodeURIComponent_id, valid_isbn_unreserved; assumption.
Qed.

Lemma handleSearchGoodreads_opens_search_witness :
  handleSearchGoodreads "0306406152" {| created := []; create_fails := None |}
  = (SearchSuccess,
     {| created := ["https://www.goodreads.com/search?q=0306406152"];
        create_fails := None |}) /\
  encodeURIComponent "0306406152" = "0306406152".
Proof.
  destruct (handleSearchGoodreads_opens_search "0306406152" "ISBN 0-306-40615-2"
              {| created := []; create_fails := None |}) as (H1 & _ & _ & H2).
  split; [exact (H1 eq_refl)|]. apply H2. vm_compute. left.
Defined.

End GoodreadsSearch.
